(** * URL shortener: a shallow embedding of the service's core

    The development follows the Python sources of the repository:

    - [app/core/id_generator.py]  Base62 codec and Snowflake generator
    - [app/core/redis_client.py]  the cache wrapper [RedisCache]
    - [app/core/worker_id.py]     worker-id leasing
    - [app/core/analytics.py]     click-event publisher
    - [app/api/endpoints.py]      the two HTTP handlers
    - [event-consumer/consumer.py] the bus consumer

    Python integers are unbounded, so they are [Z]; Python [str] is [string];
    a raised exception is the [Raise] branch of [result]; mutable objects and
    external services are explicit state threaded through a state-and-error
    monad. *)

From Stdlib Require Import ZArith String Ascii List Lia Bool Sorted DecimalString.
From stdpp Require Import base option gmap strings list.

Local Open Scope string_scope.
Local Open Scope Z_scope.

(** ** Exceptions and outcomes *)

(** The exception classes the sources raise or catch.  [CancelledError]
    derives from [BaseException] only, so [except Exception] lets it pass. *)
Inductive exn : Type :=
  | ValueError
  | RuntimeError
  | KeyError
  | AttributeError
  | TypeError
  | JSONDecodeError
  | UnicodeDecodeError
  | ConnectionError
  | ResponseError
  | IntegrityError
  | AMQPConnectionError
  | ChannelClosed
  | ClickHouseError
  | CancelledError
  | HTTPException (status_code : Z) (detail : string).

Definition is_Exception (e : exn) : bool :=
  match e with
  | CancelledError => false
  | _ => true
  end.

(** [except json.JSONDecodeError] *)
Definition is_JSONDecodeError (e : exn) : bool :=
  match e with
  | JSONDecodeError => true
  | _ => false
  end.

(** What a call can do: return, raise, or never return (a loop for which
    the environment supplied no exit). *)
Inductive result (A : Type) : Type :=
  | Ok (a : A)
  | Raise (e : exn)
  | Diverge.
Arguments Ok {A} a.
Arguments Raise {A} e.
Arguments Diverge {A}.

(** ** A state-and-error monad *)

Definition M (S A : Type) : Type := S -> result A * S.

Definition ret {S A} (a : A) : M S A := fun s => (Ok a, s).

Definition bind {S A B} (m : M S A) (k : A -> M S B) : M S B :=
  fun s =>
    match m s with
    | (Ok a, s') => k a s'
    | (Raise e, s') => (Raise e, s')
    | (Diverge, s') => (Diverge, s')
    end.

Definition raise {S A} (e : exn) : M S A := fun s => (Raise e, s).
Definition get_state {S} : M S S := fun s => (Ok s, s).
Definition modify {S} (f : S -> S) : M S unit := fun s => (Ok tt, f s).

(** [try: body  except <selected classes> as e: handler e] *)
Definition try_except {S A} (body : M S A) (catches : exn -> bool)
    (handler : exn -> M S A) : M S A :=
  fun s =>
    match body s with
    | (Raise e, s') => if catches e then handler e s' else (Raise e, s')
    | r => r
    end.

(** Run a computation of a component on its part of a larger state. *)
Definition zoom {S T A} (proj : S -> T) (put : T -> S -> S) (m : M T A) : M S A :=
  fun s => let '(r, t) := m (proj s) in (r, put t s).

Declare Scope py_scope.
Delimit Scope py_scope with py.
Notation "x <- m ;; k" := (bind m (fun x => k))
  (at level 100, m at next level, right associativity) : py_scope.
Notation "m ;;; k" := (bind m (fun _ => k))
  (at level 100, right associativity) : py_scope.

(** ** Logging *)

Inductive level : Type := DEBUG | INFO | WARNING | ERROR.
Definition log_entry : Type := (level * string)%type.

(** ** Python string helpers *)

(** [s.replace(c, by)] for a one-character pattern [c]. *)
Fixpoint str_replace (c : ascii) (by_ : string) (s : string) : string :=
  match s with
  | EmptyString => EmptyString
  | String a rest =>
      if Ascii.eqb a c then by_ ++ str_replace c by_ rest
      else String a (str_replace c by_ rest)
  end.

(** [s.rstrip(c)] for a one-character set. *)
Fixpoint str_rstrip (c : ascii) (s : string) : string :=
  match s with
  | EmptyString => EmptyString
  | String a rest =>
      match str_rstrip c rest with
      | EmptyString => if Ascii.eqb a c then EmptyString else String a EmptyString
      | rest' => String a rest'
      end
  end.

(** Truthiness of an optional string: [None] and [""] are falsy. *)
Definition truthy_str (o : option string) : bool :=
  match o with
  | Some (String _ _) => true
  | _ => false
  end.

(** [c in s] *)
Fixpoint str_mem (c : ascii) (s : string) : bool :=
  match s with
  | EmptyString => false
  | String a rest => Ascii.eqb a c || str_mem c rest
  end.

(** [urllib.parse.quote(s, safe)].  A text is held as its UTF-8 bytes, which
    is what [quote] works on: a byte that is a letter, a digit, one of
    [_.-~] or one of [safe] stays; any other becomes [%XX], in capital
    hexadecimal digits. *)
Definition ALWAYS_SAFE : string :=
  "ABCDEFGHIJKLMNOPQRSTUVWXYZabcdefghijklmnopqrstuvwxyz0123456789_.-~".

Definition hex_digit (n : N) : ascii :=
  match String.get (N.to_nat n) "0123456789ABCDEF" with
  | Some d => d
  | None => "0"%char
  end.

Definition quote_keeps (safe : string) (c : ascii) : bool :=
  str_mem c ALWAYS_SAFE || str_mem c safe.

Fixpoint quote (safe : string) (s : string) : string :=
  match s with
  | EmptyString => EmptyString
  | String c rest =>
      if quote_keeps safe c then String c (quote safe rest)
      else String "%" (String (hex_digit (N_of_ascii c / 16))
                         (String (hex_digit (N_of_ascii c mod 16)) (quote safe rest)))
  end.

(** ** app/core/id_generator.py: Base62 *)

Module Base62.

Definition BASE62_CHARS : string :=
  "0123456789abcdefghijklmnopqrstuvwxyzABCDEFGHIJKLMNOPQRSTUVWXYZ".

(** [BASE62_CHARS[i]] for an index in range. *)
Definition char_at (i : Z) : ascii :=
  match String.get (Z.to_nat i) BASE62_CHARS with
  | Some c => c
  | None => "000"%char
  end.

(** [BASE62_CHARS.index(char)]: position of the first occurrence, or
    [ValueError]. *)
Fixpoint index_from (c : ascii) (s : string) (i : Z) : option Z :=
  match s with
  | EmptyString => None
  | String a rest => if Ascii.eqb a c then Some i else index_from c rest (i + 1)
  end.

Definition index (c : ascii) : option Z := index_from c BASE62_CHARS 0.

(** The [while num > 0] loop of [base62_encode]; [encoded] is the list being
    appended to.  Every turn divides [num] by 62, so [fuel] turns are enough
    for any [num < 2 ^ fuel]. *)
Fixpoint encode_loop (fuel : nat) (num : Z) (encoded : list ascii) : list ascii :=
  match fuel with
  | O => encoded
  | S fuel' =>
      if 0 <? num
      then encode_loop fuel' (num / 62) (encoded ++ [char_at (num mod 62)])
      else encoded
  end.

Definition encode_fuel (num : Z) : nat := S (Z.to_nat (Z.log2 num)).

Definition base62_encode (num : Z) : string :=
  if num =? 0 then String (char_at 0) EmptyString
  else string_of_list_ascii (rev (encode_loop (encode_fuel num) num [])).

(** The [for char in encoded] loop of [base62_decode]. *)
Fixpoint decode_loop (num : Z) (encoded : list ascii) : result Z :=
  match encoded with
  | [] => Ok num
  | char :: rest =>
      match index char with
      | Some d => decode_loop (num * 62 + d) rest
      | None => Raise ValueError
      end
  end.

Definition base62_decode (encoded : string) : result Z :=
  decode_loop 0 (list_ascii_of_string encoded).

End Base62.

(** ** app/core/id_generator.py: SnowflakeIDGenerator *)

Module Snowflake.

Definition TIMESTAMP_BITS : Z := 41.
Definition WORKER_ID_BITS : Z := 10.
Definition SEQUENCE_BITS : Z := 12.
Definition MAX_WORKER_ID : Z := Z.shiftl 1 WORKER_ID_BITS - 1.
Definition MAX_SEQUENCE : Z := Z.shiftl 1 SEQUENCE_BITS - 1.
Definition EPOCH : Z := 1704067200000.

(** The instance attributes. *)
Record t : Type := Build {
  worker_id : Z;
  sequence : Z;
  last_timestamp : Z
}.

Definition set_sequence (v : Z) (self : t) : t :=
  {| worker_id := worker_id self; sequence := v; last_timestamp := last_timestamp self |}.
Definition set_last_timestamp (v : Z) (self : t) : t :=
  {| worker_id := worker_id self; sequence := sequence self; last_timestamp := v |}.

(** [__init__] *)
Definition init (worker_id : Z) : result t :=
  if negb ((0 <=? worker_id) && (worker_id <=? MAX_WORKER_ID))
  then Raise ValueError
  else Ok {| worker_id := worker_id; sequence := 0; last_timestamp := -1 |}.

(** The wall clock is the list of the readings (milliseconds) it will give,
    in order; the generator and the clock form the state of a call. *)
Record state : Type := State {
  self : t;
  clock : list Z
}.

(** [_current_timestamp]: take the next reading.  With no reading left the
    model cannot tell what the call returns. *)
Definition _current_timestamp : M state Z :=
  fun s =>
    match clock s with
    | [] => (Diverge, s)
    | now :: later => (Ok now, {| self := self s; clock := later |})
    end.

(** [_wait_next_millisecond]: one reading, then the [while] loop, reading
    again as long as the clock has not passed [last_timestamp].  It is
    structurally recursive on the readings left. *)
Fixpoint spin (last_timestamp : Z) (timestamp : Z) (readings : list Z) : result Z * list Z :=
  if timestamp <=? last_timestamp then
    match readings with
    | [] => (Diverge, [])
    | now :: later => spin last_timestamp now later
    end
  else (Ok timestamp, readings).

Definition _wait_next_millisecond (last_timestamp : Z) : M state Z :=
  (timestamp <- _current_timestamp ;;
   fun s => let '(r, c) := spin last_timestamp timestamp (clock s) in
            (r, {| self := self s; clock := c |}))%py.

Definition update_self (f : t -> t) : M state unit :=
  modify (fun s => {| self := f (self s); clock := clock s |}).

(** [generate] *)
Definition generate : M state Z :=
  (timestamp <- _current_timestamp ;;
   s <- get_state ;;
   if timestamp <? last_timestamp (self s) then raise RuntimeError
   else
     timestamp <-
       (if timestamp =? last_timestamp (self s) then
          let sequence' := Z.land (sequence (self s) + 1) MAX_SEQUENCE in
          update_self (set_sequence sequence') ;;;
          if sequence' =? 0
          then _wait_next_millisecond (last_timestamp (self s))
          else ret timestamp
        else
          update_self (set_sequence 0) ;;;
          ret timestamp) ;;
     update_self (set_last_timestamp timestamp) ;;;
     s <- get_state ;;
     let id_value :=
       Z.lor
         (Z.lor (Z.shiftl (timestamp - EPOCH) (WORKER_ID_BITS + SEQUENCE_BITS))
                (Z.shiftl (worker_id (self s)) SEQUENCE_BITS))
         (sequence (self s)) in
     ret id_value)%py.

(** [generate_short_code] *)
Definition generate_short_code : M state string :=
  (id_value <- generate ;; ret (Base62.base62_encode id_value))%py.

(** [parse_id] *)
Record parsed : Type := Parsed {
  p_timestamp : Z;
  p_worker_id : Z;
  p_sequence : Z
}.

Definition parse_id (id_value : Z) : parsed :=
  {| p_sequence := Z.land id_value MAX_SEQUENCE;
     p_worker_id := Z.land (Z.shiftr id_value SEQUENCE_BITS) MAX_WORKER_ID;
     p_timestamp := Z.shiftr id_value (WORKER_ID_BITS + SEQUENCE_BITS) + EPOCH |}.

(** A caller that calls [generate] [n] times in a row, going on after a
    refused call; the ids returned, oldest first.  The run stops where the
    readings run out. *)
Fixpoint generate_calls (n : nat) (s : state) : list Z :=
  match n with
  | O => []
  | S n' =>
      match generate s with
      | (Ok id_value, s') => id_value :: generate_calls n' s'
      | (Raise _, s') => generate_calls n' s'
      | (Diverge, _) => []
      end
  end.

End Snowflake.

(** ** app/core/setting.py: the settings the core reads *)

Record Settings : Type := {
  RABBITMQ_QUEUE : string;
  WORKER_ID_LEASE_TTL : Z;
  WORKER_ID_RENEWAL_INTERVAL : Z;
  MAX_WORKER_ID : Z;
  BASE_URL : string
}.

(** The field defaults of [Settings]. *)
Definition default_settings : Settings :=
  {| RABBITMQ_QUEUE := "click_events";
     WORKER_ID_LEASE_TTL := 60;
     WORKER_ID_RENEWAL_INTERVAL := 30;
     MAX_WORKER_ID := 1023;
     BASE_URL := "http://localhost:8000" |}.

(** ** The key-value store behind [redis.asyncio.Redis]

    The store maps a key to its value and the time to live it was last given.
    Time itself is not modelled: a key whose time has run out is a key the
    environment has removed ([expired]).  The server is shared, so other
    processes change [data] between two commands of this one.  [faults]
    schedules transport failures: each command takes the next flag and
    raises when it is set. *)

Module Redis.

Record t : Type := Build {
  data : gmap string (string * Z);
  faults : list bool
}.

Definition command {A} (run : gmap string (string * Z) -> A * gmap string (string * Z)) : M t A :=
  fun r =>
    match faults r with
    | true :: later => (Raise ConnectionError, {| data := data r; faults := later |})
    | false :: later =>
        let '(a, d) := run (data r) in (Ok a, {| data := d; faults := later |})
    | [] =>
        let '(a, d) := run (data r) in (Ok a, {| data := d; faults := [] |})
    end.

(** [GET key] *)
Definition get (key : string) : M t (option string) :=
  command (fun d => (fst <$> d !! key, d)).

(** [SETEX key ttl value]: the server refuses a time to live that is not
    positive (invalid expire time) and stores nothing; the client raises
    [ResponseError]. *)
Definition setex (key : string) (ttl : Z) (value : string) : M t bool :=
  (accepted <- command (fun d => if 0 <? ttl then (true, <[key := (value, ttl)]> d)
                                 else (false, d)) ;;
   if accepted : bool then ret true else raise ResponseError)%py.

(** [SET key value NX EX ttl]: truthy when the key was set. *)
Definition set_nx_ex (key value : string) (ex : Z) : M t bool :=
  command (fun d =>
    match d !! key with
    | Some _ => (false, d)
    | None => (true, <[key := (value, ex)]> d)
    end).

(** [EXPIRE key ttl]: whether the key existed. *)
Definition expire (key : string) (ttl : Z) : M t bool :=
  command (fun d =>
    match d !! key with
    | Some (value, _) => (true, <[key := (value, ttl)]> d)
    | None => (false, d)
    end).

(** [DEL key] *)
Definition delete (key : string) : M t Z :=
  command (fun d =>
    match d !! key with
    | Some _ => (1, base.delete key d)
    | None => (0, d)
    end).

(** [EXISTS key] *)
Definition exists_ (key : string) : M t Z :=
  command (fun d => (match d !! key with Some _ => 1 | None => 0 end, d)).

(** The environment: the time to live of [key] runs out. *)
Definition expired (key : string) (r : t) : t :=
  {| data := base.delete key (data r); faults := faults r |}.

End Redis.

(** ** app/core/redis_client.py: RedisCache *)

Module RedisCache.

Definition KEY_PREFIX : string := "short_url:".
Definition DEFAULT_TTL : Z := 86400.

Definition _make_key (short_code : string) : string := KEY_PREFIX ++ short_code.

Definition get (short_code : string) : M Redis.t (option string) :=
  let key := _make_key short_code in
  Redis.get key.

(** [ttl or self.DEFAULT_TTL]: [None] and [0] are falsy. *)
Definition ttl_or_default (ttl : option Z) : Z :=
  match ttl with
  | None => DEFAULT_TTL
  | Some v => if v =? 0 then DEFAULT_TTL else v
  end.

Definition set (short_code original_url : string) (ttl : option Z) : M Redis.t unit :=
  (let key := _make_key short_code in
   let ttl := ttl_or_default ttl in
   _ <- Redis.setex key ttl original_url ;;
   ret tt)%py.

Definition delete (short_code : string) : M Redis.t unit :=
  (let key := _make_key short_code in
   _ <- Redis.delete key ;;
   ret tt)%py.

Definition exists_ (short_code : string) : M Redis.t bool :=
  (let key := _make_key short_code in
   n <- Redis.exists_ key ;;
   ret (negb (n =? 0)))%py.

End RedisCache.

(** ** app/core/worker_id.py: WorkerIDManager *)

Module WorkerID.

Definition REDIS_KEY_PREFIX : string := "worker_id:lease:".

(** [str(n)] for the f-string of the lease key. *)
Definition str_of_int (n : Z) : string :=
  DecimalString.NilZero.string_of_int (Z.to_int n).

Definition lease_key (n : Z) : string := REDIS_KEY_PREFIX ++ str_of_int n.

(** Where the renewal task stands between two resumptions.  Its suspension
    points are the [await]s of [_renew_lease_loop]: the sleep, the [expire]
    and the [set]. *)
Inductive task : Type :=
  | Sleeping            (* in [asyncio.sleep] *)
  | Reacquiring         (* [expire] said the key is gone; [set] not yet sent *)
  | Done.               (* returned, or ended by an exception *)

Record manager : Type := Manager {
  worker_id : option Z;
  renewal_task : option task;
  lease_ttl : Z;
  renewal_interval : Z
}.

(** [__init__] *)
Definition init (settings : Settings) : manager :=
  {| worker_id := None;
     renewal_task := None;
     lease_ttl := WORKER_ID_LEASE_TTL settings;
     renewal_interval := WORKER_ID_RENEWAL_INTERVAL settings |}.

(** One process: its manager, its log, and the server it talks to. *)
Record world : Type := World {
  redis : Redis.t;
  self : manager;
  log : list log_entry
}.

Definition on_redis {A} (m : M Redis.t A) : M world A :=
  zoom redis (fun r w => {| redis := r; self := self w; log := log w |}) m.

Definition update_self (f : manager -> manager) : M world unit :=
  modify (fun w => {| redis := redis w; self := f (self w); log := log w |}).

Definition logger (lvl : level) (msg : string) : M world unit :=
  modify (fun w => {| redis := redis w; self := self w; log := (log w ++ [(lvl, msg)])%list |}).

Definition set_worker_id (v : option Z) (m : manager) : manager :=
  {| worker_id := v; renewal_task := renewal_task m;
     lease_ttl := lease_ttl m; renewal_interval := renewal_interval m |}.

Definition set_renewal_task (v : option task) (m : manager) : manager :=
  {| worker_id := worker_id m; renewal_task := v;
     lease_ttl := lease_ttl m; renewal_interval := renewal_interval m |}.

(** [range(max_worker_id + 1)] *)
Definition range (n : Z) : list Z := map Z.of_nat (seq 0 (Z.to_nat n)).

(** The [for candidate_id in ...] loop of [acquire_worker_id]. *)
Fixpoint acquire_loop (max_worker_id : Z) (candidates : list Z) : M world Z :=
  match candidates with
  | [] => raise RuntimeError
  | candidate_id :: rest =>
      (let key := lease_key candidate_id in
       s <- get_state ;;
       acquired <- on_redis (Redis.set_nx_ex key "leased" (lease_ttl (self s))) ;;
       if acquired : bool then
         update_self (set_worker_id (Some candidate_id)) ;;;
         logger INFO "Acquired worker ID" ;;;
         update_self (set_renewal_task (Some Sleeping)) ;;;
         ret candidate_id
       else acquire_loop max_worker_id rest)%py
  end.

Definition acquire_worker_id (settings : Settings) : M world Z :=
  let max_worker_id := MAX_WORKER_ID settings in
  acquire_loop max_worker_id (range (max_worker_id + 1)).

(** The two handlers around the [while True] of [_renew_lease_loop]:
    a cancellation is logged and raised again, any [Exception] is logged
    and ends the task without raising. *)
Definition renew_guard (body : M world task) : M world task :=
  try_except body (fun _ => true)
    (fun e =>
       if is_Exception e
       then (logger ERROR "Error in lease renewal loop" ;;; ret Done)%py
       else (logger DEBUG "Lease renewal task cancelled" ;;;
             update_self (set_renewal_task (Some Done)) ;;; raise e)%py).

(** One resumption of the renewal task of a manager that holds [n]: it runs
    from the suspension point it stands at to the next one. *)
Definition renew_resume (n : Z) (at_ : task) : M world task :=
  let key := lease_key n in
  match at_ with
  | Sleeping =>
      renew_guard
        (s <- get_state ;;
         renewed <- on_redis (Redis.expire key (lease_ttl (self s))) ;;
         if negb renewed then
           logger WARNING "Worker ID lease expired. Attempting to reacquire..." ;;;
           ret Reacquiring
         else
           logger DEBUG "Renewed lease for worker ID" ;;;
           ret Sleeping)%py
  | Reacquiring =>
      renew_guard
        (s <- get_state ;;
         _ <- on_redis (Redis.set_nx_ex key "leased" (lease_ttl (self s))) ;;
         logger DEBUG "Renewed lease for worker ID" ;;;
         ret Sleeping)%py
  | Done => ret Done
  end.

(** The event loop resumes the renewal task once. *)
Definition _renew_lease_loop_step : M world unit :=
  (s <- get_state ;;
   match renewal_task (self s), worker_id (self s) with
   | Some at_, Some n =>
       at' <- renew_resume n at_ ;;
       update_self (set_renewal_task (Some at'))
   | Some _, None => update_self (set_renewal_task (Some Done))
   | None, _ => ret tt
   end)%py.

(** [release_worker_id] *)
Definition release_worker_id : M world unit :=
  (s <- get_state ;;
   match renewal_task (self s) with
   | Some _ => update_self (set_renewal_task None)
   | None => ret tt
   end ;;;
   match worker_id (self s) with
   | Some n =>
       _ <- on_redis (Redis.delete (lease_key n)) ;;
       logger INFO "Released worker ID" ;;;
       update_self (set_worker_id None)
   | None => ret tt
   end)%py.

(** [current_worker_id] *)
Definition current_worker_id (m : manager) : option Z := worker_id m.

(** Two processes on one server: run a computation of either against the
    shared store. *)
Record cluster : Type := Cluster {
  server : Redis.t;
  proc_a : manager * list log_entry;
  proc_b : manager * list log_entry
}.

Definition as_a {A} (m : M world A) (c : cluster) : result A * cluster :=
  let '(r, w) := m {| redis := server c; self := fst (proc_a c); log := snd (proc_a c) |} in
  (r, {| server := redis w; proc_a := (self w, log w); proc_b := proc_b c |}).

Definition as_b {A} (m : M world A) (c : cluster) : result A * cluster :=
  let '(r, w) := m {| redis := server c; self := fst (proc_b c); log := snd (proc_b c) |} in
  (r, {| server := redis w; proc_a := proc_a c; proc_b := (self w, log w) |}).

Definition lease_runs_out (n : Z) (c : cluster) : cluster :=
  {| server := Redis.expired (lease_key n) (server c);
     proc_a := proc_a c; proc_b := proc_b c |}.

End WorkerID.

(** ** app/db/models.py and the relational session *)

Module Db.

(** [class ShortURL(SQLModel, table=True)] *)
Record ShortURL : Type := Row {
  snowflake_id : Z;
  original_url : string;
  short_code : string;
  created_at : string
}.

(** [session.add(row); await session.commit()]: the primary key and the
    unique index on [short_code] are checked by the store.  Transport
    failures of the relational store are not modelled. *)
Definition add_commit (row : ShortURL) (table : list ShortURL) : result unit * list ShortURL :=
  if existsb (fun r => (snowflake_id r =? snowflake_id row)
                       || String.eqb (short_code r) (short_code row)) table
  then (Raise IntegrityError, table)
  else (Ok tt, (table ++ [row])%list).

(** [select(ShortURL).where(ShortURL.short_code == code)], then [.first()] *)
Definition select_first (code : string) (table : list ShortURL) : option ShortURL :=
  find (fun r => String.eqb (short_code r) code) table.

(** The schema's constraints, as a property of a table. *)
Definition unique_codes (table : list ShortURL) : Prop :=
  NoDup (map short_code table).

End Db.

(** ** The message bus as the API process sees it

    [reachable] tells whether a connection can be opened; [queue] holds the
    bodies routed to the click-event queue; [publish_faults] schedules what
    each [exchange.publish] does: [Some e] makes it raise [e]. *)

Module Bus.

Record t : Type := Build {
  reachable : bool;
  queue : list string;
  publish_faults : list (option exn)
}.

(** [aio_pika.connect_robust] and the declarations that follow it *)
Definition connect : M t unit :=
  fun b => if reachable b then (Ok tt, b) else (Raise AMQPConnectionError, b).

(** [exchange.publish(Message(body), routing_key=...)] *)
Definition publish (body : string) : M t unit :=
  fun b =>
    match publish_faults b with
    | Some e :: later =>
        (Raise e, {| reachable := reachable b; queue := queue b; publish_faults := later |})
    | None :: later =>
        (Ok tt, {| reachable := reachable b; queue := (queue b ++ [body])%list;
                   publish_faults := later |})
    | [] =>
        (Ok tt, {| reachable := reachable b; queue := (queue b ++ [body])%list;
                   publish_faults := [] |})
    end.

End Bus.

(** ** app/core/analytics.py and app/api/endpoints.py: the API process *)

Module Api.

(** What the handlers read of a [fastapi.Request]: the headers (names in
    lower case) and the peer address. *)
Record Request : Type := {
  headers : list (string * string);
  client : option string
}.

(** [request.headers.get(name, default)] *)
Fixpoint headers_get (name default : string) (hs : list (string * string)) : string :=
  match hs with
  | [] => default
  | (k, v) :: rest => if String.eqb k name then v else headers_get name default rest
  end.

(** The [event] dictionary of [publish_click_event]. *)
Record click_event : Type := {
  ev_short_code : string;
  ev_timestamp : string;
  ev_user_agent : string;
  ev_ip_address : string;
  ev_referrer : string;
  ev_original_url : string
}.

(** The coroutine object [analytics.publish_click_event(code, request, url)]
    handed to [asyncio.create_task]. *)
Record coroutine : Type := {
  co_short_code : string;
  co_request : Request;
  co_original_url : string
}.

Inductive AnalyticsPublisher : Type := Publisher.

(** The process: module globals, the services it talks to, the tasks its
    event loop holds, the wall clock and the log. *)
Record world : Type := World {
  settings : Settings;
  id_generator : option Snowflake.t;
  clock : list Z;
  utcnow : string;
  table : list Db.ShortURL;
  redis : Redis.t;
  analytics_publisher : option AnalyticsPublisher;
  bus : Bus.t;
  tasks : list coroutine;
  log : list log_entry
}.

Definition set_generator (g : option Snowflake.t) (c : list Z) (w : world) : world :=
  {| settings := settings w; id_generator := g; clock := c; utcnow := utcnow w;
     table := table w; redis := redis w; analytics_publisher := analytics_publisher w;
     bus := bus w; tasks := tasks w; log := log w |}.

Definition set_table (v : list Db.ShortURL) (w : world) : world :=
  {| settings := settings w; id_generator := id_generator w; clock := clock w;
     utcnow := utcnow w; table := v; redis := redis w;
     analytics_publisher := analytics_publisher w; bus := bus w; tasks := tasks w;
     log := log w |}.

Definition set_redis (v : Redis.t) (w : world) : world :=
  {| settings := settings w; id_generator := id_generator w; clock := clock w;
     utcnow := utcnow w; table := table w; redis := v;
     analytics_publisher := analytics_publisher w; bus := bus w; tasks := tasks w;
     log := log w |}.

Definition set_analytics_publisher (v : option AnalyticsPublisher) (w : world) : world :=
  {| settings := settings w; id_generator := id_generator w; clock := clock w;
     utcnow := utcnow w; table := table w; redis := redis w;
     analytics_publisher := v; bus := bus w; tasks := tasks w; log := log w |}.

Definition set_bus (v : Bus.t) (w : world) : world :=
  {| settings := settings w; id_generator := id_generator w; clock := clock w;
     utcnow := utcnow w; table := table w; redis := redis w;
     analytics_publisher := analytics_publisher w; bus := v; tasks := tasks w;
     log := log w |}.

Definition set_tasks (v : list coroutine) (w : world) : world :=
  {| settings := settings w; id_generator := id_generator w; clock := clock w;
     utcnow := utcnow w; table := table w; redis := redis w;
     analytics_publisher := analytics_publisher w; bus := bus w; tasks := v;
     log := log w |}.

Definition set_log (v : list log_entry) (w : world) : world :=
  {| settings := settings w; id_generator := id_generator w; clock := clock w;
     utcnow := utcnow w; table := table w; redis := redis w;
     analytics_publisher := analytics_publisher w; bus := bus w; tasks := tasks w;
     log := v |}.

Definition on_redis {A} (m : M Redis.t A) : M world A := zoom redis set_redis m.
Definition on_bus {A} (m : M Bus.t A) : M world A := zoom bus set_bus m.

Definition logger (lvl : level) (msg : string) : M world unit :=
  modify (fun w => set_log (log w ++ [(lvl, msg)])%list w).

(** [asyncio.create_task(coro)]: the task is scheduled, not run. *)
Definition create_task (co : coroutine) : M world unit :=
  modify (fun w => set_tasks (tasks w ++ [co])%list w).

(** The request metadata and the [event] dictionary that
    [publish_click_event] builds; [now] is [datetime.utcnow().isoformat()]. *)
Definition click_event_of (short_code : string) (request : Request)
    (original_url now : string) : click_event :=
  let user_agent := headers_get "user-agent" "" (headers request) in
  let ip_address := match client request with Some host => host | None => "" end in
  let referrer := headers_get "referer" "" (headers request) in
  {| ev_short_code := short_code;
     ev_timestamp := now ++ "Z";
     ev_user_agent := user_agent;
     ev_ip_address := ip_address;
     ev_referrer := referrer;
     ev_original_url := original_url |}.

Section Publisher.

(** [json.dumps(event).encode()]; a [Raise] is a serialisation error. *)
Variable json_dumps : click_event -> result string.

(** [AnalyticsPublisher.publish_click_event] *)
Definition publish_click_event (short_code : string) (request : Request)
    (original_url : string) : M world unit :=
  try_except
    (w <- get_state ;;
     let event := click_event_of short_code request original_url (utcnow w) in
     message_body <- (fun w => (json_dumps event, w)) ;;
     on_bus (Bus.publish message_body) ;;;
     logger DEBUG "Published click event")%py
    is_Exception
    (fun e => logger WARNING "Failed to publish click event").

End Publisher.

(** [get_analytics_publisher] *)
Definition get_analytics_publisher : M world (option AnalyticsPublisher) :=
  (w <- get_state ;;
   match analytics_publisher w with
   | None =>
       try_except
         (on_bus Bus.connect ;;;
          modify (set_analytics_publisher (Some Publisher)) ;;;
          logger INFO "Analytics publisher initialized")
         is_Exception
         (fun e =>
            logger ERROR "Failed to initialize analytics publisher. Analytics will be disabled." ;;;
            modify (set_analytics_publisher None))
   | Some _ => ret tt
   end ;;;
   w <- get_state ;;
   ret (analytics_publisher w))%py.

(** [get_id_generator] of app/core/id_service.py, followed by a call of a
    method of the generator it returns. *)
Definition with_id_generator {A} (method : M Snowflake.state A) : M world A :=
  fun w =>
    match id_generator w with
    | None => (Raise RuntimeError, w)
    | Some g =>
        let '(r, s) := method {| Snowflake.self := g; Snowflake.clock := clock w |} in
        (r, set_generator (Some (Snowflake.self s)) (Snowflake.clock s) w)
    end.

Definition session_add_commit (row : Db.ShortURL) : M world unit :=
  fun w => let '(r, t) := Db.add_commit row (table w) in (r, set_table t w).

Definition session_exec_first (code : string) : M world (option Db.ShortURL) :=
  (w <- get_state ;; ret (Db.select_first code (table w)))%py.

(** [class ShortenRequest(BaseModel)]: the URL has passed validation and is
    kept as the text [str(...)] gives. *)
Record ShortenRequest : Type := {
  req_original_url : string
}.

(** The dictionary [create_short_url] returns. *)
Record shorten_reply : Type := {
  r_short_code : string;
  r_short_url : string;
  r_original_url : string
}.

(** [create_short_url] *)
Definition create_short_url (request : option ShortenRequest) : M world shorten_reply :=
  (match request with
   | None => raise (HTTPException 400 "original_url is required")
   | Some request =>
       if String.eqb (req_original_url request) ""
       then raise (HTTPException 400 "original_url is required")
       else
         let url_to_shorten := req_original_url request in
         snowflake_id <- with_id_generator Snowflake.generate ;;
         short_code <- with_id_generator Snowflake.generate_short_code ;;
         w <- get_state ;;
         let short_url :=
           {| Db.snowflake_id := snowflake_id;
              Db.original_url := url_to_shorten;
              Db.short_code := short_code;
              Db.created_at := utcnow w |} in
         session_add_commit short_url ;;;
         on_redis (RedisCache.set short_code url_to_shorten None) ;;;
         let short_url_full :=
           str_rstrip "/" (BASE_URL (settings w)) ++ "/" ++ short_code in
         ret {| r_short_code := short_code;
                r_short_url := short_url_full;
                r_original_url := url_to_shorten |}
   end)%py.

(** [RedirectResponse(url=..., status_code=...)] *)
Record RedirectResponse : Type := {
  url : string;
  status_code : Z
}.

(** [redirect_to_url] *)
Definition redirect_to_url (short_code : string) (request : Request) : M world RedirectResponse :=
  (original_url <- on_redis (RedisCache.get short_code) ;;
   if truthy_str original_url then
     let original_url := match original_url with Some u => u | None => "" end in
     analytics <- get_analytics_publisher ;;
     match analytics with
     | Some _ =>
         create_task {| co_short_code := short_code; co_request := request;
                        co_original_url := original_url |}
     | None => ret tt
     end ;;;
     ret {| url := original_url; status_code := 301 |}
   else
     short_url <- session_exec_first short_code ;;
     match short_url with
     | None => raise (HTTPException 404 "Short URL not found")
     | Some short_url =>
         let original_url := Db.original_url short_url in
         on_redis (RedisCache.set short_code original_url None) ;;;
         analytics <- get_analytics_publisher ;;
         match analytics with
         | Some _ =>
             create_task {| co_short_code := short_code; co_request := request;
                            co_original_url := original_url |}
         | None => ret tt
         end ;;;
         ret {| url := original_url; status_code := 301 |}
     end)%py.

(** The event loop runs the tasks it holds; whatever a task does, nothing
    awaits it.  [json_dumps] is the serialiser the tasks call. *)
Fixpoint run_tasks (json_dumps : click_event -> result string)
    (pending : list coroutine) (w : world) : world :=
  match pending with
  | [] => w
  | co :: rest =>
      let '(_, w') :=
        publish_click_event json_dumps
          (co_short_code co) (co_request co) (co_original_url co) w in
      run_tasks json_dumps rest w'
  end.

(** The [Location] header that [RedirectResponse.__init__] of the framework
    sets: [quote(str(url), safe=":/%#?=@[]!$&'()*+,;")]. *)
Definition LOCATION_SAFE : string := ":/%#?=@[]!$&'()*+,;".

Definition location_header (resp : RedirectResponse) : string :=
  quote LOCATION_SAFE (url resp).

(** What the client of [GET /{short_code}] sees: the framework turns the
    handler's outcome into a status line and a [Location] header; an
    [HTTPException] gives its status, any other exception 500. *)
Record http_reply : Type := {
  status : Z;
  location : option string
}.

Definition reply_of (r : result RedirectResponse) : option http_reply :=
  match r with
  | Ok resp => Some {| status := status_code resp; location := Some (location_header resp) |}
  | Raise (HTTPException code _) => Some {| status := code; location := None |}
  | Raise _ => Some {| status := 500; location := None |}
  | Diverge => None
  end.

(** One request served: the handler runs, the reply goes out, then the
    detached tasks run. *)
Definition serve_redirect (json_dumps : click_event -> result string)
    (short_code : string) (request : Request) (w : world) : option http_reply * world :=
  let '(r, w') := redirect_to_url short_code request w in
  (reply_of r, run_tasks json_dumps (tasks w') (set_tasks [] w')).

End Api.

(** ** event-consumer/consumer.py *)

Module Consumer.

(** The values [json.loads] builds.  An object is the list of its members;
    as in a [dict], the last member with a given key is the one looked up. *)
Unset Elimination Schemes.
Inductive json : Type :=
  | JNull
  | JBool (b : bool)
  | JNumber (literal : string)
  | JString (s : string)
  | JArray (items : list json)
  | JObject (members : list (string * json)).
Set Elimination Schemes.

Fixpoint dict_lookup (key : string) (members : list (string * json)) : option json :=
  match members with
  | [] => None
  | (k, v) :: rest =>
      match dict_lookup key rest with
      | Some v' => Some v'
      | None => if String.eqb k key then Some v else None
      end
  end.

(** [obj.get(key, default)]: only a dict has the method. *)
Definition py_get (obj : json) (key : string) (default : json) : result json :=
  match obj with
  | JObject members =>
      match dict_lookup key members with
      | Some v => Ok v
      | None => Ok default
      end
  | _ => Raise AttributeError
  end.

(** [obj[key]] for a string key. *)
Definition py_getitem (obj : json) (key : string) : result json :=
  match obj with
  | JObject members =>
      match dict_lookup key members with
      | Some v => Ok v
      | None => Raise KeyError
      end
  | _ => Raise TypeError
  end.

(** [obj.replace(c, by)]: only a [str] has the method. *)
Definition py_replace (c : ascii) (by_ : string) (obj : json) : result string :=
  match obj with
  | JString s => Ok (str_replace c by_ s)
  | _ => Raise AttributeError
  end.

(** [escape_sql_string] *)
Definition escape_sql_string (s : json) : result string :=
  py_replace "'" "''" s.

Record IncomingMessage : Type := {
  body : string
}.

(** The tuple of literals of the [INSERT] statement. *)
Record click_row : Type := {
  short_code : string;
  timestamp : string;
  user_agent : string;
  ip_address : string;
  referrer : string;
  original_url : string
}.

(** The consumer process and the services around it: the messages waiting
    on the queue, the messages the broker has seen acknowledged, the messages
    it was told to reject without requeue, the rows of the table, the
    failures scheduled for [client.execute], the log. *)
Record world : Type := World {
  ready : list IncomingMessage;
  acknowledged : list IncomingMessage;
  rejected : list IncomingMessage;
  click_events : list click_row;
  execute_faults : list bool;
  log : list log_entry
}.

Definition logger (lvl : level) (msg : string) : M world unit :=
  modify (fun w =>
    {| ready := ready w; acknowledged := acknowledged w; rejected := rejected w;
       click_events := click_events w;
       execute_faults := execute_faults w; log := (log w ++ [(lvl, msg)])%list |}).

Definition lift {A} (r : result A) : M world A := fun w => (r, w).

(** [client.execute(insert_query)] *)
Definition execute_insert (row : click_row) : M world unit :=
  fun w =>
    match execute_faults w with
    | true :: later =>
        (Raise ClickHouseError,
         {| ready := ready w; acknowledged := acknowledged w; rejected := rejected w;
            click_events := click_events w;
            execute_faults := later; log := log w |})
    | faults =>
        (Ok tt,
         {| ready := ready w; acknowledged := acknowledged w; rejected := rejected w;
            click_events := (click_events w ++ [row])%list;
            execute_faults := tail faults; log := log w |})
    end.

(** The processing scope [async with message.process()] of the bus client
    library (aio_pika), as [process_message] opens it: with no argument, so
    with the library's [requeue=False].  When the block ends without an
    exception the scope sends [basic.ack]; when the block raises, the scope
    sends [basic.reject] without requeue and lets the exception pass.  The
    broker does not deliver a message rejected without requeue again: it
    drops it, or hands it to a dead-letter exchange when the queue has one
    ([consume_events] declares the queue without). *)
Definition ack (message : IncomingMessage) (w : world) : world :=
  {| ready := ready w; acknowledged := (acknowledged w ++ [message])%list;
     rejected := rejected w;
     click_events := click_events w; execute_faults := execute_faults w; log := log w |}.

(** [message.reject(requeue=False)] *)
Definition reject (message : IncomingMessage) (w : world) : world :=
  {| ready := ready w; acknowledged := acknowledged w;
     rejected := (rejected w ++ [message])%list;
     click_events := click_events w; execute_faults := execute_faults w; log := log w |}.

Definition message_process {A} (message : IncomingMessage) (block : M world A) : M world A :=
  fun w =>
    match block w with
    | (Ok a, w') => (Ok a, ack message w')
    | (Raise e, w') => (Raise e, reject message w')
    | (Diverge, w') => (Diverge, w')
    end.

Section Decoders.

(** [message.body.decode()]; [None] is a [UnicodeDecodeError]. *)
Variable bytes_decode : string -> option string.

(** [json.loads]; [None] is a [json.JSONDecodeError]. *)
Variable json_loads : string -> option json.

(** [datetime.fromisoformat(s).strftime("%Y-%m-%d %H:%M:%S")]; [None] is the
    [ValueError] of [fromisoformat]. *)
Variable fromisoformat_strftime : string -> option string.

(** [insert_click_event] *)
Definition insert_click_event (event : json) : M world unit :=
  try_except
    (timestamp_value <- lift (py_getitem event "timestamp") ;;
     timestamp_str <- lift (py_replace "Z" "+00:00" timestamp_value) ;;
     timestamp_clickhouse <-
       lift (match fromisoformat_strftime timestamp_str with
             | Some t => Ok t
             | None => Raise ValueError
             end) ;;
     v <- lift (py_get event "short_code" (JString "")) ;;
     short_code <- lift (escape_sql_string v) ;;
     v <- lift (py_get event "user_agent" (JString "")) ;;
     user_agent <- lift (escape_sql_string v) ;;
     v <- lift (py_get event "ip_address" (JString "")) ;;
     ip_address <- lift (escape_sql_string v) ;;
     v <- lift (py_get event "referrer" (JString "")) ;;
     referrer <- lift (escape_sql_string v) ;;
     v <- lift (py_get event "original_url" (JString "")) ;;
     original_url <- lift (escape_sql_string v) ;;
     execute_insert
       {| short_code := short_code; timestamp := timestamp_clickhouse;
          user_agent := user_agent; ip_address := ip_address;
          referrer := referrer; original_url := original_url |} ;;;
     _ <- lift (py_get event "short_code" JNull) ;;
     logger DEBUG "Inserted click event")%py
    is_Exception
    (fun e =>
       (logger ERROR "Failed to insert click event" ;;;
        logger ERROR "Event data" ;;;
        raise e)%py).

(** [process_message] *)
Definition process_message (message : IncomingMessage) : M world unit :=
  message_process message
    (try_except
       (text <- lift (match bytes_decode (body message) with
                      | Some text => Ok text
                      | None => Raise UnicodeDecodeError
                      end) ;;
        event_data <- lift (match json_loads text with
                            | Some v => Ok v
                            | None => Raise JSONDecodeError
                            end) ;;
        _ <- lift (py_get event_data "short_code" JNull) ;;
        logger DEBUG "Received event" ;;;
        insert_click_event event_data ;;;
        _ <- lift (py_get event_data "short_code" JNull) ;;
        logger INFO "Successfully processed click event")%py
       (fun e => is_JSONDecodeError e || is_Exception e)
       (fun e =>
          if is_JSONDecodeError e then
            (logger ERROR "Failed to parse JSON message" ;;;
             logger ERROR "Message body")%py
          else
            (logger ERROR "Error processing message" ;;;
             raise e)%py)).

(** The next delivery of [async for message in queue_iter]: the message at
    the head of the queue is handed to [process_message]. *)
Definition deliver_next : M world unit :=
  fun w =>
    match ready w with
    | [] => (Diverge, w)
    | message :: rest =>
        process_message message
          {| ready := rest; acknowledged := acknowledged w; rejected := rejected w;
             click_events := click_events w;
             execute_faults := execute_faults w; log := log w |}
    end.

End Decoders.

(** [client.execute] of a statement that adds no row. *)
Definition execute_statement : M world unit :=
  fun w =>
    match execute_faults w with
    | true :: later =>
        (Raise ClickHouseError,
         {| ready := ready w; acknowledged := acknowledged w; rejected := rejected w;
            click_events := click_events w;
            execute_faults := later; log := log w |})
    | faults =>
        (Ok tt,
         {| ready := ready w; acknowledged := acknowledged w; rejected := rejected w;
            click_events := click_events w;
            execute_faults := tail faults; log := log w |})
    end.

(** [ensure_clickhouse_table] *)
Definition ensure_clickhouse_table : M world unit :=
  try_except
    (execute_statement ;;;
     logger INFO "ClickHouse table ensured")%py
    is_Exception
    (fun e =>
       (logger ERROR "Failed to create ClickHouse table" ;;;
        raise e)%py).

(** How [consume_events] ends: [sys.exit(code)], a return, an exception
    that is no [Exception] passing through, or not at all within the
    deliveries the model follows (it waits for the next message). *)
Inductive ending : Type :=
  | SystemExit (code : Z)
  | Returned
  | Propagated (e : exn)
  | Waiting.

Section Main.

Variable bytes_decode : string -> option string.
Variable json_loads : string -> option json.
Variable fromisoformat_strftime : string -> option string.

(** Whether [aio_pika.connect_robust] gets through. *)
Variable rabbitmq_reachable : bool.

(** The [async for message in queue_iter] loop, followed for [deliveries]
    messages. *)
Fixpoint consume_loop (deliveries : nat) : M world unit :=
  match deliveries with
  | O => fun w => (Diverge, w)
  | S deliveries' =>
      (deliver_next bytes_decode json_loads fromisoformat_strftime ;;;
       consume_loop deliveries')%py
  end.

(** The [finally] block; [connected] tells whether [rabbitmq_connection]
    was assigned.  The ClickHouse client is created first thing in the
    [try], so it is always there. *)
Definition consume_finally (connected : bool) : M world unit :=
  (logger INFO "ClickHouse connection closed" ;;;
   (if connected then logger INFO "RabbitMQ connection closed" else ret tt) ;;;
   logger INFO "Event consumer stopped")%py.

(** [except Exception as e: ...; sys.exit(1)], then the [finally] block. *)
Definition consume_end (connected : bool) (r : result unit) (w : world) : ending * world :=
  match r with
  | Ok _ => (Returned, snd (consume_finally connected w))
  | Raise e =>
      if is_Exception e then
        (SystemExit 1,
         snd ((logger ERROR "Fatal error in consumer" ;;; consume_finally connected)%py w))
      else (Propagated e, snd (consume_finally connected w))
  | Diverge => (Waiting, w)
  end.

(** [consume_events]; an interrupt from the keyboard is not modelled. *)
Definition consume_events (deliveries : nat) (w : world) : ending * world :=
  let startup :=
    (logger INFO "Connecting to ClickHouse..." ;;;
     logger INFO "Connecting to ClickHouse with URL" ;;;
     ensure_clickhouse_table ;;;
     logger INFO "ClickHouse connection established" ;;;
     logger INFO "Connecting to RabbitMQ..." ;;;
     (if rabbitmq_reachable then ret tt else raise AMQPConnectionError))%py in
  match startup w with
  | (Ok _, w1) =>
      let '(r, w2) :=
        (logger INFO "RabbitMQ connection established" ;;;
         logger INFO "Consuming messages from queue" ;;;
         logger INFO "Event consumer started. Press CTRL+C to stop." ;;;
         consume_loop deliveries)%py w1 in
      consume_end true r w2
  | (r, w1) => consume_end false r w1
  end.

End Main.

End Consumer.

(** * Vocabulary of the properties, and the scenarios they are tried on *)

(** ** Snowflake *)

(** The attributes stay in their bit fields. *)
Definition wf (g : Snowflake.t) : Prop :=
  0 <= Snowflake.worker_id g <= Snowflake.MAX_WORKER_ID /\
  0 <= Snowflake.sequence g <= Snowflake.MAX_SEQUENCE.

(** The id a generator in state [g] has just returned, as arithmetic. *)
Definition rank (g : Snowflake.t) : Z :=
  (Snowflake.last_timestamp g - Snowflake.EPOCH) * 2 ^ 22
  + Snowflake.worker_id g * 2 ^ 12 + Snowflake.sequence g.

(** ** The cache and the relational store *)

(** Whether the schedule makes the next command raise. *)
Definition next_command_fails (r : Redis.t) : bool :=
  match Redis.faults r with
  | true :: _ => true
  | _ => false
  end.

(** No transport failure is scheduled at all. *)
Definition reliable (r : Redis.t) : Prop :=
  Forall (fun fault => fault = false) (Redis.faults r).

(** What the store holds for [code]: the record, or nothing. *)
Definition holds (table : list Db.ShortURL) (code : string) (record : option Db.ShortURL) : Prop :=
  match record with
  | Some row => In row table /\ Db.short_code row = code
  | None => forall row, In row table -> Db.short_code row <> code
  end.

(** ** The publisher *)

(** The same process with another schedule for [exchange.publish]. *)
Definition with_publish_faults (faults : list (option exn)) (w : Api.world) : Api.world :=
  Api.set_bus {| Bus.reachable := Bus.reachable (Api.bus w);
                 Bus.queue := Bus.queue (Api.bus w);
                 Bus.publish_faults := faults |} w.

(** The publish of this event throws [e] in [w]: in the serialisation, or
    in [exchange.publish]. *)
Definition publish_throws (dumps : Api.click_event -> result string) (code : string)
    (request : Api.Request) (original_url : string) (w : Api.world) (e : exn) : Prop :=
  let event := Api.click_event_of code request original_url (Api.utcnow w) in
  dumps event = Raise e \/
  ((exists body, dumps event = Ok body) /\
   exists later, Bus.publish_faults (Api.bus w) = Some e :: later).

(** ** The consumer *)

Definition add_log (entries : list log_entry) (w : Consumer.world) : Consumer.world :=
  {| Consumer.ready := Consumer.ready w;
     Consumer.acknowledged := Consumer.acknowledged w;
     Consumer.rejected := Consumer.rejected w;
     Consumer.click_events := Consumer.click_events w;
     Consumer.execute_faults := Consumer.execute_faults w;
     Consumer.log := (Consumer.log w ++ entries)%list |}.

(** What [escape_sql_string(event.get(key, ""))] gives. *)
Definition field_text (key : string) (members : list (string * Consumer.json)) : result string :=
  match Consumer.dict_lookup key members with
  | None => Ok ""
  | Some v => Consumer.escape_sql_string v
  end.

(** What the row holds for [key]: the escaped text, or the empty string
    when the event has no such member. *)
Definition literal_of (key : string) (members : list (string * Consumer.json)) : string :=
  match Consumer.dict_lookup key members with
  | Some (Consumer.JString s) => str_replace "'" "''" s
  | _ => ""
  end.

Definition absent_or_str (key : string) (members : list (string * Consumer.json)) : Prop :=
  match Consumer.dict_lookup key members with
  | None | Some (Consumer.JString _) => True
  | Some _ => False
  end.

(** What the broker and the table show after [message] was taken off the
    queue in [w] and its processing failed: no acknowledgement, a reject
    without requeue, the queue and the rows as they were.  The message is
    not delivered again. *)
Definition rejected_without_requeue (message : Consumer.IncomingMessage)
    (w w' : Consumer.world) : Prop :=
  Consumer.acknowledged w' = Consumer.acknowledged w /\
  Consumer.rejected w' = (Consumer.rejected w ++ [message])%list /\
  Consumer.ready w' = Consumer.ready w /\
  Consumer.click_events w' = Consumer.click_events w.

(** ** Scenarios *)

(** Scenario 1 of the specification: worker 7, the clock at one millisecond
    past the epoch for both readings the request takes. *)
Definition shorten_world : Api.world :=
  {| Api.settings := default_settings;
     Api.id_generator := Some (Snowflake.Build 7 0 (-1));
     Api.clock := [1704067200001; 1704067200001];
     Api.utcnow := "2024-01-01T00:00:00.001000";
     Api.table := [];
     Api.redis := Redis.Build ∅ [];
     Api.analytics_publisher := None;
     Api.bus := Bus.Build true [] [];
     Api.tasks := [];
     Api.log := [] |}.

Definition row_xyz : Db.ShortURL :=
  {| Db.snowflake_id := 4222976;
     Db.original_url := "https://example.com/c";
     Db.short_code := "xyz";
     Db.created_at := "2024-01-01T00:00:00" |}.

(** Scenario 3: empty cache, one row in the table; [faults] is the schedule
    of the cache's transport. *)
Definition miss_world (faults : list bool) : Api.world :=
  {| Api.settings := default_settings;
     Api.id_generator := Some (Snowflake.Build 7 0 (-1));
     Api.clock := [];
     Api.utcnow := "2024-01-01T00:00:00.001000";
     Api.table := [row_xyz];
     Api.redis := Redis.Build ∅ faults;
     Api.analytics_publisher := None;
     Api.bus := Bus.Build true [] [];
     Api.tasks := [];
     Api.log := [] |}.

(** Scenarios 2 and 5: the code is cached, the publisher is connected and
    [publish_faults] is what its next publishes do. *)
Definition hit_world (publish_faults : list (option exn)) : Api.world :=
  {| Api.settings := default_settings;
     Api.id_generator := Some (Snowflake.Build 7 0 (-1));
     Api.clock := [];
     Api.utcnow := "2024-01-01T00:00:00.001000";
     Api.table := [];
     Api.redis := Redis.Build {[ "short_url:abc" := ("https://example.com/b", 86400) ]} [];
     Api.analytics_publisher := Some Api.Publisher;
     Api.bus := Bus.Build true [] publish_faults;
     Api.tasks := [];
     Api.log := [] |}.

(** A record whose URL has a character that the [Location] header does not
    carry as it is, beside the record of scenario 3; the cache is empty. *)
Definition row_pipe : Db.ShortURL :=
  {| Db.snowflake_id := 4222977;
     Db.original_url := "https://example.com/a|b";
     Db.short_code := "pipe";
     Db.created_at := "2024-01-01T00:00:00" |}.

Definition pipe_world : Api.world :=
  {| Api.settings := default_settings;
     Api.id_generator := Some (Snowflake.Build 7 0 (-1));
     Api.clock := [];
     Api.utcnow := "2024-01-01T00:00:00.001000";
     Api.table := [row_xyz; row_pipe];
     Api.redis := Redis.Build ∅ [];
     Api.analytics_publisher := None;
     Api.bus := Bus.Build true [] [];
     Api.tasks := [];
     Api.log := [] |}.

Definition browser : Api.Request :=
  {| Api.headers := [("user-agent", "curl/8.0")]; Api.client := Some "203.0.113.9" |}.

(** The double quote, for JSON texts. *)
Definition dq : string := String (ascii_of_nat 34) EmptyString.

Definition json_member (key value : string) : string :=
  dq ++ key ++ dq ++ ": " ++ dq ++ value ++ dq.

(** A serialiser for the scenarios: the members in order, no escaping. *)
Definition sample_dumps (event : Api.click_event) : result string :=
  Ok ("{" ++ json_member "short_code" (Api.ev_short_code event) ++ ", "
          ++ json_member "timestamp" (Api.ev_timestamp event) ++ ", "
          ++ json_member "user_agent" (Api.ev_user_agent event) ++ ", "
          ++ json_member "ip_address" (Api.ev_ip_address event) ++ ", "
          ++ json_member "referrer" (Api.ev_referrer event) ++ ", "
          ++ json_member "original_url" (Api.ev_original_url event) ++ "}").

(** Two processes start on an empty server.  Process A acquires a lease;
    the lease runs out while A is paused; A's renewal wakes up and is told
    the key is gone; process B starts and acquires; A's renewal sends its
    set-if-absent. *)
Definition fresh_cluster : WorkerID.cluster :=
  {| WorkerID.server := Redis.Build ∅ [];
     WorkerID.proc_a := (WorkerID.init default_settings, []);
     WorkerID.proc_b := (WorkerID.init default_settings, []) |}.

Definition lease_held : WorkerID.cluster :=
  snd (WorkerID.as_a (WorkerID.acquire_worker_id default_settings) fresh_cluster).

Definition lease_gone : WorkerID.cluster :=
  snd (WorkerID.as_a WorkerID._renew_lease_loop_step (WorkerID.lease_runs_out 0 lease_held)).

Definition slot_retaken : WorkerID.cluster :=
  snd (WorkerID.as_b (WorkerID.acquire_worker_id default_settings) lease_gone).

Definition split_brain : WorkerID.cluster :=
  snd (WorkerID.as_a WorkerID._renew_lease_loop_step slot_retaken).

(** Decoders for the consumer's scenarios; they agree with [bytes.decode],
    [json.loads] and [fromisoformat]/[strftime] on the payloads used. *)
Definition sample_event_text : string :=
  "{" ++ json_member "timestamp" "2024-05-06T07:08:09.123456Z" ++ ", "
      ++ json_member "short_code" "hIAx" ++ "}".

Definition sample_bytes_decode (payload : string) : option string := Some payload.

Definition sample_json_loads (text : string) : option Consumer.json :=
  if String.eqb text sample_event_text then
    Some (Consumer.JObject
            [("timestamp", Consumer.JString "2024-05-06T07:08:09.123456Z");
             ("short_code", Consumer.JString "hIAx")])
  else if String.eqb text "{}" then Some (Consumer.JObject [])
  else if String.eqb text "[]" then Some (Consumer.JArray [])
  else None.

Definition sample_fromisoformat_strftime (text : string) : option string :=
  if String.eqb text "2024-05-06T07:08:09.123456+00:00"
  then Some "2024-05-06 07:08:09"
  else None.

Definition idle_consumer : Consumer.world :=
  {| Consumer.ready := [];
     Consumer.acknowledged := [];
     Consumer.rejected := [];
     Consumer.click_events := [];
     Consumer.execute_faults := [];
     Consumer.log := [] |}.

(** ** Base62 texts *)

(** The symbol is one of the 62. *)
Definition in_alphabet (c : ascii) : bool :=
  match Base62.index c with Some _ => true | None => false end.

(** Only symbols of the alphabet, and no leading zero symbol unless the text
    is the zero symbol alone. *)
Definition canonical (s : string) : Prop :=
  forallb in_alphabet (list_ascii_of_string s) = true /\
  (s = "0" \/ exists c rest, s = String c rest /\ c <> "0"%char).

(** ** The publisher, as a redirect finds it *)

(** [get_analytics_publisher] will hand out a publisher: one exists
    already, or the broker can be reached. *)
Definition publisher_available (w : Api.world) : bool :=
  match Api.analytics_publisher w with
  | Some _ => true
  | None => Bus.reachable (Api.bus w)
  end.

(** ** Further scenarios *)

(** A fresh generator for worker 7 (resp. 8) and one clock reading. *)
Definition fresh_gen (worker : Z) : Snowflake.state :=
  Snowflake.State (Snowflake.Build worker 0 (-1)) [1704067200001].

(** A generator that has used up the sequence numbers of its millisecond. *)
Definition spent_gen : Snowflake.t := Snowflake.Build 7 4095 1704067200001.

(** A process that has not acquired yet; [data] is what the server holds. *)
Definition newcomer (data : gmap string (string * Z)) : WorkerID.world :=
  {| WorkerID.redis := Redis.Build data [];
     WorkerID.self := WorkerID.init default_settings;
     WorkerID.log := [] |}.

(** The first slot leased, and the first two. *)
Definition one_lease : gmap string (string * Z) :=
  {[ "worker_id:lease:0" := ("leased", 60) ]}.



(** The holder of worker id 0, its renewal task asleep; [data] is what the
    server holds and [faults] the transport's schedule. *)
Definition holder (data : gmap string (string * Z)) (faults : list bool) : WorkerID.world :=
  {| WorkerID.redis := Redis.Build data faults;
     WorkerID.self :=
       {| WorkerID.worker_id := Some 0; WorkerID.renewal_task := Some WorkerID.Sleeping;
          WorkerID.lease_ttl := 60; WorkerID.renewal_interval := 30 |};
     WorkerID.log := [] |}.

(** Scenario 1 with the cache out of reach. *)
Definition shorten_world_cache_down : Api.world :=
  Api.set_redis (Redis.Build ∅ [true]) shorten_world.

Definition request_a : option Api.ShortenRequest :=
  Some {| Api.req_original_url := "https://example.com/a" |}.

Definition reply_a : Api.shorten_reply :=
  {| Api.r_short_code := "hIAx";
     Api.r_short_url := "http://localhost:8000/hIAx";
     Api.r_original_url := "https://example.com/a" |}.

(** The consumer with [queue] waiting and [faults] scheduled for
    [client.execute]. *)
Definition consumer_with (queue : list Consumer.IncomingMessage) (faults : list bool)
    : Consumer.world :=
  {| Consumer.ready := queue;
     Consumer.acknowledged := [];
     Consumer.rejected := [];
     Consumer.click_events := [];
     Consumer.execute_faults := faults;
     Consumer.log := [] |}.

Definition sample_message : Consumer.IncomingMessage :=
  {| Consumer.body := sample_event_text |}.

Definition empty_object_message : Consumer.IncomingMessage :=
  {| Consumer.body := "{}" |}.


(** What [sample_dumps] gives for a visit of [browser] to the cached code. *)
Definition sample_body : string :=
  "{" ++ json_member "short_code" "abc" ++ ", "
      ++ json_member "timestamp" "2024-01-01T00:00:00.001000Z" ++ ", "
      ++ json_member "user_agent" "curl/8.0" ++ ", "
      ++ json_member "ip_address" "203.0.113.9" ++ ", "
      ++ json_member "referrer" "" ++ ", "
      ++ json_member "original_url" "https://example.com/b" ++ "}".

Definition sample_members : list (string * Consumer.json) :=
  [("timestamp", Consumer.JString "2024-05-06T07:08:09.123456Z");
   ("short_code", Consumer.JString "hIAx")].

(** * Properties *)

(** ** Base62 *)

Section Base62_facts.
Import Base62.

Example base62_encode_0 : base62_encode 0 = "0".
Proof. reflexivity. Qed.

Example base62_encode_61 : base62_encode 61 = "Z".
Proof. reflexivity. Qed.

Example base62_encode_62 : base62_encode 62 = "10".
Proof. reflexivity. Qed.

Example base62_encode_negative : base62_encode (-5) = "".
Proof. reflexivity. Qed.

Example base62_decode_10 : base62_decode "10" = Ok 62.
Proof. reflexivity. Qed.

Example base62_decode_bad_symbol : base62_decode "a-b" = Raise ValueError.
Proof. reflexivity. Qed.

(** The alphabet has no repeated symbol: [index] undoes [char_at]. *)
Lemma index_char_at (i : Z) : 0 <= i < 62 -> index (char_at i) = Some i.
Proof.
  intros Hi.
  assert (Hall : forallb
            (fun n => match index (char_at (Z.of_nat n)) with
                      | Some d => d =? Z.of_nat n
                      | None => false
                      end) (seq 0 62) = true) by (vm_compute; reflexivity).
  rewrite forallb_forall in Hall.
  specialize (Hall (Z.to_nat i)).
  rewrite Z2Nat.id in Hall by lia.
  assert (Hin : In (Z.to_nat i) (seq 0 62)) by (apply in_seq; lia).
  specialize (Hall Hin).
  destruct (index (char_at i)) as [d|]; [|discriminate].
  apply Z.eqb_eq in Hall. now subst.
Qed.

Lemma encode_loop_acc (fuel : nat) :
  forall num acc, encode_loop fuel num acc = (acc ++ encode_loop fuel num [])%list.
Proof.
  induction fuel as [|fuel IH]; intros num acc; simpl.
  - now rewrite app_nil_r.
  - destruct (0 <? num).
    + rewrite IH, (IH _ [_]). now rewrite app_assoc.
    + now rewrite app_nil_r.
Qed.

Lemma decode_loop_app (l1 l2 : list ascii) :
  forall acc,
    decode_loop acc (l1 ++ l2)%list =
    match decode_loop acc l1 with
    | Ok a => decode_loop a l2
    | Raise e => Raise e
    | Diverge => Diverge
    end.
Proof.
  induction l1 as [|c l1 IH]; intros acc; simpl; [reflexivity|].
  destruct (index c); [apply IH | reflexivity].
Qed.

(** With enough fuel the loop emits the digits of [num], least significant
    first; read back most significant first they give [num] again. *)
Lemma decode_rev_encode_loop (fuel : nat) :
  forall num,
    0 <= num < 2 ^ Z.of_nat fuel ->
    decode_loop 0 (rev (encode_loop fuel num [])) = Ok num.
Proof.
  induction fuel as [|fuel IH]; intros num Hnum.
  - simpl in *. assert (num = 0) by lia. now subst.
  - cbn [encode_loop]. destruct (0 <? num) eqn:Hpos.
    + apply Z.ltb_lt in Hpos.
      rewrite encode_loop_acc. cbn [app rev].
      rewrite decode_loop_app.
      rewrite IH.
      * cbn [rev app decode_loop].
        rewrite index_char_at by (apply Z.mod_pos_bound; lia).
        f_equal. pose proof (Z.div_mod num 62). lia.
      * split; [apply Z.div_pos; lia|].
        apply Z.div_lt_upper_bound; [lia|].
        rewrite Nat2Z.inj_succ, Z.pow_succ_r in Hnum by lia.
        lia.
    + apply Z.ltb_ge in Hpos. assert (num = 0) by lia. now subst.
Qed.

Lemma encode_fuel_enough (num : Z) :
  0 < num -> num < 2 ^ Z.of_nat (encode_fuel num).
Proof.
  intros Hpos. unfold encode_fuel.
  rewrite Nat2Z.inj_succ, Z2Nat.id by apply Z.log2_nonneg.
  apply Z.log2_spec, Hpos.
Qed.

Lemma base62_decode_encode (n : Z) :
  0 <= n -> base62_decode (base62_encode n) = Ok n.
Proof.
  intros Hn. unfold base62_encode, base62_decode.
  destruct (n =? 0) eqn:Hz.
  - apply Z.eqb_eq in Hz. now subst.
  - apply Z.eqb_neq in Hz.
    rewrite list_ascii_of_string_of_list_ascii.
    apply decode_rev_encode_loop.
    split; [lia | apply encode_fuel_enough; lia].
Qed.

Lemma base62_encode_inj (n m : Z) :
  0 <= n -> 0 <= m -> base62_encode n = base62_encode m -> n = m.
Proof.
  intros Hn Hm Heq.
  pose proof (base62_decode_encode n Hn) as H1.
  pose proof (base62_decode_encode m Hm) as H2.
  rewrite Heq in H1. congruence.
Qed.

(** C5.  For every natural number [n >= 0], decoding the Base62 encoding of
    [n] returns [n]. *)
Theorem base62_roundtrip (n : Z) :
  0 <= n -> Base62.base62_decode (Base62.base62_encode n) = Ok n.
Proof. apply base62_decode_encode. Qed.

Lemma base62_roundtrip_witness :
  0 <= 4222976 /\
  Base62.base62_decode (Base62.base62_encode 4222976) = Ok 4222976.
Proof. split; [lia | apply (base62_roundtrip 4222976); lia]. Defined.

End Base62_facts.

(** ** Snowflake generator *)

Ltac layout_consts :=
  change Snowflake.MAX_WORKER_ID with 1023 in *; change Snowflake.MAX_SEQUENCE with 4095 in *;
  change Snowflake.WORKER_ID_BITS with 10 in *; change Snowflake.SEQUENCE_BITS with 12 in *.

Section Snowflake_facts.
Import Snowflake.

Example generate_three :
  generate_calls 3
    (State (Build 7 0 (-1)) [1704067200001; 1704067200001; 1704067200002])
  = [4222976; 4222977; 8417280].
Proof. vm_compute. reflexivity. Qed.

(** A clock that steps back makes the call fail and leaves the generator
    as it was. *)
Example generate_clock_backwards :
  generate (State (Build 7 3 1704067200005) [1704067200004])
  = (Raise RuntimeError, State (Build 7 3 1704067200005) []).
Proof. vm_compute. reflexivity. Qed.

Lemma init_wf (w : Z) (g : t) : init w = Ok g -> wf g.
Proof.
  unfold init, wf.
  destruct (0 <=? w) eqn:H0; destruct (w <=? MAX_WORKER_ID) eqn:H1;
    simpl; intros H; inversion H; subst; simpl.
  apply Z.leb_le in H0, H1. layout_consts. lia.
Qed.

Lemma low_bits_shiftl (a n x : Z) :
  0 <= n -> 0 <= x < 2 ^ n -> Z.land (Z.shiftl a n) x = 0.
Proof.
  intros Hn Hx. apply Z.bits_inj'. intros k Hk.
  rewrite Z.land_spec, Z.bits_0.
  destruct (Z.lt_ge_cases k n) as [Hlt|Hge].
  - rewrite Z.shiftl_spec_low by assumption. reflexivity.
  - destruct (Z.eq_dec x 0) as [->|Hx0].
    + rewrite Z.bits_0. apply andb_false_r.
    + rewrite (Z.bits_above_log2 x k); [apply andb_false_r | lia |].
      apply Z.lt_le_trans with n; [|assumption].
      apply Z.log2_lt_pow2; lia.
Qed.

(** The three fields do not overlap, so the [|] of the layout is a sum. *)
Lemma id_value_arith (a w s : Z) :
  0 <= w <= MAX_WORKER_ID -> 0 <= s <= MAX_SEQUENCE ->
  Z.lor (Z.lor (Z.shiftl a (WORKER_ID_BITS + SEQUENCE_BITS)) (Z.shiftl w SEQUENCE_BITS)) s
  = a * 2 ^ 22 + w * 2 ^ 12 + s.
Proof.
  unfold MAX_WORKER_ID, MAX_SEQUENCE, WORKER_ID_BITS, SEQUENCE_BITS.
  change (Z.shiftl 1 10 - 1) with 1023. change (Z.shiftl 1 12 - 1) with 4095.
  change (10 + 12) with 22.
  intros Hw Hs.
  assert (H1 : Z.lor (Z.shiftl a 22) (Z.shiftl w 12) = a * 2 ^ 22 + w * 2 ^ 12).
  { rewrite <- Z.lxor_lor, <- Z.add_nocarry_lxor.
    - now rewrite !Z.shiftl_mul_pow2 by lia.
    - apply low_bits_shiftl; [lia|]. rewrite Z.shiftl_mul_pow2 by lia. lia.
    - apply low_bits_shiftl; [lia|]. rewrite Z.shiftl_mul_pow2 by lia. lia. }
  rewrite H1.
  rewrite <- Z.lxor_lor, <- Z.add_nocarry_lxor; [reflexivity| |].
  - replace (a * 2 ^ 22 + w * 2 ^ 12) with (Z.shiftl (a * 2 ^ 10 + w) 12)
      by (rewrite Z.shiftl_mul_pow2 by lia; lia).
    apply low_bits_shiftl; lia.
  - replace (a * 2 ^ 22 + w * 2 ^ 12) with (Z.shiftl (a * 2 ^ 10 + w) 12)
      by (rewrite Z.shiftl_mul_pow2 by lia; lia).
    apply low_bits_shiftl; lia.
Qed.

Lemma next_sequence (s : Z) :
  0 <= s <= MAX_SEQUENCE ->
  Z.land (s + 1) MAX_SEQUENCE = (if s =? MAX_SEQUENCE then 0 else s + 1).
Proof.
  unfold MAX_SEQUENCE. change (Z.shiftl 1 SEQUENCE_BITS - 1) with (Z.ones 12).
  intros Hs. rewrite Z.land_ones by lia.
  change (Z.ones 12) with 4095 in *. change (2 ^ 12) with 4096.
  destruct (s =? 4095) eqn:E.
  - apply Z.eqb_eq in E. now subst.
  - apply Z.eqb_neq in E. apply Z.mod_small. lia.
Qed.

(** The busy wait returns a reading past [last_timestamp] whenever it
    returns, and it returns as soon as the clock gives such a reading. *)
Lemma spin_spec (last : Z) (readings : list Z) :
  forall timestamp t rest,
    spin last timestamp readings = (Ok t, rest) -> last < t.
Proof.
  induction readings as [|now later IH]; intros timestamp t rest; simpl.
  - destruct (timestamp <=? last) eqn:E; intros H; inversion H; subst.
    apply Z.leb_gt in E. lia.
  - destruct (timestamp <=? last) eqn:E.
    + apply IH.
    + intros H; inversion H; subst. apply Z.leb_gt in E. lia.
Qed.

Lemma spin_returns (last : Z) (readings : list Z) :
  forall timestamp,
    Exists (fun now => last < now) readings ->
    exists t rest, spin last timestamp readings = (Ok t, rest).
Proof.
  induction readings as [|now later IH]; intros timestamp Hex.
  - inversion Hex.
  - simpl. destruct (timestamp <=? last) eqn:E; [|eauto].
    inversion Hex as [? ? Hnow|? ? Hlater]; subst.
    + destruct later; simpl; destruct (now <=? last) eqn:E'; eauto;
        apply Z.leb_le in E'; lia.
    + apply IH, Hlater.
Qed.

Ltac run_generate :=
  unfold generate, _wait_next_millisecond, _current_timestamp, update_self,
    bind, get_state, modify, ret, raise; cbn.

Lemma spin_no_raise (last : Z) (readings : list Z) :
  forall timestamp e rest, spin last timestamp readings <> (Raise e, rest).
Proof.
  induction readings as [|now later IH]; intros timestamp e rest; simpl;
    destruct (timestamp <=? last); try discriminate. apply IH.
Qed.

(** A call that returns leaves the generator well formed, returns the rank
    of the new state, and that rank is above the old one. *)
Lemma generate_ok (s s' : state) (id : Z) :
  wf (self s) -> generate s = (Ok id, s') ->
  wf (self s') /\ id = rank (self s') /\ rank (self s) < rank (self s').
Proof.
  intros [Hw Hs]. destruct s as [[w sq last] [|now later]]; cbn in Hw, Hs.
  - discriminate.
  - run_generate.
    destruct (now <? last) eqn:Hlt; [discriminate|]. apply Z.ltb_ge in Hlt.
    destruct (now =? last) eqn:Heq.
    + apply Z.eqb_eq in Heq. subst now. rewrite next_sequence by assumption.
      destruct (sq =? MAX_SEQUENCE) eqn:Hmax; cbn.
      * destruct later as [|now' later']; [discriminate|]. cbn.
        destruct (spin last now' later') as [[t| |] c] eqn:Hspin; cbn;
          intros H; inversion H; subst; clear H.
        apply spin_spec in Hspin.
        unfold wf, rank; cbn. rewrite id_value_arith by (layout_consts; lia).
        layout_consts. lia.
      * apply Z.eqb_neq in Hmax.
        destruct (sq + 1 =? 0) eqn:E; [apply Z.eqb_eq in E; lia|]. cbn.
        intros H; inversion H; subst; clear H.
        unfold wf, rank; cbn. rewrite id_value_arith by (layout_consts; lia).
        layout_consts. lia.
    + apply Z.eqb_neq in Heq. cbn.
      intros H; inversion H; subst; clear H.
      unfold wf, rank; cbn. rewrite id_value_arith by (layout_consts; lia).
      layout_consts. lia.
Qed.

(** A refused call changes nothing in the generator. *)
Lemma generate_raise (s s' : state) (e : exn) :
  generate s = (Raise e, s') -> self s' = self s.
Proof.
  destruct s as [[w sq last] [|now later]]; [discriminate|].
  run_generate.
  destruct (now <? last); [intros H; inversion H; reflexivity|].
  destruct (now =? last); cbn.
  - destruct (Z.land (sq + 1) MAX_SEQUENCE =? 0); cbn; [|discriminate].
    destruct later as [|now' later']; [discriminate|]. cbn.
    destruct (spin last now' later') as [[t|e'|] c] eqn:Hspin; cbn;
      [discriminate | | discriminate].
    now apply spin_no_raise in Hspin.
  - discriminate.
Qed.

Lemma generate_calls_above (n : nat) :
  forall s, wf (self s) ->
    Forall (fun id => rank (self s) < id) (generate_calls n s) /\
    StronglySorted Z.lt (generate_calls n s).
Proof.
  induction n as [|n IH]; intros s Hwf; cbn.
  - split; constructor.
  - destruct (generate s) as [[id| e |] s1] eqn:Hgen.
    + destruct (generate_ok _ _ _ Hwf Hgen) as (Hwf1 & Hid & Hlt).
      destruct (IH s1 Hwf1) as [Habove Hsorted].
      split.
      * constructor; [lia|]. eapply List.Forall_impl; [|exact Habove].
        cbn. intros; lia.
      * constructor; [assumption|]. now rewrite Hid.
    + apply generate_raise in Hgen. rewrite <- Hgen. apply IH.
      now rewrite Hgen.
    + split; constructor.
Qed.

(** C6.  The ids returned by any run of [generate] calls on one generator
    instance are strictly increasing.  Refused calls (a clock that stepped
    back) return no id and leave the instance unchanged, so the property
    holds for every clock, in particular for one that never runs backward. *)
Theorem generate_strictly_increasing
    (worker : Z) (g : Snowflake.t) (readings : list Z) (n : nat) :
  Snowflake.init worker = Ok g ->
  StronglySorted Z.lt (Snowflake.generate_calls n (Snowflake.State g readings)).
Proof.
  intros Hinit. apply generate_calls_above. cbn. eapply init_wf, Hinit.
Qed.

Lemma generate_strictly_increasing_witness :
  Snowflake.init 7 = Ok (Snowflake.Build 7 0 (-1)) /\
  StronglySorted Z.lt
    (Snowflake.generate_calls 3
       (Snowflake.State (Snowflake.Build 7 0 (-1))
          [1704067200001; 1704067200001; 1704067200002])).
Proof.
  split; [reflexivity|].
  apply (generate_strictly_increasing 7). reflexivity.
Defined.

End Snowflake_facts.

(** ** Shortener intake *)

Section Shorten_facts.
Import Api.

Lemma with_id_generator_generate (w w1 : world) (id : Z) :
  with_id_generator Snowflake.generate w = (Ok id, w1) ->
  exists g g1,
    id_generator w = Some g /\ id_generator w1 = Some g1 /\ table w1 = table w /\
    (wf g -> wf g1 /\ id = rank g1 /\ rank g < rank g1).
Proof.
  unfold with_id_generator. destruct (id_generator w) as [g|] eqn:Hg; [|discriminate].
  destruct (Snowflake.generate _) as [r s] eqn:Hgen.
  intros H; inversion H; subst; clear H.
  exists g, (Snowflake.self s).
  split; [reflexivity|]. split; [reflexivity|]. split; [reflexivity|].
  intros Hwf. exact (generate_ok (Snowflake.State g (clock w)) _ _ Hwf Hgen).
Qed.

(** Every request that succeeds stores the id of its first [generate] call
    and the code of its second, later one. *)
Lemma create_short_url_two_ids (request : option ShortenRequest) (w w' : world)
    (reply : shorten_reply) :
  (forall g, id_generator w = Some g -> wf g) ->
  create_short_url request w = (Ok reply, w') ->
  exists row id2,
    In row (table w') /\
    Db.short_code row = r_short_code reply /\
    Db.short_code row = Base62.base62_encode id2 /\
    Db.snowflake_id row < id2.
Proof.
  intros Hwf. unfold create_short_url.
  destruct request as [request|]; [|discriminate].
  destruct (String.eqb _ _); [discriminate|].
  unfold bind at 1.
  destruct (with_id_generator Snowflake.generate w) as [[id1| |] w1] eqn:H1;
    try discriminate.
  apply with_id_generator_generate in H1 as (g & g1 & Hg & Hg1 & Ht1 & Hstep).
  destruct (Hstep (Hwf g Hg)) as (Hwf1 & Hid1 & _).
  unfold bind at 1. unfold Snowflake.generate_short_code, with_id_generator at 1.
  rewrite Hg1. unfold bind at 1.
  destruct (Snowflake.generate _) as [[id2| |] s2] eqn:H2; cbn; try discriminate.
  destruct (generate_ok (Snowflake.State g1 (clock w1)) _ _ Hwf1 H2) as (_ & Hid2 & Hlt).
  assert (Hlt' : id1 < id2) by (cbn in Hlt; lia). clear Hid1 Hid2 Hlt Hstep.
  unfold bind, get_state, session_add_commit, on_redis, zoom, ret. cbn.
  destruct (Db.add_commit _ _) as [[[]| |] t] eqn:Hadd; cbn; try discriminate.
  unfold Db.add_commit in Hadd. destruct (existsb _ _); [discriminate|].
  inversion Hadd; subst t; clear Hadd.
  destruct (RedisCache.set _ _ _ _) as [[[]| |] r]; cbn; try discriminate.
  intros H; inversion H; subst; clear H. cbn.
  eexists; exists id2. split; [apply in_or_app; right; left; reflexivity|].
  cbn. repeat split. exact Hlt'.
Qed.

(** Once the clock is past the epoch the stored code is never the Base62
    text of the stored id. *)
Lemma create_short_url_code_mismatch (request : option ShortenRequest) (w w' : world)
    (reply : shorten_reply) :
  (forall g, id_generator w = Some g -> wf g) ->
  create_short_url request w = (Ok reply, w') ->
  exists row,
    In row (table w') /\
    Db.short_code row = r_short_code reply /\
    (0 <= Db.snowflake_id row ->
     Db.short_code row <> Base62.base62_encode (Db.snowflake_id row)).
Proof.
  intros Hwf Hrun.
  destruct (create_short_url_two_ids _ _ _ _ Hwf Hrun) as (row & id2 & Hin & Hcode & Henc & Hlt).
  exists row. split; [assumption|]. split; [assumption|].
  intros Hpos Heq. rewrite Henc in Heq.
  apply base62_encode_inj in Heq; lia.
Qed.

(** C1.  The claim says the stored and returned code is the Base62 text of
    the stored id.  On scenario 1 the handler stores id 4222976, whose
    Base62 text is "hIAw", with the code "hIAx" of the next id 4222977, and
    returns that code: [create_short_url] calls [generate] once for the id
    and once more inside [generate_short_code]. *)
Theorem create_short_url_code_is_not_base62_of_id :
  exists w',
    Api.create_short_url (Some {| Api.req_original_url := "https://example.com/a" |})
      shorten_world
    = (Ok {| Api.r_short_code := "hIAx";
             Api.r_short_url := "http://localhost:8000/hIAx";
             Api.r_original_url := "https://example.com/a" |}, w') /\
    Api.table w'
    = [ {| Db.snowflake_id := 4222976;
           Db.original_url := "https://example.com/a";
           Db.short_code := "hIAx";
           Db.created_at := "2024-01-01T00:00:00.001000" |} ] /\
    Base62.base62_encode 4222976 = "hIAw" /\
    Base62.base62_encode 4222977 = "hIAx".
Proof.
  eexists. split; [vm_compute; reflexivity|].
  split; [vm_compute; reflexivity|]. split; reflexivity.
Qed.

End Shorten_facts.

(** ** The cache wrapper *)

Section Cache_facts.

Lemma redis_command_ok {A} (run : gmap string (string * Z) -> A * gmap string (string * Z))
    (r : Redis.t) :
  next_command_fails r = false ->
  Redis.command run r
  = (Ok (fst (run (Redis.data r))),
     Redis.Build (snd (run (Redis.data r))) (tail (Redis.faults r))).
Proof.
  unfold next_command_fails, Redis.command.
  destruct (Redis.faults r) as [|[] later]; try discriminate; intros _;
    destruct (run (Redis.data r)); reflexivity.
Qed.

Lemma redis_command_fails {A} (run : gmap string (string * Z) -> A * gmap string (string * Z))
    (r : Redis.t) :
  next_command_fails r = true ->
  Redis.command run r
  = (Raise ConnectionError, Redis.Build (Redis.data r) (tail (Redis.faults r))).
Proof.
  unfold next_command_fails, Redis.command.
  destruct (Redis.faults r) as [|[] later]; try discriminate; reflexivity.
Qed.

Lemma reliable_next (r : Redis.t) :
  reliable r ->
  next_command_fails r = false /\
  next_command_fails (Redis.Build (Redis.data r) (tail (Redis.faults r))) = false.
Proof.
  unfold reliable, next_command_fails. cbn.
  destruct (Redis.faults r) as [|f1 [|f2 later]]; intros H; cbn.
  - auto.
  - inversion H; subst. auto.
  - inversion H as [|? ? ? H']; subst. inversion H'; subst. auto.
Qed.

Example cache_set_explicit_ttl :
  fst <$> (Redis.data (snd (RedisCache.set "abc" "https://example.com/b" (Some 30)
                              (Redis.Build ∅ []))) !! "short_url:abc")
  = Some "https://example.com/b" /\
  snd <$> (Redis.data (snd (RedisCache.set "abc" "https://example.com/b" (Some 30)
                              (Redis.Build ∅ []))) !! "short_url:abc")
  = Some 30.
Proof. split; reflexivity. Qed.

(** C9.  For every short code and URL, [RedisCache.set] called with the
    explicit ttl 0 stores the entry with the default TTL of 86400 seconds,
    not with ttl 0: the call is the same as the call with no ttl, because
    [ttl or DEFAULT_TTL] replaces a falsy ttl. *)
Theorem cache_set_ttl_zero_stores_default (short_code original_url : string) (r : Redis.t) :
  next_command_fails r = false ->
  exists r',
    RedisCache.set short_code original_url (Some 0) r = (Ok tt, r') /\
    Redis.data r' !! ("short_url:" ++ short_code) = Some (original_url, 86400) /\
    RedisCache.set short_code original_url (Some 0) r
    = RedisCache.set short_code original_url None r.
Proof.
  intros Hok. unfold RedisCache.set, Redis.setex, bind. cbn.
  rewrite redis_command_ok by assumption. cbn.
  eexists. split; [reflexivity|]. split; [|reflexivity].
  cbn. apply lookup_insert_eq.
Qed.

Lemma cache_set_ttl_zero_stores_default_witness :
  next_command_fails (Redis.Build ∅ []) = false /\
  exists r',
    RedisCache.set "abc" "https://example.com/b" (Some 0) (Redis.Build ∅ []) = (Ok tt, r') /\
    Redis.data r' !! ("short_url:" ++ "abc") = Some ("https://example.com/b", 86400) /\
    RedisCache.set "abc" "https://example.com/b" (Some 0) (Redis.Build ∅ [])
    = RedisCache.set "abc" "https://example.com/b" None (Redis.Build ∅ []).
Proof.
  split; [reflexivity|].
  apply (cache_set_ttl_zero_stores_default "abc" "https://example.com/b"). reflexivity.
Defined.

End Cache_facts.

(** ** Redirect resolver *)

Section Redirect_facts.
Import Api.

(** Looking up the publisher never fails and touches neither store. *)
Lemma get_analytics_publisher_ok (w : world) :
  exists p w',
    get_analytics_publisher w = (Ok p, w') /\
    redis w' = redis w /\ table w' = table w /\ tasks w' = tasks w.
Proof.
  unfold get_analytics_publisher, bind, get_state, try_except, on_bus, zoom,
    Bus.connect, modify, logger, ret.
  destruct (analytics_publisher w) eqn:Hp; cbn.
  - eauto 10.
  - destruct (Bus.reachable (bus w)); cbn; eauto 10.
Qed.

(** What follows the lookups in both branches of [redirect_to_url]. *)
Lemma redirect_tail (short_code original_url : string) (request : Request) (w : world) :
  exists w',
    (analytics <- get_analytics_publisher ;;
     match analytics with
     | Some _ =>
         create_task {| co_short_code := short_code; co_request := request;
                        co_original_url := original_url |}
     | None => ret tt
     end ;;;
     ret {| url := original_url; status_code := 301 |})%py w
    = (Ok {| url := original_url; status_code := 301 |}, w') /\
    redis w' = redis w /\ table w' = table w.
Proof.
  destruct (get_analytics_publisher_ok w) as (p & w1 & Hp & Hr & Ht & _).
  unfold bind at 1. rewrite Hp.
  destruct p; unfold bind, create_task, modify, ret; cbn; eauto.
Qed.

Lemma unique_codes_select (table : list Db.ShortURL) (row : Db.ShortURL) :
  Db.unique_codes table -> In row table ->
  Db.select_first (Db.short_code row) table = Some row.
Proof.
  unfold Db.unique_codes, Db.select_first.
  induction table as [|r rest IH]; intros Hnd Hin; [destruct Hin|].
  cbn in *. inversion Hnd as [|? ? Hnotin Hnd']; subst.
  destruct Hin as [->|Hin].
  - now rewrite String.eqb_refl.
  - destruct (String.eqb (Db.short_code r) (Db.short_code row)) eqn:E.
    + apply String.eqb_eq in E. exfalso. apply Hnotin. rewrite E.
      apply list_elem_of_In. now apply in_map.
    + now apply IH.
Qed.

Lemma select_first_none (table : list Db.ShortURL) (code : string) :
  (forall row, In row table -> Db.short_code row <> code) ->
  Db.select_first code table = None.
Proof.
  unfold Db.select_first. induction table as [|r rest IH]; intros Hno; cbn; [reflexivity|].
  destruct (String.eqb (Db.short_code r) code) eqn:E.
  - apply String.eqb_eq in E. exfalso. apply (Hno r); [now left | exact E].
  - apply IH. intros row Hin. apply Hno. now right.
Qed.

Lemma holds_select (table : list Db.ShortURL) (code : string) (record : option Db.ShortURL) :
  Db.unique_codes table -> holds table code record ->
  Db.select_first code table = record.
Proof.
  intros Hu. destruct record as [row|]; cbn.
  - intros [Hin <-]. now apply unique_codes_select.
  - apply select_first_none.
Qed.

Lemma unique_codes_miss_world (faults : list bool) :
  Db.unique_codes (table (miss_world faults)).
Proof. unfold Db.unique_codes. cbn. apply NoDup_singleton. Qed.

(** The cache-miss path, by what the store holds and what the backfill
    write does. *)
Lemma redirect_miss (code : string) (request : Request) (w : world)
    (record : option Db.ShortURL) (write_fails : bool) :
  Redis.data (redis w) !! ("short_url:" ++ code) = None ->
  next_command_fails (redis w) = false ->
  next_command_fails (Redis.Build (Redis.data (redis w)) (tail (Redis.faults (redis w))))
    = write_fails ->
  Db.unique_codes (table w) ->
  holds (table w) code record ->
  exists w',
    redirect_to_url code request w
    = (match record with
       | None => Raise (HTTPException 404 "Short URL not found")
       | Some row =>
           if write_fails then Raise ConnectionError
           else Ok {| url := Db.original_url row; status_code := 301 |}
       end, w') /\
    table w' = table w /\
    match record with
    | None => Redis.data (redis w') = Redis.data (redis w)
    | Some row =>
        if write_fails
        then Redis.data (redis w') = Redis.data (redis w) /\ log w' = log w /\ tasks w' = tasks w
        else Redis.data (redis w') !! ("short_url:" ++ code) = Some (Db.original_url row, 86400)
    end.
Proof.
  intros Hmiss Hget Hset Huniq Hholds.
  unfold redirect_to_url. unfold bind at 1.
  unfold on_redis at 1, zoom, RedisCache.get, Redis.get.
  rewrite redis_command_ok by assumption. cbn [fst snd].
  change (RedisCache._make_key code) with ("short_url:" ++ code).
  rewrite Hmiss. cbn [fmap option_fmap option_map truthy_str].
  unfold bind at 1. unfold session_exec_first, bind at 1, get_state, ret. cbn.
  pose proof (holds_select _ _ _ Huniq Hholds) as Hsel.
  unfold Db.select_first in Hsel. rewrite Hsel. clear Hsel.
  destruct record as [row|].
  - unfold bind at 1. unfold on_redis at 1, zoom, RedisCache.set, bind at 1, Redis.setex.
    unfold bind at 1. cbn.
    destruct write_fails.
    + rewrite redis_command_fails by assumption. cbn.
      eexists. split; [reflexivity|]. cbn. auto.
    + rewrite redis_command_ok by assumption. cbn.
      match goal with
      | |- context [bind get_analytics_publisher ?k ?w1] =>
          destruct (redirect_tail code (Db.original_url row) request w1)
            as (w' & Htail & Hr & Ht)
      end.
      exists w'. split; [exact Htail|]. rewrite Hr, Ht. cbn.
      split; [reflexivity|]. apply lookup_insert_eq.
  - cbn. eexists. split; [reflexivity|]. cbn. auto.
Qed.

(** Percent-encoding never shortens a text, and leaves it as it is exactly
    when every byte of it is kept. *)
Lemma quote_length (safe s : string) :
  (String.length s <= String.length (quote safe s))%nat.
Proof.
  induction s as [|c rest IH]; cbn [quote String.length]; [lia|].
  destruct (quote_keeps safe c); cbn [String.length]; lia.
Qed.

Lemma quote_kept (safe s : string) :
  quote safe s = s <-> forallb (quote_keeps safe) (list_ascii_of_string s) = true.
Proof.
  induction s as [|c rest IH]; cbn [quote list_ascii_of_string forallb]; [tauto|].
  destruct (quote_keeps safe c) eqn:Hc; cbn [andb].
  - rewrite <- IH. split; [now injection 1 | now intros ->].
  - split; [|discriminate]. intros H.
    apply (f_equal String.length) in H. cbn [String.length] in H.
    pose proof (quote_length safe rest). lia.
Qed.

Example quote_pipe :
  quote LOCATION_SAFE "https://example.com/a|b?q=x y" = "https://example.com/a%7Cb?q=x%20y".
Proof. reflexivity. Qed.

Example redirect_cache_hit :
  fst (serve_redirect sample_dumps "abc" browser (hit_world []))
  = Some {| status := 301; location := Some "https://example.com/b" |}.
Proof. vm_compute. reflexivity. Qed.

Example redirect_not_found :
  fst (serve_redirect sample_dumps "nope" browser (hit_world []))
  = Some {| status := 404; location := None |}.
Proof. vm_compute. reflexivity. Qed.

(** C7, as the code has it.  For a code absent from the cache: if the
    relational store holds a record [(code, u)], the handler returns the
    redirect to [u] with status 301, the reply's Location is [u]
    percent-encoded as [RedirectResponse] does it, which is [u] itself
    exactly when every byte of [u] is a letter, a digit or one of
    [_.-~:/%#?=@[]!$&'()*+,;], and the cache then holds [u] under the key
    short_url:{code}; if the store holds no such record, the handler fails
    with NotFound (HTTP 404).  The store's unique index on the code and a
    cache whose commands go through are assumed. *)
Theorem redirect_cache_miss (code : string) (request : Api.Request) (w : Api.world)
    (record : option Db.ShortURL) :
  Redis.data (Api.redis w) !! ("short_url:" ++ code) = None ->
  reliable (Api.redis w) ->
  Db.unique_codes (Api.table w) ->
  holds (Api.table w) code record ->
  exists r w',
    Api.redirect_to_url code request w = (r, w') /\
    match record with
    | Some row =>
        r = Ok {| Api.url := Db.original_url row; Api.status_code := 301 |} /\
        Api.reply_of r
        = Some {| Api.status := 301;
                  Api.location := Some (quote Api.LOCATION_SAFE (Db.original_url row)) |} /\
        (quote Api.LOCATION_SAFE (Db.original_url row) = Db.original_url row
         <-> forallb (quote_keeps Api.LOCATION_SAFE)
               (list_ascii_of_string (Db.original_url row)) = true) /\
        fst <$> Redis.data (Api.redis w') !! ("short_url:" ++ code)
        = Some (Db.original_url row)
    | None =>
        r = Raise (HTTPException 404 "Short URL not found") /\
        Api.reply_of r = Some {| Api.status := 404; Api.location := None |}
    end.
Proof.
  intros Hmiss Hrel Huniq Hholds.
  destruct (reliable_next _ Hrel) as [Hget Hset].
  destruct (redirect_miss code request w record false Hmiss Hget Hset Huniq Hholds)
    as (w' & Hrun & _ & Hcache).
  eexists; exists w'. split; [exact Hrun|].
  destruct record as [row|]; cbn.
  - split; [reflexivity|]. split; [reflexivity|].
    split; [apply quote_kept | now rewrite Hcache].
  - split; reflexivity.
Qed.

Lemma redirect_cache_miss_witness :
  (Redis.data (Api.redis (miss_world [])) !! ("short_url:" ++ "xyz") = None /\
   reliable (Api.redis (miss_world [])) /\
   Db.unique_codes (Api.table (miss_world [])) /\
   holds (Api.table (miss_world [])) "xyz" (Some row_xyz)) /\
  exists r w',
    Api.redirect_to_url "xyz" browser (miss_world []) = (r, w') /\
    r = Ok {| Api.url := "https://example.com/c"; Api.status_code := 301 |} /\
    Api.reply_of r
    = Some {| Api.status := 301; Api.location := Some "https://example.com/c" |} /\
    (quote Api.LOCATION_SAFE "https://example.com/c" = "https://example.com/c"
     <-> forallb (quote_keeps Api.LOCATION_SAFE)
           (list_ascii_of_string "https://example.com/c") = true) /\
    fst <$> Redis.data (Api.redis w') !! ("short_url:" ++ "xyz")
    = Some "https://example.com/c".
Proof.
  assert (H1 : Redis.data (Api.redis (miss_world [])) !! ("short_url:" ++ "xyz") = None)
    by reflexivity.
  assert (H2 : reliable (Api.redis (miss_world []))) by constructor.
  assert (H3 : Db.unique_codes (Api.table (miss_world [])))
    by apply unique_codes_miss_world.
  assert (H4 : holds (Api.table (miss_world [])) "xyz" (Some row_xyz))
    by (split; [left; reflexivity | reflexivity]).
  split; [auto|].
  exact (redirect_cache_miss "xyz" browser (miss_world []) (Some row_xyz) H1 H2 H3 H4).
Defined.

(** The claim as written fails on a record whose URL has a byte that the
    header does not keep: the cache misses, the store holds the record, and
    the Location of the 301 is not the record's URL. *)
Lemma redirect_cache_miss_counterexample :
  Redis.data (Api.redis pipe_world) !! ("short_url:" ++ "pipe") = None /\
  holds (Api.table pipe_world) "pipe" (Some row_pipe) /\
  Db.original_url row_pipe = "https://example.com/a|b" /\
  Api.reply_of (fst (Api.redirect_to_url "pipe" browser pipe_world))
  = Some {| Api.status := 301; Api.location := Some "https://example.com/a%7Cb" |} /\
  Api.reply_of (fst (Api.redirect_to_url "pipe" browser pipe_world))
  <> Some {| Api.status := 301; Api.location := Some (Db.original_url row_pipe) |}.
Proof.
  split; [reflexivity|].
  split; [split; [right; left; reflexivity | reflexivity]|].
  split; [reflexivity|].
  split; [vm_compute; reflexivity | vm_compute; discriminate].
Qed.

(** C4, as the code has it.  In the cache-miss path with the record in the
    relational store, the handler returns the redirect (301, the record's
    URL, which the reply's Location carries percent-encoded) when the
    backfill write goes through; a failure of the backfill
    write is neither caught nor logged by the handler: the exception leaves
    [redirect_to_url] and the reply is a 500 without Location. *)
Theorem redirect_backfill_failure_propagates (code : string) (request : Api.Request)
    (w : Api.world) (row : Db.ShortURL) (write_fails : bool) (later : list bool) :
  Redis.data (Api.redis w) !! ("short_url:" ++ code) = None ->
  Redis.faults (Api.redis w) = false :: write_fails :: later ->
  Db.unique_codes (Api.table w) ->
  In row (Api.table w) ->
  Db.short_code row = code ->
  exists r w',
    Api.redirect_to_url code request w = (r, w') /\
    if write_fails then
      r = Raise ConnectionError /\
      Api.reply_of r = Some {| Api.status := 500; Api.location := None |} /\
      Api.log w' = Api.log w
    else
      r = Ok {| Api.url := Db.original_url row; Api.status_code := 301 |} /\
      Api.reply_of r
      = Some {| Api.status := 301;
                Api.location := Some (quote Api.LOCATION_SAFE (Db.original_url row)) |}.
Proof.
  intros Hmiss Hfaults Huniq Hin Hcode.
  assert (Hget : next_command_fails (redis w) = false)
    by (unfold next_command_fails; now rewrite Hfaults).
  assert (Hset : next_command_fails
                   (Redis.Build (Redis.data (redis w)) (tail (Redis.faults (redis w))))
                 = write_fails)
    by (unfold next_command_fails; rewrite Hfaults; now destruct write_fails).
  destruct (redirect_miss code request w (Some row) write_fails
              Hmiss Hget Hset Huniq (conj Hin Hcode)) as (w' & Hrun & _ & Hrest).
  eexists; exists w'. split; [exact Hrun|].
  destruct write_fails; cbn.
  - destruct Hrest as (_ & Hlog & _). auto.
  - auto.
Qed.

Lemma redirect_backfill_failure_propagates_witness :
  (Redis.data (Api.redis (miss_world [false; true])) !! ("short_url:" ++ "xyz") = None /\
   Redis.faults (Api.redis (miss_world [false; true])) = [false; true] /\
   Db.unique_codes (Api.table (miss_world [false; true])) /\
   In row_xyz (Api.table (miss_world [false; true])) /\
   Db.short_code row_xyz = "xyz") /\
  exists r w',
    Api.redirect_to_url "xyz" browser (miss_world [false; true]) = (r, w') /\
    r = Raise ConnectionError /\
    Api.reply_of r = Some {| Api.status := 500; Api.location := None |} /\
    Api.log w' = Api.log (miss_world [false; true]).
Proof.
  assert (H1 : Redis.data (Api.redis (miss_world [false; true])) !! ("short_url:" ++ "xyz")
               = None) by reflexivity.
  assert (H2 : Redis.faults (Api.redis (miss_world [false; true])) = [false; true])
    by reflexivity.
  assert (H3 : Db.unique_codes (Api.table (miss_world [false; true])))
    by apply unique_codes_miss_world.
  assert (H4 : In row_xyz (Api.table (miss_world [false; true]))) by (left; reflexivity).
  assert (H5 : Db.short_code row_xyz = "xyz") by reflexivity.
  split; [auto 6|].
  exact (redirect_backfill_failure_propagates "xyz" browser (miss_world [false; true])
           row_xyz true [] H1 H2 H3 H4 H5).
Defined.

(** The record is in the store, the cache misses, the backfill write
    fails: the reply is a 500, not the redirect, and the handler has logged
    nothing. *)
Lemma redirect_backfill_failure_counterexample :
  Db.select_first "xyz" (Api.table (miss_world [false; true])) = Some row_xyz /\
  Api.reply_of (fst (Api.redirect_to_url "xyz" browser (miss_world [false; true])))
  = Some {| Api.status := 500; Api.location := None |} /\
  Api.reply_of (fst (Api.redirect_to_url "xyz" browser (miss_world [false; true])))
  <> Some {| Api.status := 301; Api.location := Some "https://example.com/c" |} /\
  Api.log (snd (Api.redirect_to_url "xyz" browser (miss_world [false; true]))) = [].
Proof.
  split; [reflexivity|]. split; [vm_compute; reflexivity|].
  split; [vm_compute; discriminate | vm_compute; reflexivity].
Qed.

End Redirect_facts.

(** ** Click-event publisher *)

Section Publish_facts.
Import Api.

(** The handler never looks at what [exchange.publish] will do. *)
Lemma redirect_ignores_publish_faults (code : string) (request : Request) (w : world)
    (faults : list (option exn)) :
  redirect_to_url code request (with_publish_faults faults w)
  = (fst (redirect_to_url code request w),
     with_publish_faults faults (snd (redirect_to_url code request w))).
Proof.
  unfold redirect_to_url, get_analytics_publisher, session_exec_first, create_task,
    on_redis, on_bus, zoom, try_except, bind, get_state, modify, logger, ret, raise,
    Bus.connect, with_publish_faults.
  destruct w as [st g c now t r p [up q fs] ts lg]. cbn.
  destruct (RedisCache.get code r) as [[o| |] r1]; cbn; try reflexivity.
  destruct (truthy_str o); cbn.
  - destruct p; cbn; [reflexivity|]. destruct up; cbn; reflexivity.
  - destruct (find _ t); cbn; [|reflexivity].
    destruct (RedisCache.set _ _ _ r1) as [[[]| |] r2]; cbn; try reflexivity.
    destruct p; cbn; [reflexivity|]. destruct up; cbn; reflexivity.
Qed.

(** Whatever [Exception] the body throws, [publish_click_event] logs a
    warning and returns. *)
Lemma publish_click_event_swallows (dumps : click_event -> result string) (code : string)
    (request : Request) (original_url : string) (w : world) (e : exn) :
  is_Exception e = true ->
  publish_throws dumps code request original_url w e ->
  exists w',
    publish_click_event dumps code request original_url w = (Ok tt, w') /\
    log w' = (log w ++ [(WARNING, "Failed to publish click event")])%list.
Proof.
  intros Hexn Hthrows.
  unfold publish_click_event, try_except, bind, get_state, on_bus, zoom, logger, modify.
  destruct Hthrows as [Hd | [[body Hd] [later Hf]]]; cbn in Hd; rewrite Hd.
  - rewrite Hexn. eexists. split; reflexivity.
  - unfold Bus.publish. rewrite Hf. rewrite Hexn. eexists. split; reflexivity.
Qed.

(** Scenario 5: the publisher's channel is closed; the cached code still
    redirects and the task has logged its warning. *)
Example redirect_with_publisher_down :
  fst (serve_redirect sample_dumps "abc" browser (hit_world [Some ChannelClosed]))
  = Some {| status := 301; location := Some "https://example.com/b" |} /\
  log (snd (serve_redirect sample_dumps "abc" browser (hit_world [Some ChannelClosed])))
  = [(WARNING, "Failed to publish click event")].
Proof. split; vm_compute; reflexivity. Qed.

(** C8.  For every redirect request, an exception thrown inside the
    click-event publish (a refused or closed channel in [exchange.publish],
    a serialisation error in [json.dumps]) is logged as a warning and
    [publish_click_event] returns normally; the status and Location of the
    redirect are those of any other run of the same request, whatever its
    serialiser and its publishes do, in particular of a run in which the
    publish succeeds. *)
Theorem publish_failure_isolated (dumps dumps' : Api.click_event -> result string)
    (code : string) (request : Api.Request) (original_url : string) (w : Api.world)
    (faults' : list (option exn)) (e : exn) :
  is_Exception e = true ->
  publish_throws dumps code request original_url w e ->
  (exists w',
     Api.publish_click_event dumps code request original_url w = (Ok tt, w') /\
     Api.log w' = (Api.log w ++ [(WARNING, "Failed to publish click event")])%list) /\
  fst (Api.serve_redirect dumps code request w)
  = fst (Api.serve_redirect dumps' code request (with_publish_faults faults' w)).
Proof.
  intros Hexn Hthrows. split.
  - exact (publish_click_event_swallows dumps code request original_url w e Hexn Hthrows).
  - unfold serve_redirect. rewrite redirect_ignores_publish_faults.
    destruct (redirect_to_url code request w) as [r w1]. reflexivity.
Qed.

Lemma publish_failure_isolated_witness :
  (is_Exception ChannelClosed = true /\
   publish_throws sample_dumps "abc" browser "https://example.com/b"
     (hit_world [Some ChannelClosed]) ChannelClosed) /\
  (exists w',
     Api.publish_click_event sample_dumps "abc" browser "https://example.com/b"
       (hit_world [Some ChannelClosed]) = (Ok tt, w') /\
     Api.log w'
     = (Api.log (hit_world [Some ChannelClosed])
        ++ [(WARNING, "Failed to publish click event")])%list) /\
  fst (Api.serve_redirect sample_dumps "abc" browser (hit_world [Some ChannelClosed]))
  = fst (Api.serve_redirect sample_dumps "abc" browser
           (with_publish_faults [] (hit_world [Some ChannelClosed]))).
Proof.
  assert (H1 : is_Exception ChannelClosed = true) by reflexivity.
  assert (H2 : publish_throws sample_dumps "abc" browser "https://example.com/b"
                 (hit_world [Some ChannelClosed]) ChannelClosed).
  { right. split; [eexists; reflexivity | exists []; reflexivity]. }
  split; [auto|].
  exact (publish_failure_isolated sample_dumps sample_dumps "abc" browser
           "https://example.com/b" (hit_world [Some ChannelClosed]) [] ChannelClosed H1 H2).
Defined.

End Publish_facts.

(** ** Worker-id leases *)

Section Lease_facts.
Import WorkerID.

Example lease_key_0 : lease_key 0 = "worker_id:lease:0".
Proof. reflexivity. Qed.

Example lease_key_1023 : lease_key 1023 = "worker_id:lease:1023".
Proof. reflexivity. Qed.

(** On one server two acquisitions never give the same id. *)
Example acquire_twice :
  fst (as_a (acquire_worker_id default_settings) fresh_cluster) = Ok 0 /\
  fst (as_b (acquire_worker_id default_settings) lease_held) = Ok 1.
Proof. split; vm_compute; reflexivity. Qed.

(** A renewal that finds its key in place extends it and goes on. *)
Example renewal_extends :
  fst (proc_a (snd (as_a _renew_lease_loop_step lease_held)))
  = {| worker_id := Some 0; renewal_task := Some Sleeping;
       lease_ttl := 60; renewal_interval := 30 |} /\
  snd (proc_a (snd (as_a _renew_lease_loop_step lease_held)))
  = [(INFO, "Acquired worker ID"); (DEBUG, "Renewed lease for worker ID")].
Proof. split; vm_compute; reflexivity. Qed.

(** The resumption that sends the set-if-absent does not look at its
    answer: when the slot is taken, the task goes back to sleep holding the
    same [worker_id], with the log line of a renewal. *)
Lemma renew_step_ignores_failed_reacquire (w : world) (n : Z) :
  worker_id (self w) = Some n ->
  renewal_task (self w) = Some Reacquiring ->
  is_Some (Redis.data (redis w) !! lease_key n) ->
  next_command_fails (redis w) = false ->
  fst (Redis.set_nx_ex (lease_key n) "leased" (lease_ttl (self w)) (redis w)) = Ok false /\
  exists w',
    _renew_lease_loop_step w = (Ok tt, w') /\
    worker_id (self w') = Some n /\
    renewal_task (self w') = Some Sleeping /\
    Redis.data (redis w') = Redis.data (redis w) /\
    log w' = (log w ++ [(DEBUG, "Renewed lease for worker ID")])%list.
Proof.
  intros Hid Htask [v Hkey] Hok.
  unfold Redis.set_nx_ex. rewrite redis_command_ok by assumption. rewrite Hkey.
  split; [reflexivity|].
  unfold _renew_lease_loop_step, bind at 1, get_state. rewrite Htask, Hid.
  unfold renew_resume, renew_guard, try_except, bind, get_state, on_redis, zoom,
    Redis.set_nx_ex, logger, update_self, modify, ret.
  rewrite redis_command_ok by assumption. rewrite Hkey. cbn.
  eexists. split; [reflexivity|]. cbn. rewrite Hid. auto.
Qed.

(** C3.  The claim says that a process whose extension found the key gone
    and whose set-if-absent then failed never goes on with its worker id.
    In the run [split_brain] process A is told its key is gone, process B
    takes slot 0, A's set-if-absent on slot 0 fails, and A's renewal task
    goes back to sleep: A still has worker id 0, as B does, and A's log ends
    with the line of a successful renewal. *)
Theorem renewal_continues_after_lost_lease :
  WorkerID.renewal_task (fst (WorkerID.proc_a lease_gone)) = Some WorkerID.Reacquiring /\
  fst (Redis.set_nx_ex (WorkerID.lease_key 0) "leased" 60 (WorkerID.server slot_retaken))
  = Ok false /\
  WorkerID.worker_id (fst (WorkerID.proc_a split_brain)) = Some 0 /\
  WorkerID.worker_id (fst (WorkerID.proc_b split_brain)) = Some 0 /\
  WorkerID.renewal_task (fst (WorkerID.proc_a split_brain)) = Some WorkerID.Sleeping /\
  snd (WorkerID.proc_a split_brain)
  = [(INFO, "Acquired worker ID");
     (WARNING, "Worker ID lease expired. Attempting to reacquire...");
     (DEBUG, "Renewed lease for worker ID")].
Proof. repeat split; vm_compute; reflexivity. Qed.

End Lease_facts.

(** ** Event consumer *)

Section Consumer_facts.
Import Consumer.

Variable bytes_decode : string -> option string.
Variable json_loads : string -> option json.
Variable fromisoformat_strftime : string -> option string.

Lemma field_text_literal (key : string) (members : list (string * json)) :
  absent_or_str key members -> field_text key members = Ok (literal_of key members).
Proof.
  unfold absent_or_str, field_text, literal_of.
  destruct (dict_lookup key members) as [[]|]; try contradiction; reflexivity.
Qed.

(** An event without the "timestamp" member: the subscript raises. *)
Lemma insert_missing_timestamp (members : list (string * json)) (w : world) :
  dict_lookup "timestamp" members = None ->
  insert_click_event fromisoformat_strftime (JObject members) w
  = (Raise KeyError,
     add_log [(ERROR, "Failed to insert click event"); (ERROR, "Event data")] w).
Proof.
  intros Hts.
  unfold insert_click_event, try_except, bind, lift, py_getitem.
  rewrite Hts. cbn. unfold logger, modify, raise, add_log, bind. cbn.
  rewrite <- app_assoc. reflexivity.
Qed.



(** [process_message] on a payload that decodes to an object, by what the
    insert does. *)
Lemma process_object (message : IncomingMessage) (text : string)
    (members : list (string * json)) (w : world) :
  bytes_decode (body message) = Some text ->
  json_loads text = Some (JObject members) ->
  process_message bytes_decode json_loads fromisoformat_strftime message w
  = match insert_click_event fromisoformat_strftime (JObject members)
            (add_log [(DEBUG, "Received event")] w) with
    | (Ok _, w1) =>
        (Ok tt, ack message (add_log [(INFO, "Successfully processed click event")] w1))
    | (Raise e, w1) =>
        if is_JSONDecodeError e
        then (Ok tt, ack message (add_log [(ERROR, "Failed to parse JSON message");
                                           (ERROR, "Message body")] w1))
        else if is_Exception e
        then (Raise e, reject message (add_log [(ERROR, "Error processing message")] w1))
        else (Raise e, reject message w1)
    | (Diverge, w1) => (Diverge, w1)
    end.
Proof.
  intros Hbytes Hjson.
  unfold process_message, message_process, try_except, bind at 1, lift at 1.
  rewrite Hbytes. unfold bind at 1, lift at 1. rewrite Hjson.
  unfold bind at 1, lift at 1. cbn [py_get].
  replace (match dict_lookup "short_code" members with Some v => Ok v | None => Ok JNull end)
    with (Ok (default JNull (dict_lookup "short_code" members)))
    by (destruct (dict_lookup "short_code" members); reflexivity).
  unfold bind at 1, logger at 1, modify at 1.
  change {| ready := ready w; acknowledged := acknowledged w; rejected := rejected w;
            click_events := click_events w;
            execute_faults := execute_faults w;
            log := (log w ++ [(DEBUG, "Received event")])%list |}
    with (add_log [(DEBUG, "Received event")] w).
  unfold bind at 1.
  destruct (insert_click_event _ _ _) as [[[]|e|] w1]; cbn.
  - unfold bind, lift, logger, modify. cbn. reflexivity.
  - destruct e; cbn; unfold bind, logger, modify, add_log; cbn;
      rewrite <- ?app_assoc; reflexivity.
  - reflexivity.
Qed.

(** A payload that is not text never reaches the JSON handler: the scope
    fails and the message is rejected. *)
Lemma undecodable_bytes_rejected (message : IncomingMessage) (w : world) :
  bytes_decode (body message) = None ->
  exists w',
    process_message bytes_decode json_loads fromisoformat_strftime message w
    = (Raise UnicodeDecodeError, w') /\
    rejected_without_requeue message w w'.
Proof.
  intros Hbytes.
  unfold process_message, message_process, try_except, bind, lift, logger, modify, raise.
  rewrite Hbytes. cbn. eexists. split; [reflexivity|].
  unfold rejected_without_requeue. cbn. auto.
Qed.

(** A payload that decodes to something other than an object fails at the
    first [event_data.get]. *)
Lemma non_object_rejected (message : IncomingMessage) (text : string) (v : json) (w : world) :
  bytes_decode (body message) = Some text ->
  json_loads text = Some v ->
  (forall members, v <> JObject members) ->
  exists w',
    process_message bytes_decode json_loads fromisoformat_strftime message w
    = (Raise AttributeError, w') /\
    rejected_without_requeue message w w'.
Proof.
  intros Hbytes Hjson Hnot.
  unfold process_message, message_process, try_except, bind, lift, logger, modify, raise.
  rewrite Hbytes, Hjson.
  destruct v; try (cbn; eexists; split; [reflexivity|];
                   unfold rejected_without_requeue; cbn; auto; fail).
  now destruct (Hnot members).
Qed.

(** C2.  The claim says that a message whose payload fails JSON decoding
    leaves the processing scope unacknowledged and returns to the queue.
    In [process_message] the handler of [json.JSONDecodeError] logs and
    ends without raising, inside the scope: the scope exits without error,
    so the message is acknowledged and is not back on the queue. *)
Theorem decode_failure_is_acknowledged (message : Consumer.IncomingMessage) (text : string)
    (w : Consumer.world) :
  bytes_decode (Consumer.body message) = Some text ->
  json_loads text = None ->
  exists w',
    Consumer.process_message bytes_decode json_loads fromisoformat_strftime message w
    = (Ok tt, w') /\
    Consumer.acknowledged w' = (Consumer.acknowledged w ++ [message])%list /\
    Consumer.ready w' = Consumer.ready w /\
    Consumer.click_events w' = Consumer.click_events w /\
    Consumer.log w'
    = (Consumer.log w ++ [(ERROR, "Failed to parse JSON message");
                          (ERROR, "Message body")])%list.
Proof.
  intros Hbytes Hjson.
  unfold process_message, message_process, try_except, bind, lift, logger, modify.
  rewrite Hbytes, Hjson. cbn.
  eexists. split; [reflexivity|]. cbn. rewrite <- app_assoc. auto.
Qed.


End Consumer_facts.

Lemma decode_failure_is_acknowledged_witness :
  (sample_bytes_decode "not json" = Some "not json" /\
   sample_json_loads "not json" = None) /\
  exists w',
    Consumer.process_message sample_bytes_decode sample_json_loads
      sample_fromisoformat_strftime {| Consumer.body := "not json" |} idle_consumer
    = (Ok tt, w') /\
    Consumer.acknowledged w'
    = (Consumer.acknowledged idle_consumer ++ [ {| Consumer.body := "not json" |} ])%list /\
    Consumer.ready w' = Consumer.ready idle_consumer /\
    Consumer.click_events w' = Consumer.click_events idle_consumer /\
    Consumer.log w'
    = (Consumer.log idle_consumer ++ [(ERROR, "Failed to parse JSON message");
                                      (ERROR, "Message body")])%list.
Proof.
  assert (H1 : sample_bytes_decode "not json" = Some "not json") by reflexivity.
  assert (H2 : sample_json_loads "not json" = None) by reflexivity.
  split; [auto|].
  exact (decode_failure_is_acknowledged sample_bytes_decode sample_json_loads
           sample_fromisoformat_strftime {| Consumer.body := "not json" |} "not json"
           idle_consumer H1 H2).
Defined.



(** * Further properties of the code *)

(** ** Base62 *)

Section Base62_more.
Import Base62.

Lemma index_from_range (c : ascii) (s : string) :
  forall i d, index_from c s i = Some d ->
    i <= d < i + Z.of_nat (String.length s) /\ String.get (Z.to_nat (d - i)) s = Some c.
Proof.
  induction s as [|a rest IH]; intros i d; simpl; [discriminate|].
  destruct (Ascii.eqb a c) eqn:E.
  - intros H; inversion H; subst. apply Ascii.eqb_eq in E. subst.
    rewrite Z.sub_diag. simpl. split; [lia | reflexivity].
  - intros H. apply IH in H as [Hr Hg]. split; [lia|].
    replace (Z.to_nat (d - i)) with (S (Z.to_nat (d - (i + 1)))) by lia.
    exact Hg.
Qed.

Lemma index_spec (c : ascii) (d : Z) :
  index c = Some d -> 0 <= d < 62 /\ char_at d = c.
Proof.
  unfold index. intros H. apply index_from_range in H as [Hr Hg].
  change (Z.of_nat (String.length BASE62_CHARS)) with 62 in Hr.
  split; [lia|]. unfold char_at. rewrite Z.sub_0_r in Hg. now rewrite Hg.
Qed.

(** One turn of the loop, whatever the fuel, as long as it is enough. *)
Lemma encode_loop_step (fuel : nat) (num : Z) :
  0 < num < 2 ^ Z.of_nat fuel ->
  encode_loop fuel num [] = char_at (num mod 62) :: encode_loop (pred fuel) (num / 62) [].
Proof.
  destruct fuel as [|fuel]; intros H; [simpl in H; lia|].
  cbn [encode_loop pred]. destruct (0 <? num) eqn:E; [|apply Z.ltb_ge in E; lia].
  now rewrite encode_loop_acc.
Qed.

Lemma encode_loop_fuel (f1 : nat) :
  forall f2 num, 0 <= num < 2 ^ Z.of_nat f1 -> 0 <= num < 2 ^ Z.of_nat f2 ->
    encode_loop f1 num [] = encode_loop f2 num [].
Proof.
  induction f1 as [|f1 IH]; intros f2 num H1 H2.
  - simpl in H1. assert (num = 0) by lia. subst. destruct f2; reflexivity.
  - destruct (Z.eq_dec num 0) as [->|Hnz]; [destruct f2; reflexivity|].
    rewrite (encode_loop_step (S f1)) by lia.
    rewrite (encode_loop_step f2) by lia.
    f_equal. destruct f2 as [|f2]; [simpl in H2; lia|]. cbn [pred].
    rewrite Nat2Z.inj_succ, Z.pow_succ_r in H1, H2 by lia.
    apply IH; (split; [apply Z.div_pos; lia | apply Z.div_lt_upper_bound; lia]).
Qed.

(** The digits of [num], most significant first. *)
Lemma digits_step (num : Z) :
  0 < num ->
  rev (encode_loop (encode_fuel num) num [])
  = (rev (encode_loop (encode_fuel (num / 62)) (num / 62) []) ++ [char_at (num mod 62)])%list.
Proof.
  intros Hpos.
  rewrite encode_loop_step by (split; [lia | now apply encode_fuel_enough]).
  cbn [rev]. f_equal. f_equal.
  assert (Hq : 0 <= num / 62) by (apply Z.div_pos; lia).
  destruct (Z.eq_dec (num / 62) 0) as [Hz|Hnz].
  - rewrite Hz. unfold encode_fuel. cbn [pred]. destruct (Z.to_nat (Z.log2 num)); reflexivity.
  - apply encode_loop_fuel.
    + split; [lia|]. unfold encode_fuel. cbn [pred].
      rewrite Z2Nat.id by apply Z.log2_nonneg.
      apply Z.div_lt_upper_bound; [lia|].
      pose proof (Z.log2_spec num Hpos) as [_ Hs]. rewrite Z.pow_succ_r in Hs by apply Z.log2_nonneg.
      lia.
    + split; [lia | apply encode_fuel_enough; lia].
Qed.

Lemma encode_positive (num : Z) :
  0 < num ->
  base62_encode num = string_of_list_ascii (rev (encode_loop (encode_fuel num) num [])).
Proof.
  intros H. unfold base62_encode. destruct (num =? 0) eqn:E; [apply Z.eqb_eq in E; lia|].
  reflexivity.
Qed.

(** A run of symbols of the alphabet with no leading zero is the digits of
    its value. *)
Lemma digits_of_value (l : list ascii) :
  forallb in_alphabet l = true ->
  match l with
  | [] => True
  | c :: _ => c <> "0"%char
  end ->
  exists v,
    decode_loop 0 l = Ok v /\
    (l <> [] -> 62 ^ (Z.of_nat (length l) - 1) <= v) /\
    v < 62 ^ Z.of_nat (length l) /\ 0 <= v /\
    rev (encode_loop (encode_fuel v) v []) = l.
Proof.
  induction l as [|c l' IH] using rev_ind; intros Hall Hhead.
  - exists 0. cbn. repeat split; try lia; congruence.
  - rewrite forallb_app in Hall. apply andb_true_iff in Hall as [Hall' Hc].
    cbn in Hc. rewrite andb_true_r in Hc. unfold in_alphabet in Hc.
    destruct (index c) as [d|] eqn:Hd; [|discriminate].
    destruct (index_spec _ _ Hd) as [Hrange Hchar].
    assert (Hhead' : match l' with [] => True | c0 :: _ => c0 <> "0"%char end)
      by (destruct l'; [exact I | exact Hhead]).
    destruct (IH Hall' Hhead') as (v' & Hdec & Hlow & Hhigh & Hnn & Hdig).
    exists (v' * 62 + d).
    rewrite decode_loop_app, Hdec. cbn [decode_loop]. rewrite Hd.
    rewrite length_app. cbn [length].
    replace (Z.of_nat (length l' + 1)) with (Z.succ (Z.of_nat (length l'))) by lia.
    rewrite Z.pow_succ_r by lia.
    split; [reflexivity|].
    assert (Hpos : 0 < v' * 62 + d).
    { destruct l' as [|c0 l0].
      - cbn in Hdec. inversion Hdec; subst v'. cbn in Hhead.
        destruct (Z.eq_dec d 0) as [->|]; [|lia].
        exfalso. apply Hhead. rewrite <- Hchar. reflexivity.
      - assert (c0 :: l0 <> []) by discriminate.
        specialize (Hlow H). assert (0 < 62 ^ (Z.of_nat (length (c0 :: l0)) - 1))
          by (apply Z.pow_pos_nonneg; cbn [length]; lia). lia. }
    split.
    { intros _. replace (Z.succ (Z.of_nat (length l')) - 1) with (Z.of_nat (length l')) by lia.
      destruct l' as [|c0 l0]; [cbn; lia|].
      assert (c0 :: l0 <> []) by discriminate. specialize (Hlow H).
      replace (Z.of_nat (length (c0 :: l0))) with (Z.succ (Z.of_nat (length (c0 :: l0)) - 1)) by lia.
      rewrite Z.pow_succ_r by (cbn [length]; lia). lia. }
    split; [lia|]. split; [lia|].
    rewrite digits_step by assumption.
    replace ((v' * 62 + d) / 62) with v' by (apply Z.div_unique with d; lia).
    replace ((v' * 62 + d) mod 62) with d by (apply Z.mod_unique with v'; lia).
    now rewrite Hdig, Hchar.
Qed.


Lemma char_at_in_alphabet (d : Z) : 0 <= d < 62 -> in_alphabet (char_at d) = true.
Proof. intros H. unfold in_alphabet. now rewrite index_char_at. Qed.

Lemma char_at_nonzero (d : Z) : 0 < d < 62 -> char_at d <> "0"%char.
Proof.
  intros H Heq. assert (Hi : index (char_at d) = Some d) by (apply index_char_at; lia).
  rewrite Heq in Hi. vm_compute in Hi. inversion Hi. lia.
Qed.

(** The digits of a positive number: symbols of the alphabet, the first one
    not the zero symbol. *)
Lemma digits_canonical (n : Z) :
  0 <= n -> 0 < n ->
  let l := rev (encode_loop (encode_fuel n) n []) in
  forallb in_alphabet l = true /\
  exists c rest, l = c :: rest /\ c <> "0"%char.
Proof.
  intros Hnn. pattern n. apply Zlt_0_ind; [|exact Hnn]. clear n Hnn.
  intros n IH _ Hpos. cbv zeta. rewrite digits_step by assumption.
  assert (Hd : 0 <= n mod 62 < 62) by (apply Z.mod_pos_bound; lia).
  assert (Hq : 0 <= n / 62) by (apply Z.div_pos; lia).
  destruct (Z.eq_dec (n / 62) 0) as [Hz|Hnz].
  - rewrite Hz. cbn [encode_fuel encode_loop rev app Z.ltb Z.compare forallb].
    unfold encode_fuel. cbn.
    rewrite char_at_in_alphabet by assumption. split; [reflexivity|].
    eexists; eexists. split; [reflexivity|].
    apply char_at_nonzero. pose proof (Z.div_mod n 62). lia.
  - assert (Hlt : 0 <= n / 62 < n) by (split; [lia | apply Z.div_lt; lia]).
    destruct (IH (n / 62) Hlt ltac:(lia)) as [Hall (c & rest & Hl & Hc)].
    split.
    + rewrite forallb_app, Hall. cbn. now rewrite char_at_in_alphabet.
    + rewrite Hl. cbn [app]. eauto.
Qed.

(** X1 (base62_encode, non-negative input). The encoding of a number that is
    not negative is made of the 62 symbols only, is not empty, and starts with
    the zero symbol only when it is that symbol alone. *)
Theorem base62_encode_canonical (n : Z) :
  0 <= n -> canonical (Base62.base62_encode n).
Proof.
  intros Hnn. destruct (Z.eq_dec n 0) as [->|Hnz].
  - split; [reflexivity | left; reflexivity].
  - rewrite encode_positive by lia.
    destruct (digits_canonical n Hnn ltac:(lia)) as [Hall (c & rest & Hl & Hc)].
    split.
    + now rewrite list_ascii_of_string_of_list_ascii.
    + right. exists c, (string_of_list_ascii rest). rewrite Hl. split; [reflexivity | exact Hc].
Qed.

(** X2 (round trip from the text). Every text made of the 62 symbols that has
    no leading zero symbol (or is the zero symbol alone) decodes to a number
    that is not negative and whose encoding is that same text. *)
Theorem base62_encode_decode (s : string) :
  canonical s ->
  exists n, 0 <= n /\ Base62.base62_decode s = Ok n /\ Base62.base62_encode n = s.
Proof.
  intros [Hall [->|(c & rest & -> & Hc)]].
  - exists 0. repeat split; lia.
  - destruct (digits_of_value (list_ascii_of_string (String c rest)) Hall) as
      (v & Hdec & Hlow & _ & Hnn & Hdig); [exact Hc|].
    exists v. split; [exact Hnn|]. split; [exact Hdec|].
    assert (Hpos : 0 < v).
    { assert (H : list_ascii_of_string (String c rest) <> []) by discriminate.
      specialize (Hlow H).
      assert (0 < 62 ^ (Z.of_nat (length (list_ascii_of_string (String c rest))) - 1))
        by (apply Z.pow_pos_nonneg; cbn [list_ascii_of_string length]; lia). lia. }
    rewrite encode_positive by assumption. rewrite Hdig.
    apply string_of_list_ascii_of_string.
Qed.

(** X3 (length of a code). The encoding of a positive number n has as many
    symbols as n has digits in base 62: with len its length, 62^(len-1) <= n <
    62^len. *)
Theorem base62_encode_length (n : Z) :
  0 < n ->
  62 ^ (Z.of_nat (String.length (Base62.base62_encode n)) - 1) <= n
  < 62 ^ Z.of_nat (String.length (Base62.base62_encode n)).
Proof.
  intros Hpos.
  pose proof (base62_decode_encode n ltac:(lia)) as Hrt.
  rewrite encode_positive in * by assumption.
  destruct (digits_canonical n ltac:(lia) Hpos) as [Hall (c & rest & Hl & Hc)].
  cbv zeta in *.
  destruct (digits_of_value _ Hall) as (v & Hdec & Hlow & Hhigh & _ & _);
    [rewrite Hl; exact Hc|].
  unfold base62_decode in Hrt. rewrite list_ascii_of_string_of_list_ascii in Hrt.
  rewrite Hrt in Hdec. inversion Hdec; subst v.
  assert (Hlen : String.length (string_of_list_ascii (rev (encode_loop (encode_fuel n) n [])))
                 = length (rev (encode_loop (encode_fuel n) n []))).
  { generalize (rev (encode_loop (encode_fuel n) n [])). intros l.
    induction l; cbn; [reflexivity | now f_equal]. }
  rewrite Hlen. split; [apply Hlow; rewrite Hl; discriminate | exact Hhigh].
Qed.

Lemma decode_loop_outcome (l : list ascii) :
  forall acc, 0 <= acc ->
    match decode_loop acc l with
    | Ok n => acc <= n /\ forallb in_alphabet l = true
    | Raise e => e = ValueError /\ forallb in_alphabet l = false
    | Diverge => False
    end.
Proof.
  induction l as [|c l IH]; intros acc Hacc; cbn [decode_loop forallb].
  - split; [lia | reflexivity].
  - assert (Ha : in_alphabet c = match index c with Some _ => true | None => false end)
      by reflexivity.
    rewrite Ha. clear Ha. destruct (index c) as [d|] eqn:Hd; cbn [andb].
    + destruct (index_spec _ _ Hd) as [Hr _].
      specialize (IH (acc * 62 + d) ltac:(lia)).
      destruct (decode_loop (acc * 62 + d) l); [|exact IH|exact IH].
      destruct IH. split; [lia | assumption].
    + split; reflexivity.
Qed.

(** X4 (what base62_decode can do). base62_decode returns a number that is not
    negative when every symbol of the text is one of the 62 (the empty text
    gives 0), and raises ValueError when some symbol is not; it does nothing
    else. *)
Theorem base62_decode_outcome (s : string) :
  match Base62.base62_decode s with
  | Ok n => 0 <= n /\ forallb in_alphabet (list_ascii_of_string s) = true
  | Raise e => e = ValueError /\ forallb in_alphabet (list_ascii_of_string s) = false
  | Diverge => False
  end.
Proof. apply decode_loop_outcome. lia. Qed.

(** X5 (negative input). base62_encode gives the empty text for a negative
    number, and the empty text decodes to 0: below zero the round trip is
    lost. *)
Theorem base62_encode_negative_is_empty (n : Z) :
  n < 0 ->
  Base62.base62_encode n = "" /\
  Base62.base62_decode (Base62.base62_encode n) = Ok 0.
Proof.
  intros Hneg. assert (H : base62_encode n = "").
  { unfold base62_encode. destruct (n =? 0) eqn:E; [apply Z.eqb_eq in E; lia|].
    unfold encode_fuel. cbn [encode_loop].
    destruct (0 <? n) eqn:E'; [apply Z.ltb_lt in E'; lia | reflexivity]. }
  rewrite H. split; reflexivity.
Qed.

(** X6 (codes are injective). Two different numbers that are not negative
    never get the same Base62 text. *)
Theorem base62_codes_distinct (n m : Z) :
  0 <= n -> 0 <= m -> n <> m -> Base62.base62_encode n <> Base62.base62_encode m.
Proof.
  intros Hn Hm Hne Heq.
  pose proof (base62_decode_encode n Hn) as H1.
  pose proof (base62_decode_encode m Hm) as H2.
  rewrite Heq in H1. congruence.
Qed.

End Base62_more.

Lemma base62_encode_canonical_witness :
  0 <= 4222976 /\ canonical (Base62.base62_encode 4222976).
Proof.
  assert (H : 0 <= 4222976) by lia.
  split; [exact H | exact (base62_encode_canonical 4222976 H)].
Defined.

Lemma base62_encode_decode_witness :
  canonical "hIAw" /\
  exists n, 0 <= n /\ Base62.base62_decode "hIAw" = Ok n /\ Base62.base62_encode n = "hIAw".
Proof.
  assert (H : canonical "hIAw").
  { split; [reflexivity|]. right. exists "h"%char, "IAw". split; [reflexivity | discriminate]. }
  split; [exact H | exact (base62_encode_decode "hIAw" H)].
Defined.

Lemma base62_encode_length_witness :
  0 < 4222976 /\
  62 ^ (Z.of_nat (String.length (Base62.base62_encode 4222976)) - 1) <= 4222976
  < 62 ^ Z.of_nat (String.length (Base62.base62_encode 4222976)).
Proof.
  assert (H : 0 < 4222976) by lia.
  split; [exact H | exact (base62_encode_length 4222976 H)].
Defined.

Lemma base62_encode_negative_is_empty_witness :
  -5 < 0 /\
  Base62.base62_encode (-5) = "" /\
  Base62.base62_decode (Base62.base62_encode (-5)) = Ok 0.
Proof.
  assert (H : -5 < 0) by lia.
  split; [exact H | exact (base62_encode_negative_is_empty (-5) H)].
Defined.

Lemma base62_codes_distinct_witness :
  (0 <= 4222976 /\ 0 <= 4222977 /\ 4222976 <> 4222977) /\
  Base62.base62_encode 4222976 <> Base62.base62_encode 4222977.
Proof.
  assert (H1 : 0 <= 4222976) by lia.
  assert (H2 : 0 <= 4222977) by lia.
  assert (H3 : 4222976 <> 4222977) by lia.
  split; [auto|].
  exact (base62_codes_distinct 4222976 4222977 H1 H2 H3).
Defined.

(** ** Snowflake generator *)

Ltac step_generate :=
  unfold Snowflake.generate, Snowflake._wait_next_millisecond, Snowflake._current_timestamp,
    Snowflake.update_self, bind, get_state, modify, ret, raise; cbn.

Section Snowflake_more.
Import Snowflake.

Lemma spin_in_readings (last : Z) (readings : list Z) :
  forall timestamp t rest,
    spin last timestamp readings = (Ok t, rest) -> t = timestamp \/ In t readings.
Proof.
  induction readings as [|now later IH]; intros timestamp t rest; simpl.
  - destruct (timestamp <=? last); intros H; inversion H; auto.
  - destruct (timestamp <=? last).
    + intros H. apply IH in H as [->|H]; auto.
    + intros H; inversion H; auto.
Qed.

(** What a call that returns has done to the instance. *)
Lemma generate_effect (s s' : state) (id : Z) :
  generate s = (Ok id, s') ->
  worker_id (self s') = worker_id (self s) /\
  In (last_timestamp (self s')) (clock s) /\
  last_timestamp (self s) <= last_timestamp (self s').
Proof.
  destruct s as [[w sq last] [|now later]]; [discriminate|].
  step_generate.
  destruct (now <? last) eqn:Hlt; [discriminate|]. apply Z.ltb_ge in Hlt.
  destruct (now =? last) eqn:Heq; cbn.
  - apply Z.eqb_eq in Heq. subst now.
    destruct (Z.land (sq + 1) MAX_SEQUENCE =? 0); cbn.
    + destruct later as [|now' later']; [discriminate|]. cbn.
      destruct (spin last now' later') as [[t| |] c] eqn:Hspin; cbn;
        intros H; inversion H; subst; clear H. cbn.
      pose proof (spin_spec _ _ _ _ _ Hspin).
      apply spin_in_readings in Hspin. split; [reflexivity|]. split; [|lia].
      destruct Hspin as [->|Hin]; auto.
    + intros H; inversion H; subst; clear H. cbn. auto with zarith.
  - intros H; inversion H; subst; clear H. cbn. auto with zarith.
Qed.

Lemma parse_rank (g : t) :
  wf g ->
  parse_id (rank g)
  = {| p_timestamp := last_timestamp g; p_worker_id := worker_id g; p_sequence := sequence g |}.
Proof.
  intros [Hw Hs]. unfold parse_id, rank. layout_consts.
  change 4095 with (Z.ones 12) at 1. change 1023 with (Z.ones 10) at 1.
  rewrite !Z.land_ones by lia. rewrite !Z.shiftr_div_pow2 by lia.
  set (a := last_timestamp g - EPOCH) in *.
  set (w := worker_id g) in *. set (q := sequence g) in *.
  change (10 + 12) with 22.
  assert (H1 : (a * 2 ^ 22 + w * 2 ^ 12 + q) mod 2 ^ 12 = q).
  { symmetry. apply Z.mod_unique with (a * 2 ^ 10 + w); lia. }
  assert (H2 : (a * 2 ^ 22 + w * 2 ^ 12 + q) / 2 ^ 12 = a * 2 ^ 10 + w).
  { symmetry. apply Z.div_unique with q; lia. }
  assert (H3 : (a * 2 ^ 10 + w) mod 2 ^ 10 = w).
  { symmetry. apply Z.mod_unique with a; lia. }
  assert (H4 : (a * 2 ^ 22 + w * 2 ^ 12 + q) / 2 ^ 22 = a).
  { symmetry. apply Z.div_unique with (w * 2 ^ 12 + q); lia. }
  rewrite H1, H2, H3, H4. f_equal. unfold a. lia.
Qed.

Lemma generate_parse (s s' : Snowflake.state) (id : Z) :
  wf (Snowflake.self s) ->
  Snowflake.generate s = (Ok id, s') ->
  Snowflake.parse_id id
  = {| Snowflake.p_timestamp := Snowflake.last_timestamp (Snowflake.self s');
       Snowflake.p_worker_id := Snowflake.worker_id (Snowflake.self s);
       Snowflake.p_sequence := Snowflake.sequence (Snowflake.self s') |} /\
  In (Snowflake.last_timestamp (Snowflake.self s')) (Snowflake.clock s) /\
  0 <= Snowflake.sequence (Snowflake.self s') <= 4095.
Proof.
  intros Hwf Hgen.
  destruct (generate_ok _ _ _ Hwf Hgen) as (Hwf' & -> & _).
  destruct (generate_effect _ _ _ Hgen) as (Hw & Hin & _).
  rewrite parse_rank by assumption. rewrite Hw.
  split; [reflexivity|]. split; [assumption|]. destruct Hwf' as [_ Hs]. layout_consts. lia.
Qed.

(** X7 (parse_id undoes generate). parse_id of a generated id gives back the
    millisecond and the sequence number the generator recorded and the
    generator's worker id; that millisecond is one the clock showed, and the
    sequence number is within 0..4095. *)
Theorem parse_id_of_generated (s s' : Snowflake.state) (id : Z) :
  wf (Snowflake.self s) ->
  Snowflake.generate s = (Ok id, s') ->
  Snowflake.parse_id id
  = {| Snowflake.p_timestamp := Snowflake.last_timestamp (Snowflake.self s');
       Snowflake.p_worker_id := Snowflake.worker_id (Snowflake.self s);
       Snowflake.p_sequence := Snowflake.sequence (Snowflake.self s') |} /\
  In (Snowflake.last_timestamp (Snowflake.self s')) (Snowflake.clock s) /\
  0 <= Snowflake.sequence (Snowflake.self s') <= 4095.
Proof. apply generate_parse. Qed.

(** X8 (worker ids separate the id spaces). Two generators whose worker ids
    differ (both within 0..1023) never return the same id, whatever their
    clocks and sequence numbers. *)
Theorem distinct_workers_distinct_ids (s1 s1' s2 s2' : Snowflake.state) (id1 id2 : Z) :
  wf (Snowflake.self s1) -> wf (Snowflake.self s2) ->
  Snowflake.worker_id (Snowflake.self s1) <> Snowflake.worker_id (Snowflake.self s2) ->
  Snowflake.generate s1 = (Ok id1, s1') ->
  Snowflake.generate s2 = (Ok id2, s2') ->
  id1 <> id2.
Proof.
  intros Hwf1 Hwf2 Hne H1 H2 Heq.
  destruct (generate_ok _ _ _ Hwf1 H1) as (Hwf1' & Hid1 & _).
  destruct (generate_ok _ _ _ Hwf2 H2) as (Hwf2' & Hid2 & _).
  destruct (generate_effect _ _ _ H1) as (Hw1 & _).
  destruct (generate_effect _ _ _ H2) as (Hw2 & _).
  assert (Hp : parse_id id1 = parse_id id2) by now rewrite Heq.
  rewrite Hid1, Hid2, !parse_rank in Hp by assumption.
  inversion Hp. congruence.
Qed.

(** X9 (range of an id). While the clock stays within 2^41 milliseconds from
    the epoch, a generated id is not negative and is below 2^63. *)
Theorem generated_id_fits_63_bits (s s' : Snowflake.state) (id : Z) :
  wf (Snowflake.self s) ->
  Forall (fun now => Snowflake.EPOCH <= now < Snowflake.EPOCH + 2 ^ Snowflake.TIMESTAMP_BITS)
    (Snowflake.clock s) ->
  Snowflake.generate s = (Ok id, s') ->
  0 <= id < 2 ^ 63.
Proof.
  intros Hwf Hclock Hgen.
  destruct (generate_ok _ _ _ Hwf Hgen) as ([Hw Hs] & -> & _).
  destruct (generate_effect _ _ _ Hgen) as (_ & Hin & _).
  rewrite List.Forall_forall in Hclock. specialize (Hclock _ Hin).
  unfold rank. change TIMESTAMP_BITS with 41 in Hclock. layout_consts. lia.
Qed.

(** X10 (clock regression). generate raises exactly when the clock reads less
    than last_timestamp; it then raises RuntimeError and leaves sequence and
    last_timestamp as they were. *)
Theorem generate_refuses_backward_clock (g : Snowflake.t) (now : Z) (later : list Z) :
  if now <? Snowflake.last_timestamp g
  then Snowflake.generate (Snowflake.State g (now :: later))
       = (Raise RuntimeError, Snowflake.State g later)
  else forall e s', Snowflake.generate (Snowflake.State g (now :: later)) <> (Raise e, s').
Proof.
  destruct g as [w sq last]. step_generate.
  destruct (now <? last) eqn:Hlt; [reflexivity|].
  intros e s'. destruct (now =? last); cbn.
  - destruct (Z.land (sq + 1) MAX_SEQUENCE =? 0); cbn; [|discriminate].
    destruct later as [|now' later']; [discriminate|]. cbn.
    destruct (spin last now' later') as [[t|e'|] c] eqn:Hspin; cbn; try discriminate.
    now apply spin_no_raise in Hspin.
  - discriminate.
Qed.

(** X11 (sequence overflow). With the sequence number at 4095 and the clock
    still on last_timestamp, generate waits until the clock has passed it and
    returns an id that carries that later millisecond and sequence number 0. *)
Theorem generate_waits_on_sequence_overflow (g : Snowflake.t) (later : list Z) :
  wf g ->
  Snowflake.sequence g = Snowflake.MAX_SEQUENCE ->
  Exists (fun now => Snowflake.last_timestamp g < now) later ->
  exists id s',
    Snowflake.generate (Snowflake.State g (Snowflake.last_timestamp g :: later)) = (Ok id, s') /\
    Snowflake.last_timestamp g < Snowflake.p_timestamp (Snowflake.parse_id id) /\
    Snowflake.p_sequence (Snowflake.parse_id id) = 0 /\
    In (Snowflake.p_timestamp (Snowflake.parse_id id)) later.
Proof.
  intros Hwf Hseq Hex.
  assert (Hret : exists id s', generate (State g (last_timestamp g :: later)) = (Ok id, s') /\
                               sequence (self s') = 0 /\ last_timestamp g < last_timestamp (self s')
                               /\ In (last_timestamp (self s')) later).
  { destruct g as [w sq last]. cbn in *. subst sq. step_generate.
    rewrite Z.ltb_irrefl, Z.eqb_refl. layout_consts.
    change (Z.land (4095 + 1) 4095) with 0. cbn.
    destruct later as [|now' later']; [inversion Hex|]. cbn.
    assert (Hs : exists t rest, spin last now' later' = (Ok t, rest)).
    { inversion Hex as [? ? Hnow|? ? Hlater]; subst.
      - destruct later'; simpl; destruct (now' <=? last) eqn:E; eauto;
          apply Z.leb_le in E; lia.
      - now apply spin_returns. }
    destruct Hs as (t & rest & Hspin). rewrite Hspin. cbn.
    eexists; eexists. split; [reflexivity|]. cbn. split; [reflexivity|].
    split; [eapply spin_spec; eassumption|].
    apply spin_in_readings in Hspin. destruct Hspin as [->|H]; [now left | now right]. }
  destruct Hret as (id & s' & Hgen & Hsq & Hlt & Hin).
  exists id, s'. split; [exact Hgen|].
  destruct (generate_parse (State g (last_timestamp g :: later)) _ _ Hwf Hgen) as (Hp & _).
  rewrite Hp. cbn. auto.
Qed.

End Snowflake_more.

Lemma parse_id_of_generated_witness :
  (wf (Snowflake.self (fresh_gen 7)) /\
   Snowflake.generate (fresh_gen 7)
   = (Ok 4222976, Snowflake.State (Snowflake.Build 7 0 1704067200001) [])) /\
  Snowflake.parse_id 4222976
  = {| Snowflake.p_timestamp := 1704067200001;
       Snowflake.p_worker_id := 7;
       Snowflake.p_sequence := 0 |} /\
  In 1704067200001 (Snowflake.clock (fresh_gen 7)) /\
  0 <= 0 <= 4095.
Proof.
  assert (H1 : wf (Snowflake.self (fresh_gen 7))) by (unfold wf; cbn; layout_consts; lia).
  assert (H2 : Snowflake.generate (fresh_gen 7)
               = (Ok 4222976, Snowflake.State (Snowflake.Build 7 0 1704067200001) []))
    by reflexivity.
  split; [auto|].
  exact (parse_id_of_generated (fresh_gen 7) _ 4222976 H1 H2).
Defined.

Lemma distinct_workers_distinct_ids_witness :
  (wf (Snowflake.self (fresh_gen 7)) /\ wf (Snowflake.self (fresh_gen 8)) /\
   Snowflake.worker_id (Snowflake.self (fresh_gen 7))
   <> Snowflake.worker_id (Snowflake.self (fresh_gen 8)) /\
   Snowflake.generate (fresh_gen 7)
   = (Ok 4222976, Snowflake.State (Snowflake.Build 7 0 1704067200001) []) /\
   Snowflake.generate (fresh_gen 8)
   = (Ok 4227072, Snowflake.State (Snowflake.Build 8 0 1704067200001) [])) /\
  4222976 <> 4227072.
Proof.
  assert (H1 : wf (Snowflake.self (fresh_gen 7))) by (unfold wf; cbn; layout_consts; lia).
  assert (H2 : wf (Snowflake.self (fresh_gen 8))) by (unfold wf; cbn; layout_consts; lia).
  assert (H3 : Snowflake.worker_id (Snowflake.self (fresh_gen 7))
               <> Snowflake.worker_id (Snowflake.self (fresh_gen 8))) by (cbn; lia).
  assert (H4 : Snowflake.generate (fresh_gen 7)
               = (Ok 4222976, Snowflake.State (Snowflake.Build 7 0 1704067200001) []))
    by reflexivity.
  assert (H5 : Snowflake.generate (fresh_gen 8)
               = (Ok 4227072, Snowflake.State (Snowflake.Build 8 0 1704067200001) []))
    by reflexivity.
  split; [auto 6|].
  exact (distinct_workers_distinct_ids _ _ _ _ _ _ H1 H2 H3 H4 H5).
Defined.

Lemma generated_id_fits_63_bits_witness :
  (wf (Snowflake.self (fresh_gen 7)) /\
   Forall (fun now => Snowflake.EPOCH <= now < Snowflake.EPOCH + 2 ^ Snowflake.TIMESTAMP_BITS)
     (Snowflake.clock (fresh_gen 7)) /\
   Snowflake.generate (fresh_gen 7)
   = (Ok 4222976, Snowflake.State (Snowflake.Build 7 0 1704067200001) [])) /\
  0 <= 4222976 < 2 ^ 63.
Proof.
  assert (H1 : wf (Snowflake.self (fresh_gen 7))) by (unfold wf; cbn; layout_consts; lia).
  assert (H2 : Forall (fun now => Snowflake.EPOCH <= now
                                  < Snowflake.EPOCH + 2 ^ Snowflake.TIMESTAMP_BITS)
                 (Snowflake.clock (fresh_gen 7))).
  { constructor; [|constructor]. unfold Snowflake.EPOCH, Snowflake.TIMESTAMP_BITS. lia. }
  assert (H3 : Snowflake.generate (fresh_gen 7)
               = (Ok 4222976, Snowflake.State (Snowflake.Build 7 0 1704067200001) []))
    by reflexivity.
  split; [auto|].
  exact (generated_id_fits_63_bits _ _ _ H1 H2 H3).
Defined.

Lemma generate_waits_on_sequence_overflow_witness :
  (wf spent_gen /\
   Snowflake.sequence spent_gen = Snowflake.MAX_SEQUENCE /\
   Exists (fun now => Snowflake.last_timestamp spent_gen < now)
     [1704067200001; 1704067200002]) /\
  exists id s',
    Snowflake.generate
      (Snowflake.State spent_gen
         (Snowflake.last_timestamp spent_gen :: [1704067200001; 1704067200002]))
    = (Ok id, s') /\
    Snowflake.last_timestamp spent_gen < Snowflake.p_timestamp (Snowflake.parse_id id) /\
    Snowflake.p_sequence (Snowflake.parse_id id) = 0 /\
    In (Snowflake.p_timestamp (Snowflake.parse_id id)) [1704067200001; 1704067200002].
Proof.
  assert (H1 : wf spent_gen) by (unfold wf; cbn; layout_consts; lia).
  assert (H2 : Snowflake.sequence spent_gen = Snowflake.MAX_SEQUENCE) by reflexivity.
  assert (H3 : Exists (fun now => Snowflake.last_timestamp spent_gen < now)
                 [1704067200001; 1704067200002])
    by (apply Exists_cons_tl, Exists_cons_hd; cbn; lia).
  split; [auto|].
  exact (generate_waits_on_sequence_overflow spent_gen _ H1 H2 H3).
Defined.

(** ** The cache wrapper *)

Lemma redis_command_inv {A} (run : gmap string (string * Z) -> A * gmap string (string * Z))
    (r r' : Redis.t) (a : A) :
  Redis.command run r = (Ok a, r') ->
  a = fst (run (Redis.data r)) /\ Redis.data r' = snd (run (Redis.data r)).
Proof.
  unfold Redis.command.
  destruct (Redis.faults r) as [|[] later]; try discriminate;
    destruct (run (Redis.data r)); intros H; inversion H; subst; auto.
Qed.

Lemma redis_command_raise {A} (run : gmap string (string * Z) -> A * gmap string (string * Z))
    (r r' : Redis.t) (e : exn) :
  Redis.command run r = (Raise e, r') ->
  e = ConnectionError /\ Redis.data r' = Redis.data r.
Proof.
  unfold Redis.command.
  destruct (Redis.faults r) as [|[] later]; try discriminate;
    try (destruct (run (Redis.data r)); discriminate).
  intros H; inversion H; subst; auto.
Qed.

Section Cache_more.

Lemma reliable_tail (r : Redis.t) (d : gmap string (string * Z)) :
  reliable r -> reliable (Redis.Build d (tail (Redis.faults r))).
Proof.
  unfold reliable. cbn. destruct (Redis.faults r); cbn; intros H; [constructor|].
  now inversion H.
Qed.

Lemma reliable_command {A} (run : gmap string (string * Z) -> A * gmap string (string * Z))
    (r : Redis.t) :
  reliable r ->
  exists r',
    Redis.command run r = (Ok (fst (run (Redis.data r))), r') /\
    Redis.data r' = snd (run (Redis.data r)) /\ reliable r'.
Proof.
  intros Hrel. destruct (reliable_next _ Hrel) as [Hok _].
  rewrite redis_command_ok by assumption.
  eexists. split; [reflexivity|]. split; [reflexivity|]. now apply reliable_tail.
Qed.

Lemma make_key_inj (a b : string) :
  RedisCache._make_key a = RedisCache._make_key b -> a = b.
Proof. unfold RedisCache._make_key, RedisCache.KEY_PREFIX. cbn. intros H. now inversion H. Qed.

(** [SETEX] over a transport that works: stored with a positive time to
    live, refused otherwise. *)
Lemma setex_reliable (key value : string) (ttl : Z) (r : Redis.t) :
  reliable r ->
  exists r',
    Redis.setex key ttl value r
    = (if 0 <? ttl then Ok true else Raise ResponseError, r') /\
    Redis.data r' = (if 0 <? ttl then <[key := (value, ttl)]> (Redis.data r)
                     else Redis.data r) /\
    reliable r'.
Proof.
  intros Hrel. unfold Redis.setex, bind.
  match goal with |- context [Redis.command ?f r] =>
    destruct (reliable_command f r Hrel) as (r' & Hcmd & Hd & Hrel') end.
  rewrite Hcmd. exists r'.
  destruct (0 <? ttl); cbn in *; auto.
Qed.

(** X12 (set, then get). While the transport works: when the time to live
    that set passes on (the default for None and for 0, else the argument) is
    positive, get of a code after set of that code returns the URL that was
    set, and what get returns for any other code is as before the set; when
    it is negative the server refuses it, set raises ResponseError and the
    cache holds what it held. *)
Theorem cache_set_then_get (short_code original_url : string) (ttl : option Z) (r : Redis.t) :
  reliable r ->
  if 0 <? RedisCache.ttl_or_default ttl then
    exists r1 r2,
      RedisCache.set short_code original_url ttl r = (Ok tt, r1) /\
      RedisCache.get short_code r1 = (Ok (Some original_url), r2) /\
      forall other, other <> short_code ->
        fst (RedisCache.get other r1) = fst (RedisCache.get other r)
  else
    exists r1,
      RedisCache.set short_code original_url ttl r = (Raise ResponseError, r1) /\
      Redis.data r1 = Redis.data r.
Proof.
  intros Hrel.
  destruct (setex_reliable (RedisCache._make_key short_code) original_url
              (RedisCache.ttl_or_default ttl) r Hrel) as (r1 & Hset & Hd1 & Hrel1).
  destruct (0 <? RedisCache.ttl_or_default ttl);
    unfold RedisCache.set, bind; rewrite Hset.
  - exists r1. unfold RedisCache.get, Redis.get.
    destruct (reliable_command
                (fun d => (fst <$> d !! RedisCache._make_key short_code, d)) r1 Hrel1)
      as (r2 & Hget & _ & _).
    exists r2. split; [reflexivity|]. split.
    + rewrite Hget. cbn. rewrite Hd1, lookup_insert_eq. reflexivity.
    + intros other Hne.
      destruct (reliable_next _ Hrel) as [Hok _].
      destruct (reliable_next _ Hrel1) as [Hok1 _].
      rewrite !redis_command_ok by assumption. cbn. rewrite Hd1.
      rewrite lookup_insert_ne; [reflexivity|].
      intros Heq. apply make_key_inj in Heq. congruence.
  - exists r1. split; [reflexivity | exact Hd1].
Qed.

(** X13 (delete, then get and exists). While the transport works, after delete
    of a code get returns None and exists returns False for it, and the keys
    of other codes are untouched. *)
Theorem cache_delete_then_get (short_code : string) (r : Redis.t) :
  reliable r ->
  exists r1 r2 r3,
    RedisCache.delete short_code r = (Ok tt, r1) /\
    RedisCache.get short_code r1 = (Ok None, r2) /\
    RedisCache.exists_ short_code r2 = (Ok false, r3) /\
    forall other, other <> short_code ->
      Redis.data r3 !! RedisCache._make_key other = Redis.data r !! RedisCache._make_key other.
Proof.
  intros Hrel.
  unfold RedisCache.delete, RedisCache.get, RedisCache.exists_, bind, ret,
    Redis.delete, Redis.get, Redis.exists_.
  match goal with |- context [Redis.command ?f r] =>
    destruct (reliable_command f r Hrel) as (r1 & Hdel & Hd1 & Hrel1) end.
  rewrite Hdel. exists r1.
  match goal with |- context [Redis.command ?f r1] =>
    destruct (reliable_command f r1 Hrel1) as (r2 & Hget & Hd2 & Hrel2) end.
  exists r2.
  match goal with |- context [Redis.command ?f r2] =>
    destruct (reliable_command f r2 Hrel2) as (r3 & Hex & Hd3 & Hrel3) end.
  exists r3. cbn in Hd1, Hd2, Hd3.
  assert (Hgone : Redis.data r1 !! RedisCache._make_key short_code = None).
  { rewrite Hd1. destruct (Redis.data r !! RedisCache._make_key short_code) eqn:E; cbn;
      [apply lookup_delete_eq | exact E]. }
  split; [reflexivity|]. split; [|split].
  - rewrite Hget. cbn. now rewrite Hgone.
  - rewrite Hex. cbn. rewrite Hd2, Hgone. reflexivity.
  - intros other Hne. rewrite Hd3, Hd2, Hd1.
    destruct (Redis.data r !! RedisCache._make_key short_code); cbn; [|reflexivity].
    apply lookup_delete_ne. intros Heq. apply make_key_inj in Heq. congruence.
Qed.

End Cache_more.

Lemma cache_set_then_get_witness :
  reliable (Redis.Build ∅ []) /\
  (exists r1 r2,
     RedisCache.set "hIAx" "https://example.com/a" (Some 0) (Redis.Build ∅ []) = (Ok tt, r1) /\
     RedisCache.get "hIAx" r1 = (Ok (Some "https://example.com/a"), r2) /\
     forall other, other <> "hIAx" ->
       fst (RedisCache.get other r1) = fst (RedisCache.get other (Redis.Build ∅ []))) /\
  (exists r1,
     RedisCache.set "hIAx" "https://example.com/a" (Some (-5)) (Redis.Build ∅ [])
     = (Raise ResponseError, r1) /\
     Redis.data r1 = Redis.data (Redis.Build ∅ [])).
Proof.
  assert (H : reliable (Redis.Build ∅ [])) by constructor.
  split; [exact H|]. split.
  - exact (cache_set_then_get "hIAx" "https://example.com/a" (Some 0) (Redis.Build ∅ []) H).
  - exact (cache_set_then_get "hIAx" "https://example.com/a" (Some (-5)) (Redis.Build ∅ []) H).
Defined.

Lemma cache_delete_then_get_witness :
  reliable (Redis.Build {[ "short_url:abc" := ("https://example.com/b", 86400) ]} []) /\
  exists r1 r2 r3,
    RedisCache.delete "abc"
      (Redis.Build {[ "short_url:abc" := ("https://example.com/b", 86400) ]} []) = (Ok tt, r1) /\
    RedisCache.get "abc" r1 = (Ok None, r2) /\
    RedisCache.exists_ "abc" r2 = (Ok false, r3) /\
    forall other, other <> "abc" ->
      Redis.data r3 !! RedisCache._make_key other
      = ({[ "short_url:abc" := ("https://example.com/b", 86400) ]} : gmap string (string * Z))
          !! RedisCache._make_key other.
Proof.
  assert (H : reliable (Redis.Build {[ "short_url:abc" := ("https://example.com/b", 86400) ]} []))
    by constructor.
  split; [exact H|].
  exact (cache_delete_then_get "abc" _ H).
Defined.

(** ** Worker-id leases *)

Section Lease_more.
Import WorkerID.

(** The loop of [acquire_worker_id], when it returns an id. *)
Lemma acquire_loop_ok (max_id : Z) (candidates : list Z) :
  forall w w' n,
    acquire_loop max_id candidates w = (Ok n, w') ->
    In n candidates /\
    Redis.data (redis w) !! lease_key n = None /\
    Redis.data (redis w')
    = <[lease_key n := ("leased", lease_ttl (self w))]> (Redis.data (redis w)) /\
    worker_id (self w') = Some n /\
    renewal_task (self w') = Some Sleeping /\
    lease_ttl (self w') = lease_ttl (self w).
Proof.
  induction candidates as [|c rest IH]; intros w w' n; cbn [acquire_loop].
  - discriminate.
  - unfold bind at 1, get_state. unfold bind at 1, on_redis, zoom, Redis.set_nx_ex.
    destruct (Redis.command _ (redis w)) as [[acquired| |] r1] eqn:Hcmd; try discriminate.
    apply redis_command_inv in Hcmd as [Ha Hd].
    destruct (Redis.data (redis w) !! lease_key c) as [v|] eqn:Hkey; cbn in Ha, Hd; subst acquired.
    + intros H. apply IH in H. cbn in H. rewrite Hd in H.
      destruct H as (Hin & Hnone & Hdata & Hrest).
      split; [now right|]. split; [exact Hnone|]. split; [exact Hdata | exact Hrest].
    + unfold bind, update_self, logger, modify, ret. cbn.
      intros H; inversion H; subst; clear H. cbn. rewrite Hd.
      split; [now left|]. split; [exact Hkey|]. auto.
Qed.




Lemma in_range (n j : Z) : In j (range n) <-> 0 <= j < n.
Proof.
  unfold range. rewrite in_map_iff. split.
  - intros (i & <- & Hi). apply in_seq in Hi. lia.
  - intros H. exists (Z.to_nat j). split; [lia|]. apply in_seq. lia.
Qed.



(** X16 (two processes, one server). When two processes acquire one after the
    other on the same server, they get different worker ids, and each manager
    holds its own. *)
Theorem two_acquisitions_give_distinct_ids (settings_a settings_b : Settings)
    (c c1 c2 : WorkerID.cluster) (n m : Z) :
  WorkerID.as_a (WorkerID.acquire_worker_id settings_a) c = (Ok n, c1) ->
  WorkerID.as_b (WorkerID.acquire_worker_id settings_b) c1 = (Ok m, c2) ->
  n <> m /\
  WorkerID.worker_id (fst (WorkerID.proc_a c2)) = Some n /\
  WorkerID.worker_id (fst (WorkerID.proc_b c2)) = Some m.
Proof.
  unfold as_a, as_b, acquire_worker_id.
  destruct (acquire_loop _ _ _) as [r1 w1] eqn:H1. intros E; inversion E; subst; clear E.
  cbn [server proc_a proc_b fst snd].
  destruct (acquire_loop _ _ {| redis := redis w1 |}) as [r2 w2] eqn:H2.
  intros E; inversion E; subst; clear E. cbn.
  apply acquire_loop_ok in H1 as (_ & _ & Hd1 & Hid1 & _).
  apply acquire_loop_ok in H2 as (_ & Hnone & _ & Hid2 & _).
  cbn in *. split; [|auto].
  intros ->. rewrite Hd1, lookup_insert_eq in Hnone. discriminate.
Qed.

(** X17 (the acquired id suits the generator). An acquired id lies within
    0..MAX_WORKER_ID; when that setting does not exceed 1023, the constructor
    of SnowflakeIDGenerator accepts it. *)
Theorem acquired_id_is_a_valid_worker_id (settings : Settings) (w w' : WorkerID.world) (n : Z) :
  MAX_WORKER_ID settings <= Snowflake.MAX_WORKER_ID ->
  WorkerID.acquire_worker_id settings w = (Ok n, w') ->
  0 <= n <= MAX_WORKER_ID settings /\
  Snowflake.init n
  = Ok {| Snowflake.worker_id := n; Snowflake.sequence := 0; Snowflake.last_timestamp := -1 |}.
Proof.
  intros Hmax Hacq. unfold acquire_worker_id in Hacq.
  apply acquire_loop_ok in Hacq as (Hin & _). apply in_range in Hin.
  split; [lia|]. unfold Snowflake.init.
  destruct (0 <=? n) eqn:E1; [|apply Z.leb_gt in E1; lia].
  destruct (n <=? Snowflake.MAX_WORKER_ID) eqn:E2; [reflexivity|apply Z.leb_gt in E2; lia].
Qed.


(** X18 (acquire, then release). release_worker_id after acquire_worker_id
    puts the server's keys back to what they were before the acquisition, and
    the manager holds neither a worker id nor a renewal task. *)
Theorem release_undoes_acquire (settings : Settings) (w w1 : WorkerID.world) (n : Z) :
  WorkerID.acquire_worker_id settings w = (Ok n, w1) ->
  reliable (WorkerID.redis w1) ->
  exists w2,
    WorkerID.release_worker_id w1 = (Ok tt, w2) /\
    Redis.data (WorkerID.redis w2) = Redis.data (WorkerID.redis w) /\
    WorkerID.worker_id (WorkerID.self w2) = None /\
    WorkerID.renewal_task (WorkerID.self w2) = None.
Proof.
  intros Hacq Hrel. unfold acquire_worker_id in Hacq.
  apply acquire_loop_ok in Hacq as (_ & Hnone & Hdata & Hid & Htask & _).
  unfold release_worker_id, bind at 1, get_state. rewrite Htask, Hid.
  unfold bind at 1, update_self at 1, modify at 1.
  unfold bind at 1, on_redis, zoom, Redis.delete. cbn [redis self log].
  match goal with |- context [Redis.command ?f (redis w1)] =>
    destruct (reliable_command f (redis w1) Hrel) as (r2 & Hcmd & Hd & _) end.
  rewrite Hcmd. rewrite Hdata, lookup_insert_eq in Hd. cbn in Hd.
  rewrite delete_insert_eq, delete_id in Hd by assumption.
  unfold bind, logger, update_self, modify. cbn.
  eexists. split; [reflexivity|]. cbn. auto.
Qed.

(** X19 (a failing command ends the renewal). When a command of the renewal
    loop fails, the loop logs the error and ends: the manager keeps its worker
    id, the server's keys are as they were, and the task never touches the
    manager or the server again. *)
Theorem renewal_stops_after_transport_failure (w : WorkerID.world) (n : Z) (at_ : WorkerID.task) :
  WorkerID.worker_id (WorkerID.self w) = Some n ->
  WorkerID.renewal_task (WorkerID.self w) = Some at_ ->
  at_ <> WorkerID.Done ->
  next_command_fails (WorkerID.redis w) = true ->
  exists w',
    WorkerID._renew_lease_loop_step w = (Ok tt, w') /\
    WorkerID.renewal_task (WorkerID.self w') = Some WorkerID.Done /\
    WorkerID.worker_id (WorkerID.self w') = Some n /\
    WorkerID.log w' = (WorkerID.log w ++ [(ERROR, "Error in lease renewal loop")])%list /\
    Redis.data (WorkerID.redis w') = Redis.data (WorkerID.redis w) /\
    forall w'', WorkerID.self w'' = WorkerID.self w' ->
      exists w3, WorkerID._renew_lease_loop_step w'' = (Ok tt, w3) /\
                 WorkerID.self w3 = WorkerID.self w'' /\
                 WorkerID.redis w3 = WorkerID.redis w''.
Proof.
  intros Hid Htask Hnot Hfail.
  unfold _renew_lease_loop_step, bind at 1, get_state. rewrite Htask, Hid.
  assert (Hdone : forall w'', renewal_task (self w'') = Some Done ->
            worker_id (self w'') = Some n ->
            exists w3, _renew_lease_loop_step w'' = (Ok tt, w3) /\ self w3 = self w'' /\
                       redis w3 = redis w'').
  { intros w'' Ht Hi. unfold _renew_lease_loop_step, bind, get_state. rewrite Ht, Hi.
    cbn. unfold update_self, modify. eexists. split; [reflexivity|]. cbn.
    split; [|reflexivity]. destruct (self w''); cbn in *. now rewrite Ht. }
  destruct at_; [| |congruence];
    unfold renew_resume, renew_guard, try_except, bind, get_state, on_redis, zoom,
      Redis.expire, Redis.set_nx_ex, logger, update_self, modify, ret;
    rewrite redis_command_fails by assumption; cbn;
    (eexists; split; [reflexivity|]; cbn; rewrite Hid;
     repeat (split; [reflexivity|]);
     intros w'' Hs; apply Hdone; rewrite Hs; cbn; [reflexivity | exact Hid]).
Qed.

(** X20 (an expired lease nobody took). When the lease key is gone and nobody
    has taken the id, the renewal loop stores the key again with the lease's
    time to live and goes back to sleep, the manager still holding the id. *)
Theorem renewal_restores_expired_lease (w : WorkerID.world) (n : Z) :
  WorkerID.worker_id (WorkerID.self w) = Some n ->
  WorkerID.renewal_task (WorkerID.self w) = Some WorkerID.Sleeping ->
  reliable (WorkerID.redis w) ->
  Redis.data (WorkerID.redis w) !! WorkerID.lease_key n = None ->
  exists w1 w2,
    WorkerID._renew_lease_loop_step w = (Ok tt, w1) /\
    WorkerID._renew_lease_loop_step w1 = (Ok tt, w2) /\
    Redis.data (WorkerID.redis w2)
    = <[WorkerID.lease_key n := ("leased", WorkerID.lease_ttl (WorkerID.self w))]>
        (Redis.data (WorkerID.redis w)) /\
    WorkerID.worker_id (WorkerID.self w2) = Some n /\
    WorkerID.renewal_task (WorkerID.self w2) = Some WorkerID.Sleeping.
Proof.
  intros Hid Htask Hrel Hgone.
  destruct (reliable_next _ Hrel) as [Hok1 Hok2].
  assert (Hstep1 : exists w1, _renew_lease_loop_step w = (Ok tt, w1) /\
            self w1 = set_renewal_task (Some Reacquiring) (self w) /\
            redis w1 = Redis.Build (Redis.data (redis w)) (tail (Redis.faults (redis w)))).
  { unfold _renew_lease_loop_step, bind at 1, get_state. rewrite Htask, Hid.
    unfold renew_resume, renew_guard, try_except, bind, get_state, on_redis, zoom,
      Redis.expire, logger, update_self, modify, ret.
    rewrite redis_command_ok by assumption. rewrite Hgone. cbn.
    eexists. split; [reflexivity|]. cbn. auto. }
  destruct Hstep1 as (w1 & Hs1 & Hself1 & Hredis1).
  exists w1.
  assert (Hstep2 : exists w2, _renew_lease_loop_step w1 = (Ok tt, w2) /\
            self w2 = set_renewal_task (Some Sleeping) (self w1) /\
            Redis.data (redis w2)
            = <[lease_key n := ("leased", lease_ttl (self w))]> (Redis.data (redis w))).
  { unfold _renew_lease_loop_step, bind at 1, get_state. rewrite Hself1. cbn [renewal_task
      worker_id set_renewal_task]. rewrite Hid.
    unfold renew_resume, renew_guard, try_except, bind, get_state, on_redis, zoom,
      Redis.set_nx_ex, logger, update_self, modify, ret.
    rewrite Hredis1. rewrite redis_command_ok by assumption. cbn [Redis.data fst snd].
    rewrite Hgone. cbn. rewrite Hself1. cbn.
    eexists. split; [reflexivity|]. cbn. auto. }
  destruct Hstep2 as (w2 & Hs2 & Hself2 & Hdata2).
  exists w2. split; [exact Hs1|]. split; [exact Hs2|]. split; [exact Hdata2|].
  rewrite Hself2, Hself1. cbn. auto.
Qed.

End Lease_more.



Lemma two_acquisitions_give_distinct_ids_witness :
  (WorkerID.as_a (WorkerID.acquire_worker_id default_settings) fresh_cluster
   = (Ok 0, lease_held) /\
   WorkerID.as_b (WorkerID.acquire_worker_id default_settings) lease_held
   = (Ok 1, snd (WorkerID.as_b (WorkerID.acquire_worker_id default_settings) lease_held))) /\
  0 <> 1 /\
  WorkerID.worker_id
    (fst (WorkerID.proc_a
            (snd (WorkerID.as_b (WorkerID.acquire_worker_id default_settings) lease_held))))
  = Some 0 /\
  WorkerID.worker_id
    (fst (WorkerID.proc_b
            (snd (WorkerID.as_b (WorkerID.acquire_worker_id default_settings) lease_held))))
  = Some 1.
Proof.
  assert (H1 : WorkerID.as_a (WorkerID.acquire_worker_id default_settings) fresh_cluster
               = (Ok 0, lease_held)) by reflexivity.
  assert (H2 : WorkerID.as_b (WorkerID.acquire_worker_id default_settings) lease_held
               = (Ok 1, snd (WorkerID.as_b (WorkerID.acquire_worker_id default_settings)
                               lease_held))) by reflexivity.
  split; [auto|].
  exact (two_acquisitions_give_distinct_ids default_settings default_settings
           fresh_cluster lease_held _ 0 1 H1 H2).
Defined.

Lemma acquired_id_is_a_valid_worker_id_witness :
  (MAX_WORKER_ID default_settings <= Snowflake.MAX_WORKER_ID /\
   WorkerID.acquire_worker_id default_settings (newcomer one_lease)
   = (Ok 1, snd (WorkerID.acquire_worker_id default_settings (newcomer one_lease)))) /\
  0 <= 1 <= MAX_WORKER_ID default_settings /\
  Snowflake.init 1
  = Ok {| Snowflake.worker_id := 1; Snowflake.sequence := 0; Snowflake.last_timestamp := -1 |}.
Proof.
  assert (H1 : MAX_WORKER_ID default_settings <= Snowflake.MAX_WORKER_ID)
    by (cbn; layout_consts; lia).
  assert (H2 : WorkerID.acquire_worker_id default_settings (newcomer one_lease)
               = (Ok 1, snd (WorkerID.acquire_worker_id default_settings (newcomer one_lease))))
    by reflexivity.
  split; [auto|].
  exact (acquired_id_is_a_valid_worker_id default_settings (newcomer one_lease) _ 1 H1 H2).
Defined.

Lemma release_undoes_acquire_witness :
  (WorkerID.acquire_worker_id default_settings (newcomer one_lease)
   = (Ok 1, snd (WorkerID.acquire_worker_id default_settings (newcomer one_lease))) /\
   reliable (WorkerID.redis
               (snd (WorkerID.acquire_worker_id default_settings (newcomer one_lease))))) /\
  exists w2,
    WorkerID.release_worker_id
      (snd (WorkerID.acquire_worker_id default_settings (newcomer one_lease))) = (Ok tt, w2) /\
    Redis.data (WorkerID.redis w2) = Redis.data (WorkerID.redis (newcomer one_lease)) /\
    WorkerID.worker_id (WorkerID.self w2) = None /\
    WorkerID.renewal_task (WorkerID.self w2) = None.
Proof.
  assert (H1 : WorkerID.acquire_worker_id default_settings (newcomer one_lease)
               = (Ok 1, snd (WorkerID.acquire_worker_id default_settings (newcomer one_lease))))
    by reflexivity.
  assert (H2 : reliable (WorkerID.redis
               (snd (WorkerID.acquire_worker_id default_settings (newcomer one_lease)))))
    by (vm_compute; constructor).
  split; [auto|].
  exact (release_undoes_acquire default_settings (newcomer one_lease) _ 1 H1 H2).
Defined.

Lemma renewal_stops_after_transport_failure_witness :
  (WorkerID.worker_id (WorkerID.self (holder one_lease [true])) = Some 0 /\
   WorkerID.renewal_task (WorkerID.self (holder one_lease [true])) = Some WorkerID.Sleeping /\
   WorkerID.Sleeping <> WorkerID.Done /\
   next_command_fails (WorkerID.redis (holder one_lease [true])) = true) /\
  exists w',
    WorkerID._renew_lease_loop_step (holder one_lease [true]) = (Ok tt, w') /\
    WorkerID.renewal_task (WorkerID.self w') = Some WorkerID.Done /\
    WorkerID.worker_id (WorkerID.self w') = Some 0 /\
    WorkerID.log w'
    = (WorkerID.log (holder one_lease [true]) ++ [(ERROR, "Error in lease renewal loop")])%list /\
    Redis.data (WorkerID.redis w') = Redis.data (WorkerID.redis (holder one_lease [true])) /\
    forall w'', WorkerID.self w'' = WorkerID.self w' ->
      exists w3, WorkerID._renew_lease_loop_step w'' = (Ok tt, w3) /\
                 WorkerID.self w3 = WorkerID.self w'' /\
                 WorkerID.redis w3 = WorkerID.redis w''.
Proof.
  assert (H1 : WorkerID.worker_id (WorkerID.self (holder one_lease [true])) = Some 0)
    by reflexivity.
  assert (H2 : WorkerID.renewal_task (WorkerID.self (holder one_lease [true]))
               = Some WorkerID.Sleeping) by reflexivity.
  assert (H3 : WorkerID.Sleeping <> WorkerID.Done) by discriminate.
  assert (H4 : next_command_fails (WorkerID.redis (holder one_lease [true])) = true)
    by reflexivity.
  split; [auto|].
  exact (renewal_stops_after_transport_failure (holder one_lease [true]) 0 WorkerID.Sleeping
           H1 H2 H3 H4).
Defined.

Lemma renewal_restores_expired_lease_witness :
  (WorkerID.worker_id (WorkerID.self (holder ∅ [])) = Some 0 /\
   WorkerID.renewal_task (WorkerID.self (holder ∅ [])) = Some WorkerID.Sleeping /\
   reliable (WorkerID.redis (holder ∅ [])) /\
   Redis.data (WorkerID.redis (holder ∅ [])) !! WorkerID.lease_key 0 = None) /\
  exists w1 w2,
    WorkerID._renew_lease_loop_step (holder ∅ []) = (Ok tt, w1) /\
    WorkerID._renew_lease_loop_step w1 = (Ok tt, w2) /\
    Redis.data (WorkerID.redis w2)
    = <[WorkerID.lease_key 0 := ("leased", WorkerID.lease_ttl (WorkerID.self (holder ∅ [])))]>
        (Redis.data (WorkerID.redis (holder ∅ []))) /\
    WorkerID.worker_id (WorkerID.self w2) = Some 0 /\
    WorkerID.renewal_task (WorkerID.self w2) = Some WorkerID.Sleeping.
Proof.
  assert (H1 : WorkerID.worker_id (WorkerID.self (holder ∅ [])) = Some 0) by reflexivity.
  assert (H2 : WorkerID.renewal_task (WorkerID.self (holder ∅ [])) = Some WorkerID.Sleeping)
    by reflexivity.
  assert (H3 : reliable (WorkerID.redis (holder ∅ []))) by constructor.
  assert (H4 : Redis.data (WorkerID.redis (holder ∅ [])) !! WorkerID.lease_key 0 = None)
    by reflexivity.
  split; [auto|].
  exact (renewal_restores_expired_lease (holder ∅ []) 0 H1 H2 H3 H4).
Defined.

(** ** The relational table *)

Section Db_more.

Lemma select_first_app_miss (code : string) (t1 t2 : list Db.ShortURL) :
  Db.select_first code t1 = None ->
  Db.select_first code (t1 ++ t2) = Db.select_first code t2.
Proof.
  unfold Db.select_first. induction t1 as [|r rest IH]; cbn; [reflexivity|].
  destruct (String.eqb (Db.short_code r) code); [discriminate | exact IH].
Qed.

Lemma select_first_app_hit (code : string) (t1 t2 : list Db.ShortURL) (row : Db.ShortURL) :
  Db.select_first code t1 = Some row ->
  Db.select_first code (t1 ++ t2) = Some row.
Proof.
  unfold Db.select_first. induction t1 as [|r rest IH]; cbn; [discriminate|].
  destruct (String.eqb (Db.short_code r) code); [auto | exact IH].
Qed.

Lemma add_commit_ok (row : Db.ShortURL) (table table' : list Db.ShortURL) :
  Db.add_commit row table = (Ok tt, table') ->
  table' = (table ++ [row])%list /\
  forall r, In r table ->
    Db.snowflake_id r <> Db.snowflake_id row /\ Db.short_code r <> Db.short_code row.
Proof.
  unfold Db.add_commit. destruct (existsb _ table) eqn:E; [discriminate|].
  intros H; inversion H; subst. split; [reflexivity|].
  intros r Hin.
  assert (Hr : (Db.snowflake_id r =? Db.snowflake_id row)
               || String.eqb (Db.short_code r) (Db.short_code row) = false).
  { destruct ((Db.snowflake_id r =? Db.snowflake_id row)
              || String.eqb (Db.short_code r) (Db.short_code row)) eqn:E'; [|reflexivity].
    assert (existsb (fun r => (Db.snowflake_id r =? Db.snowflake_id row)
                       || String.eqb (Db.short_code r) (Db.short_code row)) table = true)
      by (apply existsb_exists; eauto).
    congruence. }
  apply orb_false_iff in Hr as [H1 H2].
  apply Z.eqb_neq in H1. apply String.eqb_neq in H2. auto.
Qed.

Lemma add_commit_lookup (row : Db.ShortURL) (table table' : list Db.ShortURL) :
  Db.unique_codes table ->
  Db.add_commit row table = (Ok tt, table') ->
  Db.unique_codes table' /\
  Db.select_first (Db.short_code row) table' = Some row /\
  forall code, code <> Db.short_code row ->
    Db.select_first code table' = Db.select_first code table.
Proof.
  intros Huniq Hadd. apply add_commit_ok in Hadd as [-> Hfresh].
  assert (Hmiss : Db.select_first (Db.short_code row) table = None).
  { apply select_first_none. intros r Hin. now apply Hfresh. }
  split; [|split].
  - unfold Db.unique_codes in *. rewrite map_app. cbn.
    apply NoDup_app. split; [exact Huniq|]. split; [|apply NoDup_singleton].
    intros c Hc Hc'. apply list_elem_of_singleton in Hc'. subst c.
    apply list_elem_of_In, in_map_iff in Hc as (r & Hcode & Hin).
    now apply (Hfresh r Hin).
  - rewrite select_first_app_miss by assumption. unfold Db.select_first. cbn.
    now rewrite String.eqb_refl.
  - intros code Hne. destruct (Db.select_first code table) as [r|] eqn:E.
    + now apply select_first_app_hit.
    + rewrite select_first_app_miss by assumption. unfold Db.select_first. cbn.
      apply String.eqb_neq in Hne. rewrite String.eqb_sym in Hne. now rewrite Hne.
Qed.

(** A committed row is what a later lookup of its code finds; lookups of other
    codes are not affected. *)
Lemma add_commit_then_select (row : Db.ShortURL) (table table' : list Db.ShortURL) :
  Db.unique_codes table ->
  Db.add_commit row table = (Ok tt, table') ->
  Db.unique_codes table' /\
  Db.select_first (Db.short_code row) table' = Some row /\
  forall code, code <> Db.short_code row ->
    Db.select_first code table' = Db.select_first code table.
Proof. apply add_commit_lookup. Qed.

(** The store refuses a row whose id or short code is taken. *)
Lemma add_commit_rejects_duplicates (row : Db.ShortURL) (table : list Db.ShortURL) (r : Db.ShortURL) :
  In r table ->
  Db.snowflake_id r = Db.snowflake_id row \/ Db.short_code r = Db.short_code row ->
  Db.add_commit row table = (Raise IntegrityError, table).
Proof.
  intros Hin Hdup. unfold Db.add_commit.
  assert (H : existsb (fun r => (Db.snowflake_id r =? Db.snowflake_id row)
                       || String.eqb (Db.short_code r) (Db.short_code row)) table = true).
  { apply existsb_exists. exists r. split; [exact Hin|]. apply orb_true_iff.
    destruct Hdup as [H|H]; [left; now apply Z.eqb_eq | right; now apply String.eqb_eq]. }
  now rewrite H.
Qed.

End Db_more.

(** ** The handlers *)

Section Api_more.
Import Api.

Lemma generate_raises_runtime_error (s s' : Snowflake.state) (e : exn) :
  Snowflake.generate s = (Raise e, s') -> e = RuntimeError.
Proof.
  destruct s as [[w sq last] [|now later]]; [discriminate|].
  step_generate.
  destruct (now <? last); [intros H; now inversion H|].
  destruct (now =? last); cbn.
  - destruct (Z.land (sq + 1) Snowflake.MAX_SEQUENCE =? 0); cbn; [|discriminate].
    destruct later as [|now' later']; [discriminate|]. cbn.
    destruct (Snowflake.spin last now' later') as [[t|e'|] c] eqn:Hspin; cbn;
      [discriminate | | discriminate].
    now apply spin_no_raise in Hspin.
  - discriminate.
Qed.

(** A call on the global generator touches nothing but the generator and
    the clock, and raises nothing but [RuntimeError]. *)
Lemma with_id_generator_frame (w w1 : world) (r : result Z) :
  with_id_generator Snowflake.generate w = (r, w1) ->
  table w1 = table w /\ redis w1 = redis w /\ settings w1 = settings w /\
  utcnow w1 = utcnow w /\
  forall e, r = Raise e -> e = RuntimeError.
Proof.
  unfold with_id_generator. destruct (id_generator w) as [g|].
  - destruct (Snowflake.generate _) as [r0 s0] eqn:Hg.
    intros H; inversion H; subst. cbn. repeat split.
    intros e ->. eapply generate_raises_runtime_error, Hg.
  - intros H; inversion H; subst. repeat split. intros e E. now inversion E.
Qed.

Lemma with_id_generator_code_frame (w w1 : world) (r : result string) :
  with_id_generator Snowflake.generate_short_code w = (r, w1) ->
  table w1 = table w /\ redis w1 = redis w /\ settings w1 = settings w /\
  utcnow w1 = utcnow w /\
  forall e, r = Raise e -> e = RuntimeError.
Proof.
  unfold with_id_generator, Snowflake.generate_short_code, bind, ret.
  destruct (id_generator w) as [g|].
  - destruct (Snowflake.generate _) as [[id|e0|] s0] eqn:Hg;
      intros H; inversion H; subst; cbn; repeat split; try discriminate.
    intros e E. inversion E; subst. eapply generate_raises_runtime_error, Hg.
  - intros H; inversion H; subst. repeat split. intros e E. now inversion E.
Qed.

(** A write with the default time to live is stored, unless the transport
    fails. *)
Lemma cache_set_default_outcome (code original_url : string) (r r' : Redis.t)
    (res : result unit) :
  RedisCache.set code original_url None r = (res, r') ->
  (res = Ok tt /\
   Redis.data r' = <[ "short_url:" ++ code := (original_url, 86400) ]> (Redis.data r)) \/
  (res = Raise ConnectionError /\ Redis.data r' = Redis.data r).
Proof.
  unfold RedisCache.set, Redis.setex, bind, Redis.command, ret, raise. cbn.
  destruct (Redis.faults r) as [|[] later]; intros H; inversion H; subst; cbn; auto.
Qed.

(** The stages of [create_short_url] on a request that carries a URL. *)
Lemma create_short_url_stages (req : ShortenRequest) (w w' : world)
    (r : result shorten_reply) :
  req_original_url req <> "" ->
  create_short_url (Some req) w = (r, w') ->
  (table w' = table w /\ Redis.data (redis w') = Redis.data (redis w) /\
   exists e, r = Raise e /\ (e = RuntimeError \/ e = IntegrityError)) \/
  (r = Diverge /\ table w' = table w /\ Redis.data (redis w') = Redis.data (redis w)) \/
  exists row,
    Db.add_commit row (table w) = (Ok tt, table w') /\
    Db.original_url row = req_original_url req /\
    ((r = Raise ConnectionError /\ Redis.data (redis w') = Redis.data (redis w)) \/
     (r = Ok {| r_short_code := Db.short_code row;
                r_short_url := str_rstrip "/" (BASE_URL (settings w)) ++ "/" ++ Db.short_code row;
                r_original_url := req_original_url req |} /\
      Redis.data (redis w')
      = <[ "short_url:" ++ Db.short_code row := (req_original_url req, 86400) ]>
          (Redis.data (redis w)))).
Proof.
  intros Hurl. unfold create_short_url.
  apply String.eqb_neq in Hurl. rewrite Hurl.
  unfold bind at 1.
  destruct (with_id_generator Snowflake.generate w) as [r1 w1] eqn:H1.
  apply with_id_generator_frame in H1 as (Ht1 & Hr1 & Hs1 & Hn1 & He1).
  destruct r1 as [id1|e1|].
  2:{ intros H; inversion H; subst. left. rewrite Ht1, Hr1.
      repeat split. exists e1. split; [reflexivity|]. left. now apply He1. }
  2:{ intros H; inversion H; subst. right. left. rewrite Ht1, Hr1. auto. }
  unfold bind at 1.
  destruct (with_id_generator Snowflake.generate_short_code w1) as [r2 w2] eqn:H2.
  apply with_id_generator_code_frame in H2 as (Ht2 & Hr2 & Hs2 & Hn2 & He2).
  destruct r2 as [code|e2|].
  2:{ intros H; inversion H; subst. left. rewrite Ht2, Hr2, Ht1, Hr1.
      repeat split. exists e2. split; [reflexivity|]. left. now apply He2. }
  2:{ intros H; inversion H; subst. right. left. rewrite Ht2, Hr2, Ht1, Hr1. auto. }
  unfold bind at 1, get_state. unfold bind at 1, session_add_commit.
  destruct (Db.add_commit _ (table w2)) as [ra t] eqn:Hadd.
  destruct ra as [[]|ea|].
  2:{ intros H; inversion H; subst. left. cbn.
      unfold Db.add_commit in Hadd. destruct (existsb _ _); inversion Hadd; subst.
      rewrite Ht2, Hr2, Ht1, Hr1. repeat split. eexists. split; [reflexivity|]. now right. }
  2:{ unfold Db.add_commit in Hadd. destruct (existsb _ _); discriminate. }
  unfold bind at 1, on_redis, zoom. cbn [redis set_table].
  destruct (RedisCache.set _ _ _ (redis w2)) as [rc r3] eqn:Hcmd.
  apply cache_set_default_outcome in Hcmd.
  intros H. right. right. eexists. rewrite <- Ht1, <- Ht2.
  destruct Hcmd as [[-> Hd] | [-> Hd]].
  - cbn in H. inversion H; subst; clear H. cbn.
    split; [exact Hadd|]. split; [reflexivity|]. right.
    rewrite Hs2, Hs1, Hd, Hr2, Hr1. split; reflexivity.
  - cbn in H. inversion H; subst; clear H. cbn.
    split; [exact Hadd|]. split; [reflexivity|]. left.
    rewrite Hd, Hr2, Hr1. split; reflexivity.
Qed.


(** X21 (what a successful create leaves behind). When create_short_url
    returns, the request's URL is not empty, one row with that URL and the
    returned code has been appended to the table, short_url is BASE_URL
    without its trailing slashes, a slash and the code, and the cache holds
    the URL under the code's key for 86400 seconds. *)
Theorem create_short_url_postconditions (request : option Api.ShortenRequest)
    (w w' : Api.world) (reply : Api.shorten_reply) :
  Api.create_short_url request w = (Ok reply, w') ->
  exists row,
    Api.table w' = (Api.table w ++ [row])%list /\
    request = Some {| Api.req_original_url := Api.r_original_url reply |} /\
    Api.r_original_url reply <> "" /\
    Db.original_url row = Api.r_original_url reply /\
    Db.short_code row = Api.r_short_code reply /\
    Api.r_short_url reply
    = str_rstrip "/" (BASE_URL (Api.settings w)) ++ "/" ++ Api.r_short_code reply /\
    Redis.data (Api.redis w') !! ("short_url:" ++ Api.r_short_code reply)
    = Some (Api.r_original_url reply, 86400).
Proof.
  intros Hrun. destruct request as [[u]|]; [|discriminate].
  destruct (String.eqb u "") eqn:Hu.
  { unfold create_short_url in Hrun. cbn [req_original_url] in Hrun. rewrite Hu in Hrun.
    discriminate. }
  apply String.eqb_neq in Hu.
  apply create_short_url_stages in Hrun; [|exact Hu].
  destruct Hrun as [(_ & _ & e & He & _)|[(He & _)|(row & Hadd & Hrow & Hout)]];
    try discriminate.
  destruct Hout as [[He _]|[Hr Hd]]; [discriminate|].
  inversion Hr; subst reply; clear Hr. cbn in *.
  apply add_commit_ok in Hadd as [Ht _].
  exists row. rewrite Hd, lookup_insert_eq. auto 10.
Qed.

(** X23 (the row is committed before the cache is written). When
    create_short_url fails with ConnectionError, the request had a URL and its
    row is already in the table, while the cache holds what it held. *)
Theorem create_short_url_commits_before_cache (request : option Api.ShortenRequest)
    (w w' : Api.world) :
  Api.create_short_url request w = (Raise ConnectionError, w') ->
  exists req row,
    request = Some req /\
    Api.table w' = (Api.table w ++ [row])%list /\
    Db.original_url row = Api.req_original_url req /\
    Redis.data (Api.redis w') = Redis.data (Api.redis w).
Proof.
  intros Hrun. destruct request as [[u]|]; [|discriminate].
  destruct (String.eqb u "") eqn:Hu.
  { unfold create_short_url in Hrun. cbn [req_original_url] in Hrun. rewrite Hu in Hrun.
    discriminate. }
  apply String.eqb_neq in Hu.
  apply create_short_url_stages in Hrun; [|exact Hu].
  destruct Hrun as [(_ & _ & e & He & [->| ->])|[(He & _)|(row & Hadd & Hrow & Hout)]];
    try discriminate.
  destruct Hout as [[_ Hd]|[Hr _]]; [|discriminate].
  apply add_commit_ok in Hadd as [Ht _].
  exists {| req_original_url := u |}, row. auto.
Qed.

(** The handler on any world, by what the cache answers. *)
Lemma redirect_hit (code u : string) (ttl : Z) (request : Request) (w : world) :
  Redis.data (redis w) !! ("short_url:" ++ code) = Some (u, ttl) ->
  u <> "" ->
  next_command_fails (redis w) = false ->
  exists w',
    redirect_to_url code request w = (Ok {| url := u; status_code := 301 |}, w') /\
    table w' = table w /\
    Redis.data (redis w') = Redis.data (redis w) /\
    tasks w'
    = (tasks w ++
       if publisher_available w
       then [ {| co_short_code := code; co_request := request; co_original_url := u |} ]
       else [])%list.
Proof.
  intros Hhit Hu Hok.
  unfold redirect_to_url. unfold bind at 1.
  unfold on_redis at 1, zoom, RedisCache.get, Redis.get.
  rewrite redis_command_ok by assumption. cbn [fst snd].
  change (RedisCache._make_key code) with ("short_url:" ++ code).
  rewrite Hhit. cbn [fmap option_fmap option_map fst].
  destruct u as [|c rest]; [congruence|]. cbn [truthy_str].
  unfold get_analytics_publisher, create_task, on_bus, zoom, try_except, bind, get_state,
    modify, logger, ret, raise, Bus.connect, publisher_available.
  destruct w as [st g c0 now t r p [up q fs] ts lg]. cbn.
  destruct p; cbn.
  - eexists. split; [reflexivity|]. cbn. auto.
  - destruct up; cbn; (eexists; split; [reflexivity|]; cbn; rewrite ?app_nil_r; auto).
Qed.

(** X24 (cache hit). When the cache holds a non-empty URL for the code and can
    be reached, redirect_to_url answers 301 with that URL and leaves the table
    and the cache's keys as they are. *)
Theorem redirect_cache_hit_skips_store (code u : string) (ttl : Z) (request : Api.Request)
    (w : Api.world) :
  Redis.data (Api.redis w) !! ("short_url:" ++ code) = Some (u, ttl) ->
  u <> "" ->
  next_command_fails (Api.redis w) = false ->
  exists w',
    Api.redirect_to_url code request w
    = (Ok {| Api.url := u; Api.status_code := 301 |}, w') /\
    Api.table w' = Api.table w /\
    Redis.data (Api.redis w') = Redis.data (Api.redis w).
Proof.
  intros Hhit Hu Hok.
  destruct (redirect_hit code u ttl request w Hhit Hu Hok) as (w' & Hrun & Ht & Hd & _).
  eauto.
Qed.

(** X25 (create, then redirect). After create_short_url has returned a code,
    redirect_to_url of that code answers 301 with the original URL, provided
    the cache can be reached. *)
Theorem create_then_redirect (request : option Api.ShortenRequest) (visitor : Api.Request)
    (w w1 : Api.world) (reply : Api.shorten_reply) :
  Api.create_short_url request w = (Ok reply, w1) ->
  next_command_fails (Api.redis w1) = false ->
  exists w2,
    Api.redirect_to_url (Api.r_short_code reply) visitor w1
    = (Ok {| Api.url := Api.r_original_url reply; Api.status_code := 301 |}, w2).
Proof.
  intros Hcreate Hok.
  destruct request as [[u]|]; [|discriminate].
  destruct (String.eqb u "") eqn:Hu.
  { unfold create_short_url in Hcreate. cbn [req_original_url] in Hcreate.
    rewrite Hu in Hcreate. discriminate. }
  apply String.eqb_neq in Hu.
  apply create_short_url_stages in Hcreate; [|exact Hu].
  destruct Hcreate as [(_ & _ & e & He & _)|[(He & _)|(row & Hadd & Hrow & Hout)]];
    try discriminate.
  destruct Hout as [[He _]|[Hr Hd]]; [discriminate|].
  inversion Hr; subst reply; clear Hr. cbn in *.
  destruct (redirect_hit (Db.short_code row) u 86400 visitor w1) as (w2 & Hrun & _);
    [now rewrite Hd, lookup_insert_eq | exact Hu | exact Hok |].
  eauto.
Qed.

(** X26 (one click event per redirect). A redirect that answers, answers 301,
    and schedules exactly one publish_click_event task for the code and the
    target when a publisher is to be had, and none otherwise. *)
Theorem redirect_schedules_one_click_event (code : string) (request : Api.Request)
    (w w' : Api.world) (response : Api.RedirectResponse) :
  Api.redirect_to_url code request w = (Ok response, w') ->
  Api.status_code response = 301 /\
  Api.tasks w'
  = (Api.tasks w ++
     if publisher_available w
     then [ {| Api.co_short_code := code; Api.co_request := request;
               Api.co_original_url := Api.url response |} ]
     else [])%list.
Proof.
  unfold redirect_to_url, get_analytics_publisher, session_exec_first, create_task,
    on_redis, on_bus, zoom, try_except, bind, get_state, modify, logger, ret, raise,
    Bus.connect, publisher_available.
  destruct w as [st g c now t r p [up q fs] ts lg]. cbn.
  destruct (RedisCache.get code r) as [[o| |] r1]; cbn; try discriminate.
  destruct (truthy_str o); cbn.
  - destruct p; cbn; [|destruct up; cbn];
      intros H; inversion H; subst; cbn; rewrite ?app_nil_r; auto.
  - destruct (find _ t); cbn; [|discriminate].
    destruct (RedisCache.set _ _ _ r1) as [[[]| |] r2]; cbn; try discriminate.
    destruct p; cbn; [|destruct up; cbn];
      intros H; inversion H; subst; cbn; rewrite ?app_nil_r; auto.
Qed.

(** X27 (a served hit reaches the queue). Serving a cache hit with a working
    publisher answers 301 with the target as location, percent-encoded as
    RedirectResponse does it, appends the serialised click event to the
    queue, and leaves no task pending. *)
Theorem served_redirect_enqueues_click_event (dumps : Api.click_event -> result string)
    (code u body : string) (ttl : Z) (request : Api.Request) (w : Api.world) :
  Redis.data (Api.redis w) !! ("short_url:" ++ code) = Some (u, ttl) ->
  u <> "" ->
  next_command_fails (Api.redis w) = false ->
  publisher_available w = true ->
  Api.tasks w = [] ->
  dumps (Api.click_event_of code request u (Api.utcnow w)) = Ok body ->
  (forall e later, Bus.publish_faults (Api.bus w) <> Some e :: later) ->
  exists w',
    Api.serve_redirect dumps code request w
    = (Some {| Api.status := 301;
               Api.location := Some (quote Api.LOCATION_SAFE u) |}, w') /\
    Bus.queue (Api.bus w') = (Bus.queue (Api.bus w) ++ [body])%list /\
    Api.tasks w' = [].
Proof.
  intros Hhit Hu Hok Havail Htasks Hdumps Hfaults.
  unfold serve_redirect.
  assert (Hrun : exists w1,
            redirect_to_url code request w = (Ok {| url := u; status_code := 301 |}, w1) /\
            tasks w1 = [ {| co_short_code := code; co_request := request;
                            co_original_url := u |} ] /\
            utcnow w1 = utcnow w /\
            Bus.queue (bus w1) = Bus.queue (bus w) /\
            Bus.publish_faults (bus w1) = Bus.publish_faults (bus w)).
  { unfold redirect_to_url. unfold bind at 1.
    unfold on_redis at 1, zoom, RedisCache.get, Redis.get.
    rewrite redis_command_ok by assumption. cbn [fst snd].
    change (RedisCache._make_key code) with ("short_url:" ++ code).
    rewrite Hhit. cbn [fmap option_fmap option_map fst].
    destruct u as [|c rest]; [congruence|]. cbn [truthy_str].
    unfold get_analytics_publisher, create_task, on_bus, zoom, try_except, bind, get_state,
      modify, logger, ret, raise, Bus.connect, publisher_available in *.
    destruct w as [st g c0 now t r p [up q fs] ts lg]. cbn in *. subst ts.
    destruct p; cbn.
    - eexists. split; [reflexivity|]. cbn. auto.
    - subst up. cbn. eexists. split; [reflexivity|]. cbn. auto. }
  destruct Hrun as (w1 & Hrun & Ht1 & Hnow & Hq & Hf).
  rewrite Hrun, Ht1. cbn [run_tasks reply_of co_short_code co_request co_original_url
    url status_code].
  unfold publish_click_event, try_except, bind, get_state, on_bus, zoom, logger, modify.
  cbn. rewrite Hnow, Hdumps. unfold Bus.publish. cbn. rewrite Hf.
  destruct (Bus.publish_faults (bus w)) as [|[e|] later] eqn:E.
  - cbn. eexists. split; [reflexivity|]. cbn. rewrite Hq. auto.
  - exfalso. now apply (Hfaults e later).
  - cbn. eexists. split; [reflexivity|]. cbn. rewrite Hq. auto.
Qed.

End Api_more.

Lemma create_short_url_postconditions_witness :
  Api.create_short_url request_a shorten_world
  = (Ok reply_a, snd (Api.create_short_url request_a shorten_world)) /\
  exists row,
    Api.table (snd (Api.create_short_url request_a shorten_world))
    = (Api.table shorten_world ++ [row])%list /\
    request_a = Some {| Api.req_original_url := Api.r_original_url reply_a |} /\
    Api.r_original_url reply_a <> "" /\
    Db.original_url row = Api.r_original_url reply_a /\
    Db.short_code row = Api.r_short_code reply_a /\
    Api.r_short_url reply_a
    = str_rstrip "/" (BASE_URL (Api.settings shorten_world)) ++ "/" ++ Api.r_short_code reply_a /\
    Redis.data (Api.redis (snd (Api.create_short_url request_a shorten_world)))
      !! ("short_url:" ++ Api.r_short_code reply_a)
    = Some (Api.r_original_url reply_a, 86400).
Proof.
  assert (H : Api.create_short_url request_a shorten_world
              = (Ok reply_a, snd (Api.create_short_url request_a shorten_world)))
    by reflexivity.
  split; [exact H|].
  exact (create_short_url_postconditions request_a shorten_world _ reply_a H).
Defined.

Lemma create_short_url_commits_before_cache_witness :
  Api.create_short_url request_a shorten_world_cache_down
  = (Raise ConnectionError, snd (Api.create_short_url request_a shorten_world_cache_down)) /\
  exists req row,
    request_a = Some req /\
    Api.table (snd (Api.create_short_url request_a shorten_world_cache_down))
    = (Api.table shorten_world_cache_down ++ [row])%list /\
    Db.original_url row = Api.req_original_url req /\
    Redis.data (Api.redis (snd (Api.create_short_url request_a shorten_world_cache_down)))
    = Redis.data (Api.redis shorten_world_cache_down).
Proof.
  assert (H : Api.create_short_url request_a shorten_world_cache_down
              = (Raise ConnectionError,
                 snd (Api.create_short_url request_a shorten_world_cache_down)))
    by reflexivity.
  split; [exact H|].
  exact (create_short_url_commits_before_cache request_a shorten_world_cache_down _ H).
Defined.

Lemma redirect_cache_hit_skips_store_witness :
  (Redis.data (Api.redis (hit_world [])) !! ("short_url:" ++ "abc")
   = Some ("https://example.com/b", 86400) /\
   "https://example.com/b" <> "" /\
   next_command_fails (Api.redis (hit_world [])) = false) /\
  exists w',
    Api.redirect_to_url "abc" browser (hit_world [])
    = (Ok {| Api.url := "https://example.com/b"; Api.status_code := 301 |}, w') /\
    Api.table w' = Api.table (hit_world []) /\
    Redis.data (Api.redis w') = Redis.data (Api.redis (hit_world [])).
Proof.
  assert (H1 : Redis.data (Api.redis (hit_world [])) !! ("short_url:" ++ "abc")
               = Some ("https://example.com/b", 86400)) by reflexivity.
  assert (H2 : "https://example.com/b" <> "") by discriminate.
  assert (H3 : next_command_fails (Api.redis (hit_world [])) = false) by reflexivity.
  split; [auto|].
  exact (redirect_cache_hit_skips_store "abc" "https://example.com/b" 86400 browser
           (hit_world []) H1 H2 H3).
Defined.

Lemma create_then_redirect_witness :
  (Api.create_short_url request_a shorten_world
   = (Ok reply_a, snd (Api.create_short_url request_a shorten_world)) /\
   next_command_fails (Api.redis (snd (Api.create_short_url request_a shorten_world)))
   = false) /\
  exists w2,
    Api.redirect_to_url (Api.r_short_code reply_a) browser
      (snd (Api.create_short_url request_a shorten_world))
    = (Ok {| Api.url := Api.r_original_url reply_a; Api.status_code := 301 |}, w2).
Proof.
  assert (H1 : Api.create_short_url request_a shorten_world
               = (Ok reply_a, snd (Api.create_short_url request_a shorten_world)))
    by reflexivity.
  assert (H2 : next_command_fails
                 (Api.redis (snd (Api.create_short_url request_a shorten_world))) = false)
    by reflexivity.
  split; [auto|].
  exact (create_then_redirect request_a browser shorten_world _ reply_a H1 H2).
Defined.

Lemma redirect_schedules_one_click_event_witness :
  Api.redirect_to_url "xyz" browser (miss_world [])
  = (Ok {| Api.url := "https://example.com/c"; Api.status_code := 301 |},
     snd (Api.redirect_to_url "xyz" browser (miss_world []))) /\
  Api.status_code {| Api.url := "https://example.com/c"; Api.status_code := 301 |} = 301 /\
  Api.tasks (snd (Api.redirect_to_url "xyz" browser (miss_world [])))
  = (Api.tasks (miss_world []) ++
     if publisher_available (miss_world [])
     then [ {| Api.co_short_code := "xyz"; Api.co_request := browser;
               Api.co_original_url :=
                 Api.url {| Api.url := "https://example.com/c"; Api.status_code := 301 |} |} ]
     else [])%list.
Proof.
  assert (H : Api.redirect_to_url "xyz" browser (miss_world [])
              = (Ok {| Api.url := "https://example.com/c"; Api.status_code := 301 |},
                 snd (Api.redirect_to_url "xyz" browser (miss_world []))))
    by reflexivity.
  split; [exact H|].
  exact (redirect_schedules_one_click_event "xyz" browser (miss_world []) _ _ H).
Defined.

Lemma served_redirect_enqueues_click_event_witness :
  (Redis.data (Api.redis (hit_world [])) !! ("short_url:" ++ "abc")
   = Some ("https://example.com/b", 86400) /\
   "https://example.com/b" <> "" /\
   next_command_fails (Api.redis (hit_world [])) = false /\
   publisher_available (hit_world []) = true /\
   Api.tasks (hit_world []) = [] /\
   sample_dumps (Api.click_event_of "abc" browser "https://example.com/b"
                   (Api.utcnow (hit_world []))) = Ok sample_body /\
   (forall e later, Bus.publish_faults (Api.bus (hit_world [])) <> Some e :: later)) /\
  exists w',
    Api.serve_redirect sample_dumps "abc" browser (hit_world [])
    = (Some {| Api.status := 301; Api.location := Some "https://example.com/b" |}, w') /\
    Bus.queue (Api.bus w') = (Bus.queue (Api.bus (hit_world [])) ++ [sample_body])%list /\
    Api.tasks w' = [].
Proof.
  assert (H1 : Redis.data (Api.redis (hit_world [])) !! ("short_url:" ++ "abc")
               = Some ("https://example.com/b", 86400)) by reflexivity.
  assert (H2 : "https://example.com/b" <> "") by discriminate.
  assert (H3 : next_command_fails (Api.redis (hit_world [])) = false) by reflexivity.
  assert (H4 : publisher_available (hit_world []) = true) by reflexivity.
  assert (H5 : Api.tasks (hit_world []) = []) by reflexivity.
  assert (H6 : sample_dumps (Api.click_event_of "abc" browser "https://example.com/b"
                               (Api.utcnow (hit_world []))) = Ok sample_body) by reflexivity.
  assert (H7 : forall e later,
             Bus.publish_faults (Api.bus (hit_world [])) <> Some e :: later)
    by (intros e later; discriminate).
  split; [auto 8|].
  exact (served_redirect_enqueues_click_event sample_dumps "abc" "https://example.com/b"
           sample_body 86400 browser (hit_world []) H1 H2 H3 H4 H5 H6 H7).
Defined.

(** ** The consumer *)

Section Consumer_more.
Import Consumer.

Variable bytes_decode : string -> option string.
Variable json_loads : string -> option json.
Variable fromisoformat_strftime : string -> option string.
Variable rabbitmq_reachable : bool.

(** What the insert leaves behind, whatever the event. *)
Lemma insert_click_event_outcome (event : json) (w : world) :
  match insert_click_event fromisoformat_strftime event w with
  | (Ok _, w') =>
      (exists row, click_events w' = (click_events w ++ [row])%list) /\
      ready w' = ready w /\ acknowledged w' = acknowledged w /\ rejected w' = rejected w
  | (Raise e, w') =>
      is_JSONDecodeError e = false /\ is_Exception e = true /\
      click_events w' = click_events w /\
      ready w' = ready w /\ acknowledged w' = acknowledged w /\ rejected w' = rejected w
  | (Diverge, _) => False
  end.
Proof.
  unfold insert_click_event, try_except, bind, lift, py_getitem, py_get, escape_sql_string,
    py_replace, execute_insert, logger, modify, raise.
  destruct event as [| | | | |members]; try (cbn; repeat split; reflexivity).
  destruct (dict_lookup "timestamp" members) as [[]|];
    try (cbn; repeat split; reflexivity).
  destruct (fromisoformat_strftime _); [|cbn; repeat split; reflexivity].
  destruct (dict_lookup "short_code" members) as [[]|];
    try (cbn; repeat split; reflexivity);
  (destruct (dict_lookup "user_agent" members) as [[]|];
    try (cbn; repeat split; reflexivity));
  (destruct (dict_lookup "ip_address" members) as [[]|];
    try (cbn; repeat split; reflexivity));
  (destruct (dict_lookup "referrer" members) as [[]|];
    try (cbn; repeat split; reflexivity));
  (destruct (dict_lookup "original_url" members) as [[]|];
    try (cbn; repeat split; reflexivity));
  (destruct (execute_faults w) as [|[] later]; cbn;
    try (repeat split; reflexivity);
    (split; [eexists; reflexivity | repeat split; reflexivity])).
Qed.

(** X28 (every message is settled one way). process_message either returns
    with the message acknowledged, having appended one row or, for a body that
    is not JSON, none; or raises with the message rejected without requeue:
    not acknowledged, not back on the queue, and nothing appended. *)
Theorem process_message_settles (message : Consumer.IncomingMessage) (w : Consumer.world) :
  match Consumer.process_message bytes_decode json_loads fromisoformat_strftime message w with
  | (Ok _, w') =>
      Consumer.acknowledged w' = (Consumer.acknowledged w ++ [message])%list /\
      Consumer.rejected w' = Consumer.rejected w /\
      Consumer.ready w' = Consumer.ready w /\
      ((exists row, Consumer.click_events w' = (Consumer.click_events w ++ [row])%list) \/
       (Consumer.click_events w' = Consumer.click_events w /\
        exists text, bytes_decode (Consumer.body message) = Some text /\
                     json_loads text = None))
  | (Raise e, w') =>
      Consumer.acknowledged w' = Consumer.acknowledged w /\
      Consumer.rejected w' = (Consumer.rejected w ++ [message])%list /\
      Consumer.ready w' = Consumer.ready w /\
      Consumer.click_events w' = Consumer.click_events w
  | (Diverge, _) => False
  end.
Proof.
  unfold process_message, message_process, try_except, bind at 1, lift at 1.
  destruct (bytes_decode (body message)) as [text|] eqn:Hbytes.
  2:{ cbn. unfold bind, logger, modify, raise. cbn. auto. }
  unfold bind at 1, lift at 1.
  destruct (json_loads text) as [event|] eqn:Hjson.
  2:{ cbn. unfold bind, logger, modify. cbn. repeat (split; [reflexivity|]).
      right. eauto. }
  unfold bind at 1, lift at 1.
  destruct event as [| | | | |members];
    try (cbn; unfold bind, logger, modify, raise; cbn; auto; fail).
  cbn [py_get].
  replace (match dict_lookup "short_code" members with Some v => Ok v | None => Ok JNull end)
    with (Ok (default JNull (dict_lookup "short_code" members)))
    by (destruct (dict_lookup "short_code" members); reflexivity).
  unfold bind at 1, logger at 1, modify at 1. unfold bind at 1.
  match goal with |- context [insert_click_event ?f ?ev ?w0] =>
    pose proof (insert_click_event_outcome ev w0) as Hout;
    destruct (insert_click_event f ev w0) as [[[]|e|] w1] end.
  - destruct Hout as ([row Hrow] & Hready & Hack & Hrej). cbn in Hrow, Hready, Hack, Hrej.
    unfold bind, lift, logger, modify. cbn. rewrite Hack, Hready, Hrow, Hrej. eauto 6.
  - destruct Hout as (Hj & He & Hrows & Hready & Hack & Hrej).
    cbn in Hrows, Hready, Hack, Hrej.
    rewrite Hj, He. unfold bind, logger, modify, raise. cbn.
    rewrite Hack, Hready, Hrows, Hrej. auto.
  - destruct Hout.
Qed.

(** X29 (a failing INSERT). When the INSERT of a well-formed event fails,
    process_message raises the error; the message is not acknowledged, it is
    rejected without requeue and so is not back on the queue, and no row is
    appended. *)
Theorem failed_append_rejects_message (message : Consumer.IncomingMessage) (text : string)
    (members : list (string * Consumer.json)) (w : Consumer.world) (ts ts' : string) :
  bytes_decode (Consumer.body message) = Some text ->
  json_loads text = Some (Consumer.JObject members) ->
  Consumer.dict_lookup "timestamp" members = Some (Consumer.JString ts) ->
  fromisoformat_strftime (str_replace "Z" "+00:00" ts) = Some ts' ->
  absent_or_str "short_code" members ->
  absent_or_str "user_agent" members ->
  absent_or_str "ip_address" members ->
  absent_or_str "referrer" members ->
  absent_or_str "original_url" members ->
  hd false (Consumer.execute_faults w) = true ->
  exists w',
    Consumer.process_message bytes_decode json_loads fromisoformat_strftime message w
    = (Raise ClickHouseError, w') /\
    Consumer.acknowledged w' = Consumer.acknowledged w /\
    Consumer.rejected w' = (Consumer.rejected w ++ [message])%list /\
    Consumer.ready w' = Consumer.ready w /\
    Consumer.click_events w' = Consumer.click_events w.
Proof.
  intros Hbytes Hjson Hts Hiso Hc Hua Hip Hrf Hurl Hexec.
  rewrite (process_object _ _ _ _ _ _ _ Hbytes Hjson).
  assert (Hins : exists w1,
            insert_click_event fromisoformat_strftime (JObject members)
              (add_log [(DEBUG, "Received event")] w) = (Raise ClickHouseError, w1) /\
            acknowledged w1 = acknowledged w /\ ready w1 = ready w /\
            click_events w1 = click_events w /\ rejected w1 = rejected w).
  { unfold insert_click_event, try_except, bind, lift, py_getitem.
    rewrite Hts. cbn [py_replace]. rewrite Hiso.
    apply field_text_literal in Hc, Hua, Hip, Hrf, Hurl.
    unfold field_text in *. unfold py_get.
    destruct (dict_lookup "short_code" members);
      [rewrite Hc | clear Hc]; cbn [escape_sql_string py_replace str_replace];
    (destruct (dict_lookup "user_agent" members);
      [rewrite Hua | clear Hua]; cbn [escape_sql_string py_replace str_replace]);
    (destruct (dict_lookup "ip_address" members);
      [rewrite Hip | clear Hip]; cbn [escape_sql_string py_replace str_replace]);
    (destruct (dict_lookup "referrer" members);
      [rewrite Hrf | clear Hrf]; cbn [escape_sql_string py_replace str_replace]);
    (destruct (dict_lookup "original_url" members);
      [rewrite Hurl | clear Hurl]; cbn [escape_sql_string py_replace str_replace]);
    unfold execute_insert; cbn [execute_faults add_log];
    destruct (execute_faults w) as [|[] later]; try discriminate; cbn;
    (eexists; split; [reflexivity|]; cbn; auto). }
  destruct Hins as (w1 & Hins & Hack & Hready & Hrows & Hrej).
  rewrite Hins. cbn. eexists. split; [reflexivity|]. cbn.
  rewrite Hack, Hready, Hrows, Hrej. auto.
Qed.

(** X30 (a message without timestamp). When the first message waiting is an
    object without timestamp, consume_events ends with exit status 1; the
    message has been rejected without requeue, so the queue holds the
    messages behind it only, and nothing is acknowledged or appended. *)
Theorem poison_message_stops_consumer (deliveries : nat) (message : Consumer.IncomingMessage)
    (rest : list Consumer.IncomingMessage) (text : string)
    (members : list (string * Consumer.json)) (w : Consumer.world) :
  rabbitmq_reachable = true ->
  hd false (Consumer.execute_faults w) = false ->
  Consumer.ready w = message :: rest ->
  bytes_decode (Consumer.body message) = Some text ->
  json_loads text = Some (Consumer.JObject members) ->
  Consumer.dict_lookup "timestamp" members = None ->
  exists w',
    Consumer.consume_events bytes_decode json_loads fromisoformat_strftime
      rabbitmq_reachable (S deliveries) w = (Consumer.SystemExit 1, w') /\
    Consumer.ready w' = rest /\
    Consumer.rejected w' = (Consumer.rejected w ++ [message])%list /\
    Consumer.acknowledged w' = Consumer.acknowledged w /\
    Consumer.click_events w' = Consumer.click_events w.
Proof.
  intros Hup Hddl Hready Hbytes Hjson Hts.
  unfold consume_events. rewrite Hup.
  unfold ensure_clickhouse_table, execute_statement, try_except, bind, logger, modify, ret.
  cbn [execute_faults log ready acknowledged rejected click_events].
  destruct (execute_faults w) as [|[] later] eqn:Hf; try discriminate;
    cbn -[deliver_next consume_end];
    unfold deliver_next; cbn [ready acknowledged rejected click_events execute_faults log];
    rewrite Hready; unfold bind at 1;
    cbn [ready acknowledged rejected click_events execute_faults log];
    rewrite (process_object _ _ _ _ _ _ _ Hbytes Hjson);
    rewrite insert_missing_timestamp by assumption; cbn;
    (eexists; split; [reflexivity|]);
    unfold consume_finally, bind, logger, modify, ret; cbn; auto.
Qed.

(** When the table cannot be created or the broker cannot be reached, the
    consumer exits with status 1 before taking any message. *)
Lemma startup_failure_exits (deliveries : nat) (w : Consumer.world) :
  hd false (Consumer.execute_faults w) = true \/ rabbitmq_reachable = false ->
  exists w',
    Consumer.consume_events bytes_decode json_loads fromisoformat_strftime
      rabbitmq_reachable deliveries w = (Consumer.SystemExit 1, w') /\
    Consumer.ready w' = Consumer.ready w /\
    Consumer.acknowledged w' = Consumer.acknowledged w /\
    Consumer.click_events w' = Consumer.click_events w.
Proof.
  intros Hfail. unfold consume_events.
  unfold ensure_clickhouse_table, execute_statement, try_except, bind, logger, modify, ret,
    raise.
  cbn [execute_faults log ready acknowledged rejected click_events].
  destruct (execute_faults w) as [|[] later] eqn:Hf; cbn in Hfail |- *.
  - destruct Hfail as [?| ->]; [discriminate|]. cbn.
    eexists; split; [reflexivity|].
    unfold consume_finally, bind, logger, modify, ret; cbn; auto.
  - eexists; split; [reflexivity|].
    unfold consume_finally, bind, logger, modify, ret; cbn; auto.
  - destruct Hfail as [?| ->]; [discriminate|]. cbn.
    eexists; split; [reflexivity|].
    unfold consume_finally, bind, logger, modify, ret; cbn; auto.
Qed.

End Consumer_more.

Lemma failed_append_rejects_message_witness :
  (sample_bytes_decode (Consumer.body sample_message) = Some sample_event_text /\
   sample_json_loads sample_event_text = Some (Consumer.JObject sample_members) /\
   Consumer.dict_lookup "timestamp" sample_members
   = Some (Consumer.JString "2024-05-06T07:08:09.123456Z") /\
   sample_fromisoformat_strftime (str_replace "Z" "+00:00" "2024-05-06T07:08:09.123456Z")
   = Some "2024-05-06 07:08:09" /\
   absent_or_str "short_code" sample_members /\
   absent_or_str "user_agent" sample_members /\
   absent_or_str "ip_address" sample_members /\
   absent_or_str "referrer" sample_members /\
   absent_or_str "original_url" sample_members /\
   hd false (Consumer.execute_faults (consumer_with [] [true])) = true) /\
  exists w',
    Consumer.process_message sample_bytes_decode sample_json_loads
      sample_fromisoformat_strftime sample_message (consumer_with [] [true])
    = (Raise ClickHouseError, w') /\
    Consumer.acknowledged w' = Consumer.acknowledged (consumer_with [] [true]) /\
    Consumer.rejected w'
    = (Consumer.rejected (consumer_with [] [true]) ++ [sample_message])%list /\
    Consumer.ready w' = Consumer.ready (consumer_with [] [true]) /\
    Consumer.click_events w' = Consumer.click_events (consumer_with [] [true]).
Proof.
  assert (H1 : sample_bytes_decode (Consumer.body sample_message) = Some sample_event_text)
    by reflexivity.
  assert (H2 : sample_json_loads sample_event_text = Some (Consumer.JObject sample_members))
    by reflexivity.
  assert (H3 : Consumer.dict_lookup "timestamp" sample_members
               = Some (Consumer.JString "2024-05-06T07:08:09.123456Z")) by reflexivity.
  assert (H4 : sample_fromisoformat_strftime
                 (str_replace "Z" "+00:00" "2024-05-06T07:08:09.123456Z")
               = Some "2024-05-06 07:08:09") by reflexivity.
  assert (H5 : absent_or_str "short_code" sample_members) by exact I.
  assert (H6 : absent_or_str "user_agent" sample_members) by exact I.
  assert (H7 : absent_or_str "ip_address" sample_members) by exact I.
  assert (H8 : absent_or_str "referrer" sample_members) by exact I.
  assert (H9 : absent_or_str "original_url" sample_members) by exact I.
  assert (H10 : hd false (Consumer.execute_faults (consumer_with [] [true])) = true)
    by reflexivity.
  split; [auto 12|].
  exact (failed_append_rejects_message sample_bytes_decode sample_json_loads
           sample_fromisoformat_strftime sample_message sample_event_text sample_members
           (consumer_with [] [true]) _ _ H1 H2 H3 H4 H5 H6 H7 H8 H9 H10).
Defined.

Lemma poison_message_stops_consumer_witness :
  (true = true /\
   hd false (Consumer.execute_faults (consumer_with [empty_object_message; sample_message] []))
   = false /\
   Consumer.ready (consumer_with [empty_object_message; sample_message] [])
   = empty_object_message :: [sample_message] /\
   sample_bytes_decode (Consumer.body empty_object_message) = Some "{}" /\
   sample_json_loads "{}" = Some (Consumer.JObject []) /\
   Consumer.dict_lookup "timestamp" [] = None) /\
  exists w',
    Consumer.consume_events sample_bytes_decode sample_json_loads
      sample_fromisoformat_strftime true 3
      (consumer_with [empty_object_message; sample_message] [])
    = (Consumer.SystemExit 1, w') /\
    Consumer.ready w' = [sample_message] /\
    Consumer.rejected w'
    = (Consumer.rejected (consumer_with [empty_object_message; sample_message] [])
       ++ [empty_object_message])%list /\
    Consumer.acknowledged w'
    = Consumer.acknowledged (consumer_with [empty_object_message; sample_message] []) /\
    Consumer.click_events w'
    = Consumer.click_events (consumer_with [empty_object_message; sample_message] []).
Proof.
  assert (H1 : true = true) by reflexivity.
  assert (H2 : hd false (Consumer.execute_faults
                           (consumer_with [empty_object_message; sample_message] []))
               = false) by reflexivity.
  assert (H3 : Consumer.ready (consumer_with [empty_object_message; sample_message] [])
               = empty_object_message :: [sample_message]) by reflexivity.
  assert (H4 : sample_bytes_decode (Consumer.body empty_object_message) = Some "{}")
    by reflexivity.
  assert (H5 : sample_json_loads "{}" = Some (Consumer.JObject [])) by reflexivity.
  assert (H6 : Consumer.dict_lookup "timestamp" [] = None) by reflexivity.
  split; [auto 8|].
  exact (poison_message_stops_consumer sample_bytes_decode sample_json_loads
           sample_fromisoformat_strftime true 2 empty_object_message [sample_message] "{}" []
           (consumer_with [empty_object_message; sample_message] []) H1 H2 H3 H4 H5 H6).
Defined.
